(** * LLM Council: the debate orchestration engine

    A shallow embedding of the debate state machine of [App.tsx] and of the
    generation services of [services/geminiService.ts], followed by the
    properties the design document states about them.

    Embedded from [App.tsx]: [INITIAL_STATE], [handleStart], [addMessage],
    [updateMessageFallacy], [handleStop], [handleDirectorForcePhase],
    [advanceTurn] and the body of [runDebateStep] (voting pass, orchestrator
    step, tool resumption, turn start).  Embedded from [geminiService.ts]:
    [getClient], [generateContentWithRetry], [callOpenRouter],
    [generateGeneric], [generateAgentTurn], [generateToolResponse],
    [castVote], [generateFinalVerdict], [orchestratorDecide].

    Conventions.
    - JavaScript numbers that the code only ever uses as counters or
      indices ([currentRound], [maxRounds], array indices, delays in ms)
      are integers of [Z]; scores and costs are rationals.
    - [string | null] and optional fields are [option string]; the empty
      string is falsy wherever the code tests a string with [||].
    - A [setState (prev => ...)] updater is a function on [DebateState.t];
      an updater whose body dereferences [undefined] (a [TypeError]) yields
      [None].  The updaters one handler queues are applied in order to the
      state the handler saw.
    - Whatever the outside world decides (how a provider call settles, a
      fresh uuid, the clock) is an explicit argument.  Prompts only feed the
      provider, so the arguments that only build a prompt are dropped.
    - Cost accounting ([updateUsage]) rewrites [tokenUsage] only and is left
      out of the transitions, and so is the detached fallacy analysis, whose
      only effect on the state is a later [updateMessageFallacy]. *)

From Stdlib Require Import String List ZArith QArith Bool Lia.
Import ListNotations.

Local Open Scope string_scope.
Local Open Scope Z_scope.

(** ** Data model ([types.ts]) *)

Inductive AgentRole : Type :=
| OPTIMIST | SKEPTIC | REALIST | VISIONARY | HISTORIAN | SCIENTIST
| MODERATOR | ETHICIST | ECONOMIST | GUEST.

Inductive DebatePhase : Type :=
| SETUP | OPENING | REBUTTAL | SYNTHESIS | VOTING | VERDICT | USER_INPUT.

Inductive DebateMode : Type := FIXED | AUTO.

Inductive Severity : Type := minor | major.

Inductive MessageType : Type :=
| type_text | type_research | type_vote | type_error.

Definition DebatePhase_eqb (p q : DebatePhase) : bool :=
  match p, q with
  | SETUP, SETUP | OPENING, OPENING | REBUTTAL, REBUTTAL
  | SYNTHESIS, SYNTHESIS | VOTING, VOTING | VERDICT, VERDICT
  | USER_INPUT, USER_INPUT => true
  | _, _ => false
  end.

Module Agent.
Record t : Type := mk
  { id : string;
    name : string;
    role : AgentRole;
    systemPrompt : string;
    avatarColor : string;
    description : string;
    modelOverride : option string }.
End Agent.

Module Fallacy.
Record t : Type := mk
  { name : string;
    reason : string;
    severity : Severity }.
End Fallacy.

Module Citation.
Record t : Type := mk
  { title : string;
    uri : string }.
End Citation.

Module Message.
Record t : Type := mk
  { id : string;
    agentId : string;
    content : string;
    timestamp : Z;
    type : MessageType;
    citations : option (list Citation.t);
    phase : option DebatePhase;
    isGuest : option bool;
    guestRole : option string;
    fallacy : option Fallacy.t }.
End Message.

Module Vote.
Record t : Type := mk
  { voterId : string;
    targetAgentId : string;
    score : Q;
    reason : string }.
End Vote.

Module FinalVerdict.
Record t : Type := mk
  { winnerId : string;
    summary : string;
    keyTakeaways : list string;
    votes : list Vote.t }.
End FinalVerdict.

Module TokenUsage.
Record t : Type := mk
  { inputTokens : Z;
    outputTokens : Z;
    totalCost : Q }.
End TokenUsage.

Module ContextDocument.
Record t : Type := mk
  { id : string;
    content : string;
    timestamp : Z }.
End ContextDocument.

Module SummonedGuest.
Record t : Type := mk
  { name : string;
    role : string;
    reason : string }.
End SummonedGuest.

Module DebateState.
Record t : Type := mk
  { topic : string;
    mode : DebateMode;
    maxRounds : Z;
    currentRound : Z;
    phase : DebatePhase;
    currentTurnAgentId : option string;
    transcript : list Message.t;
    isThinking : bool;
    thinkingAgentId : option string;
    pendingUserQuestion : option string;
    finalVerdict : option FinalVerdict.t;
    tokenUsage : TokenUsage.t;
    userRequestedStop : bool;
    showConsultationPrompt : bool;
    summonedGuest : option SummonedGuest.t;
    contextDocuments : list ContextDocument.t }.

(** Field updates, one per field that some [{ ...prev, f: v }] of the
    engine rewrites. *)

Definition set_currentRound (v : Z) (s : t) : t :=
  mk (topic s) (mode s) (maxRounds s) v (phase s) (currentTurnAgentId s)
     (transcript s) (isThinking s) (thinkingAgentId s)
     (pendingUserQuestion s) (finalVerdict s) (tokenUsage s)
     (userRequestedStop s) (showConsultationPrompt s) (summonedGuest s)
     (contextDocuments s).

Definition set_phase (v : DebatePhase) (s : t) : t :=
  mk (topic s) (mode s) (maxRounds s) (currentRound s) v
     (currentTurnAgentId s) (transcript s) (isThinking s)
     (thinkingAgentId s) (pendingUserQuestion s) (finalVerdict s)
     (tokenUsage s) (userRequestedStop s) (showConsultationPrompt s)
     (summonedGuest s) (contextDocuments s).

Definition set_currentTurnAgentId (v : option string) (s : t) : t :=
  mk (topic s) (mode s) (maxRounds s) (currentRound s) (phase s) v
     (transcript s) (isThinking s) (thinkingAgentId s)
     (pendingUserQuestion s) (finalVerdict s) (tokenUsage s)
     (userRequestedStop s) (showConsultationPrompt s) (summonedGuest s)
     (contextDocuments s).

Definition set_transcript (v : list Message.t) (s : t) : t :=
  mk (topic s) (mode s) (maxRounds s) (currentRound s) (phase s)
     (currentTurnAgentId s) v (isThinking s) (thinkingAgentId s)
     (pendingUserQuestion s) (finalVerdict s) (tokenUsage s)
     (userRequestedStop s) (showConsultationPrompt s) (summonedGuest s)
     (contextDocuments s).

Definition set_isThinking (v : bool) (s : t) : t :=
  mk (topic s) (mode s) (maxRounds s) (currentRound s) (phase s)
     (currentTurnAgentId s) (transcript s) v (thinkingAgentId s)
     (pendingUserQuestion s) (finalVerdict s) (tokenUsage s)
     (userRequestedStop s) (showConsultationPrompt s) (summonedGuest s)
     (contextDocuments s).

Definition set_thinkingAgentId (v : option string) (s : t) : t :=
  mk (topic s) (mode s) (maxRounds s) (currentRound s) (phase s)
     (currentTurnAgentId s) (transcript s) (isThinking s) v
     (pendingUserQuestion s) (finalVerdict s) (tokenUsage s)
     (userRequestedStop s) (showConsultationPrompt s) (summonedGuest s)
     (contextDocuments s).

Definition set_pendingUserQuestion (v : option string) (s : t) : t :=
  mk (topic s) (mode s) (maxRounds s) (currentRound s) (phase s)
     (currentTurnAgentId s) (transcript s) (isThinking s)
     (thinkingAgentId s) v (finalVerdict s) (tokenUsage s)
     (userRequestedStop s) (showConsultationPrompt s) (summonedGuest s)
     (contextDocuments s).

Definition set_finalVerdict (v : option FinalVerdict.t) (s : t) : t :=
  mk (topic s) (mode s) (maxRounds s) (currentRound s) (phase s)
     (currentTurnAgentId s) (transcript s) (isThinking s)
     (thinkingAgentId s) (pendingUserQuestion s) v (tokenUsage s)
     (userRequestedStop s) (showConsultationPrompt s) (summonedGuest s)
     (contextDocuments s).

Definition set_userRequestedStop (v : bool) (s : t) : t :=
  mk (topic s) (mode s) (maxRounds s) (currentRound s) (phase s)
     (currentTurnAgentId s) (transcript s) (isThinking s)
     (thinkingAgentId s) (pendingUserQuestion s) (finalVerdict s)
     (tokenUsage s) v (showConsultationPrompt s) (summonedGuest s)
     (contextDocuments s).

Definition set_showConsultationPrompt (v : bool) (s : t) : t :=
  mk (topic s) (mode s) (maxRounds s) (currentRound s) (phase s)
     (currentTurnAgentId s) (transcript s) (isThinking s)
     (thinkingAgentId s) (pendingUserQuestion s) (finalVerdict s)
     (tokenUsage s) (userRequestedStop s) v (summonedGuest s)
     (contextDocuments s).

Definition set_summonedGuest (v : option SummonedGuest.t) (s : t) : t :=
  mk (topic s) (mode s) (maxRounds s) (currentRound s) (phase s)
     (currentTurnAgentId s) (transcript s) (isThinking s)
     (thinkingAgentId s) (pendingUserQuestion s) (finalVerdict s)
     (tokenUsage s) (userRequestedStop s) (showConsultationPrompt s) v
     (contextDocuments s).

Definition set_contextDocuments (v : list ContextDocument.t) (s : t) : t :=
  mk (topic s) (mode s) (maxRounds s) (currentRound s) (phase s)
     (currentTurnAgentId s) (transcript s) (isThinking s)
     (thinkingAgentId s) (pendingUserQuestion s) (finalVerdict s)
     (tokenUsage s) (userRequestedStop s) (showConsultationPrompt s)
     (summonedGuest s) v.
End DebateState.

Import DebateState.

(** ** JavaScript helpers *)

(** [xs.findIndex(p)]: the first index whose element satisfies [p], or
    [-1]. *)
Fixpoint findIndex_from {A : Type} (p : A -> bool) (xs : list A) (i : Z) : Z :=
  match xs with
  | [] => -1
  | x :: rest => if p x then i else findIndex_from p rest (i + 1)
  end.

Definition findIndex {A : Type} (p : A -> bool) (xs : list A) : Z :=
  findIndex_from p xs 0.

(** [xs[i]] for an index that is a non-negative integer; [None] is
    [undefined]. *)
Definition at_index {A : Type} (xs : list A) (i : Z) : option A :=
  if i <? 0 then None else nth_error xs (Z.to_nat i).

Definition length_Z {A : Type} (xs : list A) : Z := Z.of_nat (length xs).

(** [a.id === tid] where [tid] is a [string | null]. *)
Definition id_is (tid : option string) (a : Agent.t) : bool :=
  match tid with
  | Some s => String.eqb (Agent.id a) s
  | None => false
  end.

(** [tid === s] where [tid] is a [string | null]. *)
Definition turn_is (s : string) (tid : option string) : bool :=
  match tid with
  | Some t => String.eqb t s
  | None => false
  end.

(** [s || d] on strings. *)
Definition or_string (s d : string) : string :=
  if String.eqb s EmptyString then d else s.

(** ** The state machine ([App.tsx]) *)

Definition ORCHESTRATOR : string := "ORCHESTRATOR".
Definition CHAIRPERSON : string := "agent-chairperson".

Definition INITIAL_STATE : DebateState.t :=
  {| topic := EmptyString;
     mode := AUTO;
     maxRounds := 2;
     currentRound := 1;
     phase := SETUP;
     currentTurnAgentId := None;
     transcript := [];
     isThinking := false;
     thinkingAgentId := None;
     pendingUserQuestion := None;
     finalVerdict := None;
     tokenUsage := TokenUsage.mk 0 0 0%Q;
     userRequestedStop := false;
     showConsultationPrompt := false;
     summonedGuest := None;
     contextDocuments := [] |}.

(** White space that [String.prototype.trim] strips; strings are byte
    strings here, so only the ASCII part of it. *)
Definition is_space (c : Ascii.ascii) : bool :=
  let n := Ascii.nat_of_ascii c in
  ((9 <=? n)%nat && (n <=? 13)%nat) || (n =? 32)%nat.

(** [!s.trim()] *)
Fixpoint blank (s : string) : bool :=
  match s with
  | EmptyString => true
  | String c rest => is_space c && blank rest
  end.

(** [handleStart]: [selectedAgents[0].id] is read before the state is
    set. *)
Definition handleStart (uuid : string) (now : Z) (topic : string)
    (selectedAgents : list Agent.t) (mode : DebateMode) (maxRounds : Z)
    (initialContext : string) : option DebateState.t :=
  let contextDocs :=
    if blank initialContext then []
    else [ContextDocument.mk uuid initialContext now] in
  match at_index selectedAgents 0 with
  | None => None
  | Some a =>
      Some {| DebateState.topic := topic;
              DebateState.mode := mode;
              DebateState.maxRounds := maxRounds;
              currentRound := currentRound INITIAL_STATE;
              phase := OPENING;
              currentTurnAgentId := Some (Agent.id a);
              transcript := transcript INITIAL_STATE;
              isThinking := isThinking INITIAL_STATE;
              thinkingAgentId := thinkingAgentId INITIAL_STATE;
              pendingUserQuestion := pendingUserQuestion INITIAL_STATE;
              finalVerdict := finalVerdict INITIAL_STATE;
              tokenUsage := tokenUsage INITIAL_STATE;
              userRequestedStop := userRequestedStop INITIAL_STATE;
              showConsultationPrompt := showConsultationPrompt INITIAL_STATE;
              summonedGuest := summonedGuest INITIAL_STATE;
              contextDocuments := contextDocs |}
  end.

(** [addMessage]: appends one text message.  [state] is the render-time
    state the closure captured (it only supplies the default phase),
    [uuid] and [now] are the values [uuidv4()] and [Date.now()] return. *)
Definition addMessage (state : DebateState.t) (uuid : string) (now : Z)
    (agentId content : string) (citations : option (list Citation.t))
    (phase : option DebatePhase) (isGuest : bool)
    (guestRole existingId : option string)
    (prev : DebateState.t) : DebateState.t :=
  let msg :=
    {| Message.id := match existingId with
                     | Some i => or_string i uuid
                     | None => uuid
                     end;
       Message.agentId := agentId;
       Message.content := content;
       Message.timestamp := now;
       Message.type := type_text;
       Message.citations := citations;
       Message.phase := match phase with
                        | Some p => Some p
                        | None => Some (DebateState.phase state)
                        end;
       Message.isGuest := Some isGuest;
       Message.guestRole := guestRole;
       Message.fallacy := None |} in
  set_transcript (transcript prev ++ [msg]) prev.

(** [{ ...m, fallacy }] *)
Definition with_fallacy (m : Message.t) (f : Fallacy.t) : Message.t :=
  Message.mk (Message.id m) (Message.agentId m) (Message.content m)
    (Message.timestamp m) (Message.type m) (Message.citations m)
    (Message.phase m) (Message.isGuest m) (Message.guestRole m) (Some f).

Definition updateMessageFallacy (msgId : string) (fallacy : Fallacy.t)
    (prev : DebateState.t) : DebateState.t :=
  set_transcript
    (map (fun m => if String.eqb (Message.id m) msgId
                   then with_fallacy m fallacy else m)
         (transcript prev))
    prev.

(** [handleStop]: raises the flag, then tells the user through a system
    message.  Nothing else of the state is written. *)
Definition handleStop (state : DebateState.t) (uuid : string) (now : Z)
    (prev : DebateState.t) : DebateState.t :=
  addMessage state uuid now "system"
    "Debate stop requested. Concluding current phase..."
    None None false None None
    (set_userRequestedStop true prev).

(** [handleDirectorForcePhase]: [agents[0].id] is a [TypeError] on an empty
    roster, unless the forced phase is VOTING. *)
Definition handleDirectorForcePhase (agents : list Agent.t)
    (phase : DebatePhase) (prev : DebateState.t) : option DebateState.t :=
  match (if DebatePhase_eqb phase VOTING then Some None
         else match at_index agents 0 with
              | Some a => Some (Some (Agent.id a))
              | None => None
              end) with
  | Some turn =>
      Some (set_userRequestedStop false
             (set_isThinking false
               (set_currentTurnAgentId turn
                 (set_phase phase prev))))
  | None => None
  end.

(** What the end-of-cycle block of [advanceTurn] leaves behind: either the
    early [return] of auto-pilot mode, or the three local variables. *)
Inductive cycle_end : Type :=
| Return (s : DebateState.t)
| Locals (nextIndex : Z) (nextPhase : DebatePhase) (nextRound : Z).

(** The updater that [advanceTurn] passes to [setState]. *)
Definition advanceTurn (agents : list Agent.t) (prev : DebateState.t)
    : option DebateState.t :=
  (* Emergency Stop Check *)
  if userRequestedStop prev then
    Some (set_isThinking false
           (set_phase VOTING (set_currentTurnAgentId None prev)))
  else
    let currentAgentIndex :=
      findIndex (id_is (currentTurnAgentId prev)) agents in
    let nextIndex := currentAgentIndex + 1 in
    let nextPhase := phase prev in
    let nextRound := currentRound prev in
    let after_cycle :=
      if nextIndex >=? length_Z agents then
        match phase prev with
        | OPENING => Locals 0 REBUTTAL nextRound
        | REBUTTAL => Locals 0 SYNTHESIS nextRound
        | SYNTHESIS =>
            match mode prev with
            | FIXED =>
                if currentRound prev >=? maxRounds prev
                then Locals 0 VOTING nextRound
                else Locals 0 REBUTTAL (nextRound + 1)
            | AUTO =>
                Return (set_isThinking false
                         (set_phase nextPhase
                           (set_currentTurnAgentId (Some ORCHESTRATOR) prev)))
            end
        | _ => Locals 0 nextPhase nextRound
        end
      else Locals nextIndex nextPhase nextRound in
    match after_cycle with
    | Return s => Some s
    | Locals nextIndex nextPhase nextRound =>
        if DebatePhase_eqb nextPhase VOTING then
          Some (set_isThinking false
                 (set_phase nextPhase (set_currentTurnAgentId None prev)))
        else
          match at_index agents nextIndex with
          | None => None
          | Some a =>
              Some (set_thinkingAgentId None
                     (set_isThinking false
                       (set_currentRound nextRound
                         (set_phase nextPhase
                           (set_currentTurnAgentId (Some (Agent.id a))
                              prev)))))
          end
    end.

(** [n] successive runs of the rotation boundary, with the states they
    produce; the run ends early if an updater throws. *)
Fixpoint rotation (agents : list Agent.t) (n : nat) (s : DebateState.t)
    : list DebateState.t :=
  match n with
  | O => []
  | S k =>
      match advanceTurn agents s with
      | None => []
      | Some s' => s' :: rotation agents k s'
      end
  end.

(** The state after [n] successive runs of the rotation boundary, if none
    of them throws. *)
Fixpoint run (agents : list Agent.t) (n : nat) (s : DebateState.t)
    : option DebateState.t :=
  match n with
  | O => Some s
  | S k =>
      match advanceTurn agents s with
      | None => None
      | Some s' => run agents k s'
      end
  end.

(** A REBUTTAL/SYNTHESIS loop starts each time the phase becomes REBUTTAL:
    once out of OPENING, and once per loop back out of SYNTHESIS. *)
Definition starts_loop (s s' : DebateState.t) : Z :=
  if negb (DebatePhase_eqb (phase s) REBUTTAL)
     && DebatePhase_eqb (phase s') REBUTTAL
  then 1 else 0.

Fixpoint loops_started (s : DebateState.t) (trace : list DebateState.t) : Z :=
  match trace with
  | [] => 0
  | s' :: rest => starts_loop s s' + loops_started s' rest
  end.

(** ** Generation services ([services/geminiService.ts]) *)

(** A thrown value, with the three properties the retry helper inspects. *)
Module JsError.
Record t : Type := mk
  { status : option Z;
    code : option Z;
    message : option string }.
End JsError.

(** [new Error(msg)] *)
Definition Error (msg : string) : JsError.t :=
  JsError.mk None None (Some msg).

(** The [TypeError] of reading [.id] of [undefined]. *)
Definition TypeError_id : JsError.t :=
  Error "Cannot read properties of undefined (reading 'id')".

(** The [TypeError] of reading a property of [null]. *)
Definition TypeError_null : JsError.t :=
  Error "Cannot read properties of null".

(** How an awaited promise settles. *)
Inductive outcome (A : Type) : Type :=
| Resolved (a : A)
| Rejected (e : JsError.t).

Arguments Resolved {A} a.
Arguments Rejected {A} e.

(** [s.includes(sub)] *)
Fixpoint includes (s sub : string) : bool :=
  if String.prefix sub s then true
  else match s with
       | EmptyString => false
       | String _ rest => includes rest sub
       end.

Definition is_Z (n : Z) (v : option Z) : bool :=
  match v with
  | Some k => k =? n
  | None => false
  end.

Definition message_includes (sub : string) (e : JsError.t) : bool :=
  match JsError.message e with
  | Some m => includes m sub
  | None => false
  end.

(** The condition under which [generateContentWithRetry] tries again,
    apart from [retries > 0]. *)
Definition transient (e : JsError.t) : bool :=
  is_Z 429 (JsError.status e)
  || is_Z 429 (JsError.code e)
  || message_includes "429" e
  || message_includes "Quota" e
  || message_includes "quota" e
  || is_Z 503 (JsError.status e).

Inductive LLMProvider : Type := GOOGLE | OPENROUTER.

Module LLMConfig.
Record t : Type := mk
  { provider : LLMProvider;
    apiKey : option string;
    openRouterApiKey : option string;
    perplexityApiKey : option string;
    modelId : string }.
End LLMConfig.

Definition truthy (s : option string) : bool :=
  match s with
  | Some k => negb (String.eqb k EmptyString)
  | None => false
  end.

(** [getClient]: [envApiKey] is [process.env.API_KEY]. *)
Definition getClient (cfg : LLMConfig.t) (envApiKey : option string)
    : outcome unit :=
  if truthy (LLMConfig.apiKey cfg) || truthy envApiKey
  then Resolved tt
  else Rejected (Error "Google API Key not found").

(** [generateContentWithRetry].  [calls k] is how the [k]-th call of
    [ai.models.generateContent] settles, [attempt] the number of calls
    already made.  The result carries the list of [delay (ms)] waits, oldest
    first, next to the settlement of the whole call. *)
Fixpoint generateContentWithRetry {R : Type} (cfg : LLMConfig.t)
    (envApiKey : option string) (calls : nat -> outcome R) (attempt : nat)
    (retries : nat) (backoff : Z) : list Z * outcome R :=
  match getClient cfg envApiKey with
  | Rejected e => ([], Rejected e)
  | Resolved _ =>
      match calls attempt with
      | Resolved r => ([], Resolved r)
      | Rejected error =>
          match retries with
          | S retries' =>
              if transient error then
                let (waits, r) :=
                  generateContentWithRetry cfg envApiKey calls (S attempt)
                    retries' (backoff * 2) in
                (backoff :: waits, r)
              else ([], Rejected error)
          | O => ([], Rejected error)
          end
      end
  end.

Module ToolCall.
Record t : Type := mk
  { name : string;
    question : option string;   (* args.question *)
    query : option string;      (* args.query *)
    id : string }.
End ToolCall.

(** [GenericResponse], without the usage counters. *)
Module GenericResponse.
Record t : Type := mk
  { text : string;
    citations : option (list Citation.t);
    toolCall : option ToolCall.t;
    searchQueries : Z }.
End GenericResponse.

(** [callOpenRouter]: one [fetch], settled as [reply]. *)
Definition callOpenRouter (cfg : LLMConfig.t)
    (reply : outcome GenericResponse.t) : outcome GenericResponse.t :=
  if truthy (LLMConfig.openRouterApiKey cfg) then reply
  else Rejected (Error "OpenRouter API Key not found").

(** [generateGeneric]: the secondary provider is called once, the primary
    one through the retry helper with its default arguments.  The replies
    are given already normalised to [GenericResponse]. *)
Definition generateGeneric (cfg : LLMConfig.t) (envApiKey : option string)
    (forceOpenRouter : bool)
    (openRouterReply : outcome GenericResponse.t)
    (googleCalls : nat -> outcome GenericResponse.t)
    : list Z * outcome GenericResponse.t :=
  match LLMConfig.provider cfg, forceOpenRouter with
  | GOOGLE, false =>
      generateContentWithRetry cfg envApiKey googleCalls 0 3 2000
  | _, _ => ([], callOpenRouter cfg openRouterReply)
  end.

(** [generateAgentTurn], given how its [generateGeneric] call settled. *)
Definition generateAgentTurn (agent : Agent.t)
    (call : outcome GenericResponse.t) : GenericResponse.t :=
  match call with
  | Resolved response =>
      match GenericResponse.toolCall response with
      | Some _ => response
      | None =>
          {| GenericResponse.text :=
               or_string (GenericResponse.text response)
                         "I have no further comments.";
             GenericResponse.citations := GenericResponse.citations response;
             GenericResponse.toolCall := None;
             GenericResponse.searchQueries :=
               GenericResponse.searchQueries response |}
      end
  | Rejected _ =>
      {| GenericResponse.text := "Error generating response.";
         GenericResponse.citations := None;
         GenericResponse.toolCall := None;
         GenericResponse.searchQueries := 0 |}
  end.

(** [generateToolResponse]: no [try] here, a failed call rejects. *)
Definition generateToolResponse (call : outcome GenericResponse.t)
    : outcome GenericResponse.t :=
  match call with
  | Resolved response =>
      Resolved
        {| GenericResponse.text :=
             or_string (GenericResponse.text response) "Acknowledged.";
           GenericResponse.citations := GenericResponse.citations response;
           GenericResponse.toolCall := None;
           GenericResponse.searchQueries :=
             GenericResponse.searchQueries response |}
  | Rejected e => Rejected e
  end.

(** What [JSON.parse] makes of the cleaned reply text: it throws, it
    returns [null], or it returns a value whose fields of interest are
    [fields] (typed as the response schema of the call declares them, a
    missing field being [None]; a number or a string has none of them). *)
Inductive parsed (A : Type) : Type :=
| Unparsable
| JsonNull
| Json (fields : A).

Arguments Unparsable {A}.
Arguments JsonNull {A}.
Arguments Json {A} fields.

Module VoteJson.
Record t : Type := mk
  { targetAgentId : option string;
    score : option Q;
    reason : option string }.
End VoteJson.

(** [v || d] for an optional string field. *)
Definition or_field (v : option string) (d : string) : string :=
  match v with
  | Some s => or_string s d
  | None => d
  end.

(** [castVote], given how its [generateGeneric] call settled and how the
    reply parses.  The default vote reads [candidates[0].id] outside any
    [try]; the field reads happen inside one. *)
Definition castVote (agent : Agent.t) (otherAgents : list Agent.t)
    (call : outcome (parsed VoteJson.t)) : outcome Vote.t :=
  let candidates :=
    filter (fun a => negb (String.eqb (Agent.id a) (Agent.id agent)))
           otherAgents in
  match call with
  | Rejected e => Rejected e
  | Resolved response =>
      match at_index candidates 0 with
      | None => Rejected TypeError_id
      | Some first =>
          match response with
          | Json json =>
              Resolved
                {| Vote.voterId := Agent.id agent;
                   Vote.targetAgentId :=
                     or_field (VoteJson.targetAgentId json) (Agent.id first);
                   Vote.score :=
                     match VoteJson.score json with
                     | Some q => if Qeq_bool q 0 then 5%Q else q
                     | None => 5%Q
                     end;
                   Vote.reason :=
                     or_field (VoteJson.reason json) "Good points." |}
          | _ =>
              Resolved
                {| Vote.voterId := Agent.id agent;
                   Vote.targetAgentId := Agent.id first;
                   Vote.score := 5%Q;
                   Vote.reason := "Default" |}
          end
      end
  end.

Module VerdictJson.
Record t : Type := mk
  { winnerId : option string;
    summary : option string;
    keyTakeaways : option (list string) }.
End VerdictJson.

(** [generateFinalVerdict]: the fields are read outside the [try], so a
    [null] reply is a [TypeError]; so is [agents[0].id] on an empty roster
    when the reply names no winner. *)
Definition generateFinalVerdict (votes : list Vote.t) (agents : list Agent.t)
    (call : outcome (parsed VerdictJson.t)) : outcome FinalVerdict.t :=
  match call with
  | Rejected e => Rejected e
  | Resolved JsonNull => Rejected TypeError_null
  | Resolved response =>
      let json :=
        match response with
        | Json fields => fields
        | _ => VerdictJson.mk None None None
        end in
      let first_agent :=
        match at_index agents 0 with
        | Some a => Resolved (Agent.id a)
        | None => Rejected TypeError_id
        end in
      let winner :=
        match VerdictJson.winnerId json with
        | Some w => if String.eqb w EmptyString then first_agent else Resolved w
        | None => first_agent
        end in
      match winner with
      | Rejected e => Rejected e
      | Resolved w =>
          Resolved
            {| FinalVerdict.winnerId := w;
               FinalVerdict.summary :=
                 or_field (VerdictJson.summary json) "Debate concluded.";
               FinalVerdict.keyTakeaways :=
                 match VerdictJson.keyTakeaways json with
                 | Some l => l
                 | None => []
                 end;
               FinalVerdict.votes := votes |}
      end
  end.

Module GuestSpec.
Record t : Type := mk
  { name : string;
    role : string;
    systemPrompt : string;
    reason : string }.
End GuestSpec.

Module DecisionJson.
Record t : Type := mk
  { shouldConclude : option bool;
    guidance : option string;
    shouldConsultUser : option bool;
    summonGuest : option GuestSpec.t }.
End DecisionJson.

Module OrchestratorDecision.
Record t : Type := mk
  { shouldConclude : bool;
    guidance : string;
    shouldConsultUser : bool;
    summonGuest : option GuestSpec.t }.
End OrchestratorDecision.

Definition or_bool (v : option bool) (d : bool) : bool :=
  match v with
  | Some true => true
  | _ => d
  end.

(** [orchestratorDecide]: the [generateGeneric] call is awaited outside any
    [try], and so are the field reads. *)
Definition orchestratorDecide (currentRound : Z)
    (call : outcome (parsed DecisionJson.t))
    : outcome OrchestratorDecision.t :=
  match call with
  | Rejected e => Rejected e
  | Resolved JsonNull => Rejected TypeError_null
  | Resolved response =>
      let json :=
        match response with
        | Json fields => fields
        | _ => DecisionJson.mk None None None None
        end in
      Resolved
        {| OrchestratorDecision.shouldConclude :=
             or_bool (DecisionJson.shouldConclude json) (currentRound >? 5);
           OrchestratorDecision.guidance :=
             or_field (DecisionJson.guidance json) "Continue the debate.";
           OrchestratorDecision.shouldConsultUser :=
             or_bool (DecisionJson.shouldConsultUser json) false;
           OrchestratorDecision.summonGuest :=
             DecisionJson.summonGuest json |}
  end.

(** ** The orchestration loop ([runDebateStep] of [App.tsx]) *)

(** The two [useRef] cells next to the state. *)
Module Refs.
Record t : Type := mk
  { processingRef : bool;
    pendingToolCallRef : option (string * string) (* id, name *) }.
End Refs.

(** Everything one run of [runDebateStep] receives from outside: how each
    generation call it may make settles (after the generation client has
    done its retries), the uuids and the clock readings. *)
Module World.
Record t : Type := mk
  { uuidv4 : nat -> string;
    now : nat -> Z;
    voteCalls : nat -> outcome (parsed VoteJson.t);
    verdictCall : outcome (parsed VerdictJson.t);
    decisionCall : outcome (parsed DecisionJson.t);
    turnCall : outcome GenericResponse.t;
    toolReplyCall : outcome GenericResponse.t }.
End World.

(** The [for (const agent of agents)] loop of the voting phase: [rest] is
    what remains to visit, [i] the position reached, [votes] the array
    filled so far.  A rejected [castVote] is logged and skipped. *)
Fixpoint collectVotes (agents : list Agent.t)
    (calls : nat -> outcome (parsed VoteJson.t)) (i : nat)
    (rest : list Agent.t) (votes : list Vote.t) : list Vote.t :=
  match rest with
  | [] => votes
  | agent :: rest' =>
      match castVote agent agents (calls i) with
      | Resolved vote => collectVotes agents calls (S i) rest' (votes ++ [vote])
      | Rejected _ => collectVotes agents calls (S i) rest' votes
      end
  end.


(** 1. Voting Phase.  A rejected verdict call leaves [isThinking] raised. *)
Definition votingPass (w : World.t) (agents : list Agent.t)
    (state : DebateState.t) : DebateState.t :=
  let thinking := set_isThinking true state in
  let votes := collectVotes agents (World.voteCalls w) 0 agents [] in
  match generateFinalVerdict votes agents (World.verdictCall w) with
  | Resolved verdict =>
      set_finalVerdict (Some verdict)
        (set_isThinking false (set_phase VERDICT thinking))
  | Rejected _ => thinking
  end.

(** The updater of the [catch] of the orchestrator step ("Fallback
    continue"): back to REBUTTAL at the first agent, round untouched. *)
Definition fallback_continue (agents : list Agent.t)
    (prev : DebateState.t) : option DebateState.t :=
  match at_index agents 0 with
  | None => None
  | Some a =>
      Some (set_isThinking false
             (set_phase REBUTTAL
               (set_currentTurnAgentId (Some (Agent.id a)) prev)))
  end.

(** The updater that starts the next round with the first agent. *)
Definition next_round (agents : list Agent.t)
    (prev : DebateState.t) : option DebateState.t :=
  match at_index agents 0 with
  | None => None
  | Some a =>
      Some (set_isThinking false
             (set_currentRound (currentRound prev + 1)
               (set_phase REBUTTAL
                 (set_currentTurnAgentId (Some (Agent.id a)) prev))))
  end.

Definition guest_agent (guest : GuestSpec.t) : Agent.t :=
  {| Agent.id := "guest";
     Agent.name := GuestSpec.name guest;
     Agent.role := GUEST;
     Agent.systemPrompt := GuestSpec.systemPrompt guest;
     Agent.avatarColor := "bg-amber-500";
     Agent.description := "Guest Expert: " ++ GuestSpec.role guest;
     Agent.modelOverride := None |}.

(** 2. Orchestrator Decision (Auto Mode). *)
Definition orchestratorTurn (w : World.t) (agents : list Agent.t)
    (state : DebateState.t) : option DebateState.t :=
  let thinking := set_isThinking true state in
  match orchestratorDecide (currentRound state) (World.decisionCall w) with
  | Rejected _ =>
      (* Fallback continue *)
      fallback_continue agents thinking
  | Resolved decision =>
      if OrchestratorDecision.shouldConclude decision
         || userRequestedStop state
      then
        Some (set_isThinking false
               (set_phase VOTING
                 (set_currentTurnAgentId None
                   (addMessage state (World.uuidv4 w 0) (World.now w 0)
                      "system"
                      ("Chairperson Concluding: "
                         ++ OrchestratorDecision.guidance decision)
                      None None false None None thinking))))
      else
        match OrchestratorDecision.summonGuest decision with
        | Some guest =>
            let announced :=
              addMessage state (World.uuidv4 w 0) (World.now w 0)
                CHAIRPERSON
                ("(Summoning Expert) I am calling upon "
                   ++ GuestSpec.name guest ++ ", a " ++ GuestSpec.role guest
                   ++ ", to clarify this point because: "
                   ++ GuestSpec.reason guest)
                None None false None None thinking in
            let summoned :=
              set_summonedGuest
                (Some (SummonedGuest.mk (GuestSpec.name guest)
                         (GuestSpec.role guest) (GuestSpec.reason guest)))
                announced in
            let guestResult :=
              generateAgentTurn (guest_agent guest) (World.turnCall w) in
            let msgId := World.uuidv4 w 1 in
            let spoken :=
              addMessage state (World.uuidv4 w 2) (World.now w 1)
                (GuestSpec.name guest) (GenericResponse.text guestResult)
                (GenericResponse.citations guestResult)
                (Some (phase state)) true (Some (GuestSpec.role guest))
                (Some msgId) summoned in
            next_round agents (set_summonedGuest None spoken)
        | None =>
            let guided :=
              addMessage state (World.uuidv4 w 0) (World.now w 0)
                CHAIRPERSON (OrchestratorDecision.guidance decision)
                None None false None None thinking in
            if OrchestratorDecision.shouldConsultUser decision
            then Some (set_showConsultationPrompt true
                        (set_isThinking false guided))
            else next_round agents guided
        end
  end.

(** 3. Normal agent turns, "Start Turn".  The result pairs the refs with
    the state; [processingRef] is lowered again on every path. *)
Definition startTurn (w : World.t) (agents : list Agent.t) (refs : Refs.t)
    (state : DebateState.t) : option (Refs.t * DebateState.t) :=
  let thinking :=
    set_thinkingAgentId (currentTurnAgentId state)
      (set_isThinking true state) in
  let pending := Refs.pendingToolCallRef refs in
  match find (id_is (currentTurnAgentId state)) agents with
  | None => Some (Refs.mk false pending, thinking)
  | Some agent =>
      let result := generateAgentTurn agent (World.turnCall w) in
      match GenericResponse.toolCall result with
      | Some toolCall =>
          let pending' :=
            Some (ToolCall.id toolCall, ToolCall.name toolCall) in
          if String.eqb (ToolCall.name toolCall) "askUser" then
            (* Pause for user interaction *)
            Some (Refs.mk false pending',
                  set_pendingUserQuestion (ToolCall.question toolCall)
                    (set_phase USER_INPUT (set_isThinking false thinking)))
          else if String.eqb (ToolCall.name toolCall) "search_web" then
            match generateToolResponse (World.toolReplyCall w) with
            | Resolved toolResult =>
                let msgId := World.uuidv4 w 0 in
                option_map (pair (Refs.mk false pending'))
                  (advanceTurn agents
                    (addMessage state (World.uuidv4 w 1) (World.now w 0)
                       (Agent.id agent) (GenericResponse.text toolResult)
                       (GenericResponse.citations toolResult)
                       None false None (Some msgId) thinking))
            | Rejected _ =>
                (* catch (e) { console.error(e); advanceTurn(); } *)
                option_map (pair (Refs.mk false pending'))
                  (advanceTurn agents thinking)
            end
          else Some (Refs.mk false pending, thinking)
      | None =>
          (* Standard Text Response *)
          let msgId := World.uuidv4 w 0 in
          option_map (pair (Refs.mk false pending))
            (advanceTurn agents
              (addMessage state (World.uuidv4 w 1) (World.now w 0)
                 (Agent.id agent) (GenericResponse.text result)
                 (GenericResponse.citations result)
                 None false None (Some msgId) thinking))
      end
  end.

(** 3. Normal agent turns, "Resume from Tool".  A missing agent returns
    with [processingRef] still raised; a throw inside the [try] (an empty
    transcript, a rejected call) leaves the state as it was. *)
Definition resumeFromTool (w : World.t) (agents : list Agent.t)
    (refs : Refs.t) (state : DebateState.t)
    : option (Refs.t * DebateState.t) :=
  let pending := Refs.pendingToolCallRef refs in
  match find (id_is (currentTurnAgentId state)) agents with
  | None => Some (Refs.mk true pending, state)
  | Some agent =>
      match at_index (transcript state)
                     (length_Z (transcript state) - 1) with
      | None => Some (Refs.mk false pending, state)
      | Some lastMsg =>
          match generateToolResponse (World.toolReplyCall w) with
          | Rejected _ => Some (Refs.mk false pending, state)
          | Resolved result =>
              let msgId := World.uuidv4 w 0 in
              option_map (pair (Refs.mk false None))
                (advanceTurn agents
                  (addMessage state (World.uuidv4 w 1) (World.now w 0)
                     (Agent.id agent) (GenericResponse.text result)
                     (GenericResponse.citations result)
                     None false None (Some msgId) state))
          end
      end
  end.

Definition is_some {A : Type} (v : option A) : bool :=
  match v with
  | Some _ => true
  | None => false
  end.

(** One run of the effect body. *)
Definition runDebateStep (w : World.t) (agents : list Agent.t)
    (refs : Refs.t) (state : DebateState.t)
    : option (Refs.t * DebateState.t) :=
  if Refs.processingRef refs then Some (refs, state)
  else if truthy (pendingUserQuestion state) then Some (refs, state)
  else if showConsultationPrompt state then Some (refs, state)
  else if DebatePhase_eqb (phase state) VOTING
          && negb (isThinking state)
          && negb (is_some (finalVerdict state))
  then Some (Refs.mk false (Refs.pendingToolCallRef refs),
             votingPass w agents state)
  else if turn_is ORCHESTRATOR (currentTurnAgentId state)
  then option_map (pair (Refs.mk false (Refs.pendingToolCallRef refs)))
                  (orchestratorTurn w agents state)
  else if negb (truthy (currentTurnAgentId state))
          || DebatePhase_eqb (phase state) VERDICT
  then Some (refs, state)
  else if isThinking state && negb (is_some (Refs.pendingToolCallRef refs))
  then Some (refs, state)
  else if is_some (Refs.pendingToolCallRef refs) && isThinking state
  then resumeFromTool w agents refs state
  else if negb (isThinking state) then startTurn w agents refs state
  else Some (refs, state).

(** ** Auxiliary notions for the statements *)

(** How many more REBUTTAL/SYNTHESIS loops a fixed-mode debate can still
    start from [s]: the rounds left, plus the first loop while it is still
    in OPENING. *)
Definition loops_left (s : DebateState.t) : Z :=
  match phase s with
  | OPENING => Z.max 0 (maxRounds s - currentRound s) + 1
  | REBUTTAL | SYNTHESIS => Z.max 0 (maxRounds s - currentRound s)
  | _ => 0
  end.

Definition roster_ids (agents : list Agent.t) : list string :=
  map Agent.id agents.

(** A fixed-mode debate with [maxRounds = R] and no stop pending, in phase
    [p] of round [r], waiting for the agent at position [i] of the
    roster. *)
Definition on_turn (agents : list Agent.t) (R : Z) (i : nat)
    (p : DebatePhase) (r : Z) (s : DebateState.t) : Prop :=
  mode s = FIXED
  /\ userRequestedStop s = false
  /\ maxRounds s = R
  /\ phase s = p
  /\ currentRound s = r
  /\ exists a, nth_error agents i = Some a
               /\ currentTurnAgentId s = Some (Agent.id a).

(** The phases in which agents speak in turn. *)
Definition speaking : list DebatePhase := [OPENING; REBUTTAL; SYNTHESIS].

(** It is the turn of the agent [a] that stands at the end of the roster
    [front ++ [a]]. *)
Definition last_agent_turn (front : list Agent.t) (a : Agent.t)
    (s : DebateState.t) : Prop :=
  currentTurnAgentId s = Some (Agent.id a)
  /\ ~ In (Agent.id a) (roster_ids front).


(** The text message [addMessage] builds for an agent turn. *)
Definition turn_message (id : string) (now : Z) (agentId content : string)
    (citations : option (list Citation.t)) (phase : DebatePhase)
    : Message.t :=
  {| Message.id := id;
     Message.agentId := agentId;
     Message.content := content;
     Message.timestamp := now;
     Message.type := type_text;
     Message.citations := citations;
     Message.phase := Some phase;
     Message.isGuest := Some false;
     Message.guestRole := None;
     Message.fallacy := None |}.

(** ** Sample data *)

Definition sample_agent (id name : string) : Agent.t :=
  Agent.mk id name REALIST "You are a debater." "bg-blue-500" EmptyString None.

Definition alice : Agent.t := sample_agent "a1" "Alice".
Definition bob : Agent.t := sample_agent "b2" "Bob".
Definition carol : Agent.t := sample_agent "c3" "Carol".

Definition sample_state (m : DebateMode) (maxR round : Z) (p : DebatePhase)
    (turn : option string) (stop : bool) : DebateState.t :=
  {| topic := "Should tests be formal?";
     mode := m;
     maxRounds := maxR;
     currentRound := round;
     phase := p;
     currentTurnAgentId := turn;
     transcript := [];
     isThinking := false;
     thinkingAgentId := None;
     pendingUserQuestion := None;
     finalVerdict := None;
     tokenUsage := TokenUsage.mk 0 0 0%Q;
     userRequestedStop := stop;
     showConsultationPrompt := false;
     summonedGuest := None;
     contextDocuments := [] |}.

Definition sample_message (id content : string) : Message.t :=
  turn_message id 1700000000000 "a1" content None OPENING.

Definition rate_limited : JsError.t :=
  JsError.mk (Some 429) None (Some "Too Many Requests").


Definition plain_reply (t : string) : GenericResponse.t :=
  GenericResponse.mk t None None 0.

Definition sample_world (votes : nat -> outcome (parsed VoteJson.t))
    (turn : outcome GenericResponse.t)
    (decision : outcome (parsed DecisionJson.t)) : World.t :=
  {| World.uuidv4 := fun k => "uuid-" ++ String (Ascii.ascii_of_nat (48 + k)) EmptyString;
     World.now := fun k => 1700000000000 + Z.of_nat k;
     World.voteCalls := votes;
     World.verdictCall := Resolved Unparsable;
     World.decisionCall := decision;
     World.turnCall := turn;
     World.toolReplyCall := Resolved (plain_reply EmptyString) |}.

(** Every voter answers with the display name of Bob. *)
Definition names_bob : nat -> outcome (parsed VoteJson.t) :=
  fun _ => Resolved (Json (VoteJson.mk (Some "Bob") (Some 8%Q)
                             (Some "Clear reasoning."))).

(** The second of three vote calls fails, the others name a roster id. *)
Definition second_fails : nat -> outcome (parsed VoteJson.t) :=
  fun k => if (k =? 1)%nat then Rejected rate_limited
           else Resolved (Json (VoteJson.mk (Some "b2") (Some 7%Q)
                                  (Some "Best evidence.")))  .

(** ** Further handlers of [App.tsx] *)

(** [m?.phase || DebatePhase.OPENING] for the last message [m] of a
    transcript (every phase name is a non-empty string). *)
Definition last_phase_or_opening (tr : list Message.t) : DebatePhase :=
  match at_index tr (length_Z tr - 1) with
  | Some m =>
      match Message.phase m with
      | Some p => p
      | None => OPENING
      end
  | None => OPENING
  end.

(** [handleUserAnswer]: [state] is the state the handler saw, [prev] the
    one its updaters start from.  The answer is appended first, so the
    second updater already sees it. *)
Definition handleUserAnswer (agents : list Agent.t) (state : DebateState.t)
    (uuid : string) (now : Z) (answer : string) (prev : DebateState.t)
    : option DebateState.t :=
  if negb (truthy (pendingUserQuestion state))
     || negb (truthy (thinkingAgentId state))
  then Some prev
  else
    let answered :=
      addMessage state uuid now "user" answer None (Some USER_INPUT)
        false None None prev in
    if turn_is CHAIRPERSON (thinkingAgentId state) then
      match at_index agents 0 with
      | None => None
      | Some a =>
          Some (set_currentRound (currentRound answered + 1)
                 (set_currentTurnAgentId (Some (Agent.id a))
                   (set_phase REBUTTAL
                     (set_isThinking false
                       (set_pendingUserQuestion None answered)))))
      end
    else
      Some (set_isThinking true
             (set_phase (last_phase_or_opening (transcript answered))
               (set_pendingUserQuestion None answered))).

Definition floor_is_yours : string :=
  "The floor is yours. What feedback do you have for the Council?".

(** [handleConsultationChoice] *)
Definition handleConsultationChoice (agents : list Agent.t)
    (accepted : bool) (prev : DebateState.t) : option DebateState.t :=
  if negb accepted then
    match at_index agents 0 with
    | None => None
    | Some a =>
        Some (set_isThinking false
               (set_currentRound (currentRound prev + 1)
                 (set_currentTurnAgentId (Some (Agent.id a))
                   (set_phase REBUTTAL
                     (set_showConsultationPrompt false prev)))))
    end
  else
    Some (set_thinkingAgentId (Some CHAIRPERSON)
           (set_pendingUserQuestion (Some floor_is_yours)
             (set_showConsultationPrompt false prev))).

(** [generateFollowUp], given how its [generateGeneric] call settled. *)
Definition generateFollowUp (call : outcome GenericResponse.t)
    : outcome string :=
  match call with
  | Resolved response =>
      Resolved (or_string (GenericResponse.text response)
                          "I cannot answer that.")
  | Rejected e => Rejected e
  end.

(** [handleFollowUp]: the question is appended, [isThinking] raised, the
    answer appended if the call resolves, [isThinking] lowered in the
    [finally]. *)
Definition handleFollowUp (state : DebateState.t) (uuid : nat -> string)
    (now : nat -> Z) (question : string)
    (call : outcome GenericResponse.t) (prev : DebateState.t)
    : DebateState.t :=
  match finalVerdict state with
  | None => prev
  | Some _ =>
      let asked :=
        set_isThinking true
          (addMessage state (uuid 0%nat) (now 0%nat) "user" question
             None None false None None prev) in
      match generateFollowUp call with
      | Resolved answer =>
          set_isThinking false
            (addMessage state (uuid 1%nat) (now 1%nat) CHAIRPERSON answer
               None None false None None asked)
      | Rejected _ => set_isThinking false asked
      end
  end.

(** [handleDirectorInject] *)
Definition handleDirectorInject (state : DebateState.t) (uuid : string)
    (now : Z) (msg : string) (prev : DebateState.t) : DebateState.t :=
  addMessage state uuid now "system" ("[DIRECTOR OVERRIDE]: " ++ msg)
    None None false None None prev.

(** [handleDirectorSkipTurn] *)
Definition handleDirectorSkipTurn (agents : list Agent.t)
    (prev : DebateState.t) : option DebateState.t :=
  advanceTurn agents prev.

(** [handleDirectorAddContext]: the document first, then the notice. *)
Definition handleDirectorAddContext (state : DebateState.t)
    (uuid : nat -> string) (now : nat -> Z) (content : string)
    (prev : DebateState.t) : DebateState.t :=
  addMessage state (uuid 1%nat) (now 1%nat) "system"
    "New Research Context added to Council knowledge base."
    None None false None None
    (set_contextDocuments
       (contextDocuments prev
          ++ [ContextDocument.mk (uuid 0%nat) content (now 0%nat)])
       prev).

(** ** Fallacy analysis ([detectFallacies] and its [then] callback) *)

Module FallacyJson.
Record t : Type := mk
  { found : option bool;
    name : option string;
    reason : option string;
    severity : option Severity }.
End FallacyJson.



(** ** Prompt history ([generateAgentTurn]) *)

(** [xs.slice(-n)] for a positive [n]. *)
Definition slice_last {A : Type} (n : nat) (xs : list A) : list A :=
  skipn (length xs - n) xs.

(** [transcript.length > 15 ? transcript.slice(-15) : transcript] *)
Definition recentTranscript (transcript : list Message.t)
    : list Message.t :=
  if (15 <? length transcript)%nat then slice_last 15 transcript
  else transcript.

(** ** Roster selection ([ConfigView.tsx]) *)

(** [toggleAgent]: the next value of [selectedAgents]. *)
Definition toggleAgent (selectedAgents : list Agent.t) (agent : Agent.t)
    : list Agent.t :=
  match find (fun a => String.eqb (Agent.id a) (Agent.id agent))
             selectedAgents with
  | Some _ =>
      filter (fun a => negb (String.eqb (Agent.id a) (Agent.id agent)))
             selectedAgents
  | None =>
      if (length selectedAgents <? 5)%nat
      then (selectedAgents ++ [agent])%list
      else selectedAgents
  end.

(** ** What a run of the loop keeps *)

(** [s'] differs from [s] at most by up to two messages appended to the
    transcript, a round that stayed or grew by one, and the fields that
    control the flow (turn, phase, thinking, question, prompt, guest,
    verdict). *)
Definition step_keeps (s s' : DebateState.t) : Prop :=
  topic s' = topic s
  /\ mode s' = mode s
  /\ maxRounds s' = maxRounds s
  /\ userRequestedStop s' = userRequestedStop s
  /\ contextDocuments s' = contextDocuments s
  /\ currentRound s <= currentRound s' <= currentRound s + 1
  /\ exists added,
       transcript s' = (transcript s ++ added)%list
       /\ (length added <= 2)%nat.

(** ** More sample data *)

Definition sample_guest : GuestSpec.t :=
  GuestSpec.mk "Dr. Ito" "Epidemiologist" "You are an epidemiologist."
    "Nobody has cited data.".

(** A reply that only calls the tool [name]. *)
Definition sample_call (name : string) : ToolCall.t :=
  ToolCall.mk name (Some "What matters most to you?")
    (Some "latest figures") "call-1".

Definition calls_tool (name : string) : GenericResponse.t :=
  GenericResponse.mk EmptyString None (Some (sample_call name)) 0.

(** * Properties *)

(** Splits a conjunction into its parts, and nothing else. *)
Ltac split_and := repeat match goal with |- _ /\ _ => split end.

(** ** Facts about the helpers *)

Lemma DebatePhase_eqb_eq (p q : DebatePhase) :
  DebatePhase_eqb p q = true <-> p = q.
Proof.
  split.
  - destruct p, q; simpl; intro H; try reflexivity; discriminate H.
  - intros ->. destruct q; reflexivity.
Qed.

Lemma length_Z_app {A : Type} (xs ys : list A) :
  length_Z (xs ++ ys) = length_Z xs + length_Z ys.
Proof.
  unfold length_Z. rewrite length_app. lia.
Qed.

Lemma length_Z_nonneg {A : Type} (xs : list A) : 0 <= length_Z xs.
Proof.
  unfold length_Z. lia.
Qed.

Lemma at_index_middle {A : Type} (front rest : list A) (a : A) :
  at_index (front ++ a :: rest) (length_Z front) = Some a.
Proof.
  unfold at_index, length_Z.
  destruct (Z.ltb_spec (Z.of_nat (length front)) 0) as [Hneg | _]; [lia |].
  rewrite Nat2Z.id, nth_error_app2 by lia.
  now rewrite Nat.sub_diag.
Qed.

Lemma at_index_head {A : Type} (a : A) (rest : list A) :
  at_index (a :: rest) 0 = Some a.
Proof.
  reflexivity.
Qed.

Lemma findIndex_from_middle {A : Type} (p : A -> bool)
    (front rest : list A) (a : A) (i : Z) :
  (forall x, In x front -> p x = false) ->
  p a = true ->
  findIndex_from p (front ++ a :: rest) i = i + length_Z front.
Proof.
  revert i.
  induction front as [| x front IH]; intros i Hfront Ha; simpl.
  - rewrite Ha. unfold length_Z. simpl. lia.
  - rewrite (Hfront x (or_introl eq_refl)).
    rewrite IH by (intros; auto using in_cons).
    unfold length_Z. simpl length. lia.
Qed.

Lemma id_is_self (a : Agent.t) : id_is (Some (Agent.id a)) a = true.
Proof.
  apply String.eqb_refl.
Qed.

Lemma id_is_other (a : Agent.t) (front : list Agent.t) :
  ~ In (Agent.id a) (roster_ids front) ->
  forall x, In x front -> id_is (Some (Agent.id a)) x = false.
Proof.
  intros Hnot x Hx. simpl.
  apply String.eqb_neq. intro Heq.
  apply Hnot. rewrite <- Heq. now apply in_map.
Qed.

Lemma findIndex_of_turn (front rest : list Agent.t) (a : Agent.t) :
  ~ In (Agent.id a) (roster_ids front) ->
  findIndex (id_is (Some (Agent.id a))) (front ++ a :: rest)
  = length_Z front.
Proof.
  intro Hnot. unfold findIndex.
  rewrite findIndex_from_middle.
  - lia.
  - now apply id_is_other.
  - apply id_is_self.
Qed.

Lemma find_split {A : Type} (p : A -> bool) (xs : list A) (a : A) :
  find p xs = Some a ->
  exists front rest,
    xs = (front ++ a :: rest)%list
    /\ (forall x, In x front -> p x = false)
    /\ p a = true.
Proof.
  induction xs as [| x xs IH]; simpl; [discriminate |].
  destruct (p x) eqn:Hpx.
  - intros [= ->]. exists [], xs. simpl. intuition.
  - intro Hfind. destruct (IH Hfind) as (front & rest & -> & Hfront & Ha).
    exists (x :: front), rest. simpl.
    repeat split; auto.
    intros y [<- | Hy]; auto.
Qed.

Lemma at_index_in_range {A : Type} (xs : list A) (i : Z) :
  0 <= i < length_Z xs -> exists x, at_index xs i = Some x.
Proof.
  unfold at_index, length_Z. intros [Hlo Hhi].
  destruct (Z.ltb_spec i 0) as [Hneg | _]; [lia |].
  destruct (nth_error xs (Z.to_nat i)) as [x |] eqn:Hnth; [eauto |].
  apply nth_error_None in Hnth. lia.
Qed.

Lemma at_index_next {A : Type} (front rest : list A) (a b : A) :
  at_index (front ++ a :: b :: rest) (length_Z front + 1) = Some b.
Proof.
  replace (front ++ a :: b :: rest)%list
    with ((front ++ [a]) ++ b :: rest)%list
    by (rewrite <- app_assoc; reflexivity).
  replace (length_Z front + 1) with (length_Z (front ++ [a])).
  - apply at_index_middle.
  - rewrite length_Z_app. reflexivity.
Qed.

(** The boundary never throws while the turn belongs to an agent of the
    roster, and it leaves the transcript alone. *)
Lemma advanceTurn_defined (agents : list Agent.t) (st : DebateState.t)
    (agent : Agent.t) :
  find (id_is (currentTurnAgentId st)) agents = Some agent ->
  exists s', advanceTurn agents st = Some s'
    /\ transcript s' = transcript st
    /\ isThinking s' = false.
Proof.
  intro Hfind.
  destruct (find_split _ _ _ Hfind) as (front & rest & -> & Hfront & Hagent).
  unfold advanceTurn, findIndex.
  rewrite findIndex_from_middle by assumption.
  destruct (userRequestedStop st); [eexists; split_and; reflexivity |].
  destruct (Z.geb_spec (0 + length_Z front + 1)
                       (length_Z (front ++ agent :: rest))) as [Hend | Hin].
  - assert (Hfirst : exists first,
               at_index (front ++ agent :: rest) 0 = Some first).
    { destruct front; simpl; eauto using at_index_head. }
    destruct Hfirst as [first Hfirst].
    destruct (phase st); cbn [DebatePhase_eqb]; rewrite ?Hfirst;
      try (eexists; split_and; reflexivity).
    destruct (mode st); [| eexists; split_and; reflexivity].
    destruct (currentRound st >=? maxRounds st); cbn [DebatePhase_eqb];
      rewrite ?Hfirst; eexists; split_and; reflexivity.
  - destruct (at_index_in_range (front ++ agent :: rest)
                (0 + length_Z front + 1)) as [next Hnext].
    { pose proof (length_Z_nonneg front). lia. }
    destruct (DebatePhase_eqb (phase st) VOTING); rewrite ?Hnext;
      eexists; split_and; reflexivity.
Qed.

(** Away from the end of the roster, the boundary hands the turn to the
    next agent of the list and changes neither phase nor round. *)
Lemma advanceTurn_next (front rest : list Agent.t) (a b : Agent.t)
    (st : DebateState.t) :
  currentTurnAgentId st = Some (Agent.id a) ->
  ~ In (Agent.id a) (roster_ids front) ->
  userRequestedStop st = false ->
  phase st <> VOTING ->
  advanceTurn (front ++ a :: b :: rest) st
  = Some (set_thinkingAgentId None
            (set_isThinking false
               (set_currentRound (currentRound st)
                  (set_phase (phase st)
                     (set_currentTurnAgentId (Some (Agent.id b)) st))))).
Proof.
  intros Hturn Hfresh Hstop Hphase.
  unfold advanceTurn.
  rewrite Hstop, Hturn, findIndex_of_turn by assumption.
  destruct (Z.geb_spec (length_Z front + 1)
                       (length_Z (front ++ a :: b :: rest))) as [Hend | _].
  - rewrite length_Z_app in Hend. unfold length_Z in Hend.
    simpl length in Hend. lia.
  - destruct (DebatePhase_eqb (phase st) VOTING) eqn:Hvoting.
    + apply DebatePhase_eqb_eq in Hvoting. contradiction.
    + now rewrite at_index_next.
Qed.

Lemma find_turn (agents : list Agent.t) (turn : option string)
    (agent : Agent.t) :
  find (id_is turn) agents = Some agent -> turn = Some (Agent.id agent).
Proof.
  intro Hfind. apply find_some in Hfind as [_ Hid].
  destruct turn as [t |]; [| discriminate Hid].
  apply String.eqb_eq in Hid. now rewrite Hid.
Qed.

(** ** Turn rotation in fixed mode *)

Lemma advanceTurn_fixed_step (agents : list Agent.t) (s s' : DebateState.t) :
  mode s = FIXED ->
  advanceTurn agents s = Some s' ->
  mode s' = FIXED
  /\ starts_loop s s' + loops_left s' <= loops_left s.
Proof.
  intros Hmode Hstep.
  unfold advanceTurn in Hstep.
  destruct s as [tp md maxR round ph turn tr thinking who question verdict
                   usage stop prompt guest docs].
  simpl in *. subst md.
  unfold starts_loop, loops_left.
  destruct stop.
  - injection Hstep as <-. simpl. split; [reflexivity |].
    destruct ph; simpl; lia.
  - destruct (_ >=? length_Z agents) in Hstep;
      destruct ph; simpl in Hstep;
      try (destruct (Z.geb_spec round maxR) as [Hge | Hlt]; simpl in Hstep);
      try (destruct (at_index agents _) in Hstep);
      try discriminate Hstep;
      injection Hstep as <-; cbn -[Z.add Z.sub Z.max]; split;
      try reflexivity; lia.
Qed.

Lemma rotation_loops_bounded (agents : list Agent.t) (n : nat) :
  forall s, mode s = FIXED ->
    loops_started s (rotation agents n s) <= loops_left s.
Proof.
  induction n as [| n IH]; intros s Hmode; simpl.
  - unfold loops_left. destruct (phase s); lia.
  - destruct (advanceTurn agents s) as [s' |] eqn:Hstep; simpl.
    + destruct (advanceTurn_fixed_step agents s s' Hmode Hstep)
        as [Hmode' Hdec].
      specialize (IH s' Hmode'). lia.
    + unfold loops_left. destruct (phase s); lia.
Qed.

Lemma handleStart_shape (uuid : string) (now : Z) (topic : string)
    (agents : list Agent.t) (m : DebateMode) (R : Z) (ctx : string)
    (s0 : DebateState.t) :
  handleStart uuid now topic agents m R ctx = Some s0 ->
  mode s0 = m /\ maxRounds s0 = R /\ currentRound s0 = 1
  /\ phase s0 = OPENING /\ userRequestedStop s0 = false.
Proof.
  unfold handleStart.
  destruct (at_index agents 0); [| discriminate].
  intros [= <-]. simpl. repeat split.
Qed.

(** *** The rotation does reach VOTING *)

Lemma run_add (agents : list Agent.t) (n m : nat) :
  forall s,
    run agents (n + m) s
    = match run agents n s with
      | Some s' => run agents m s'
      | None => None
      end.
Proof.
  induction n as [| n IH]; intro s; simpl; [reflexivity |].
  destruct (advanceTurn agents s); [apply IH | reflexivity].
Qed.

Lemma not_in_front (front rest : list Agent.t) (a : Agent.t) :
  NoDup (roster_ids (front ++ a :: rest)) ->
  ~ In (Agent.id a) (roster_ids front).
Proof.
  unfold roster_ids. rewrite map_app. simpl. intros Hdistinct Hin.
  apply NoDup_remove_2 in Hdistinct. apply Hdistinct.
  apply in_or_app. now left.
Qed.

Section FixedRotation.

Variable agents : list Agent.t.
Variable R : Z.
Hypothesis distinct_ids : NoDup (roster_ids agents).

(** Inside the roster the boundary moves one position on. *)
Lemma advance_inside (i : nat) (p : DebatePhase) (r : Z)
    (s : DebateState.t) :
  (S i < length agents)%nat ->
  In p speaking ->
  on_turn agents R i p r s ->
  exists s', advanceTurn agents s = Some s'
    /\ on_turn agents R (S i) p r s'.
Proof.
  intros Hi Hp (Hmode & Hstop & Hmax & Hphase & Hround & a & Hnth & Hturn).
  destruct (nth_error_split agents i Hnth) as (front & tail & Hsplit & Hlen).
  destruct tail as [| b rest].
  { rewrite Hsplit, length_app in Hi. simpl in Hi. lia. }
  assert (Hfresh : ~ In (Agent.id a) (roster_ids front)).
  { apply (not_in_front front (b :: rest)). now rewrite <- Hsplit. }
  assert (Hnext : nth_error agents (S i) = Some b).
  { rewrite Hsplit, <- Hlen.
    replace (front ++ a :: b :: rest)%list
      with ((front ++ [a]) ++ b :: rest)%list
      by (rewrite <- app_assoc; reflexivity).
    rewrite nth_error_app2 by (rewrite length_app; cbn [length]; lia).
    replace (S (length front) - length (front ++ [a]))%nat with O
      by (rewrite length_app; cbn [length]; lia).
    reflexivity. }
  eexists. split.
  - rewrite Hsplit at 1. apply advanceTurn_next; try assumption.
    rewrite Hphase. intros ->.
    destruct Hp as [H | [H | [H | []]]]; discriminate H.
  - unfold on_turn. cbn. split_and; try assumption.
    exists b. now split.
Qed.

(** From the first agent, [k] runs of the boundary lead to the agent at
    position [k], in the same phase and round. *)
Lemma walk_roster (p : DebatePhase) (r : Z) (k : nat) :
  (k < length agents)%nat ->
  In p speaking ->
  forall s, on_turn agents R 0 p r s ->
    exists s', run agents k s = Some s' /\ on_turn agents R k p r s'.
Proof.
  intros Hk Hp s Hs.
  induction k as [| k IH].
  - exists s. now split.
  - destruct IH as (sk & Hrun & Hsk); [lia |].
    destruct (advance_inside k p r sk Hk Hp Hsk) as (s' & Hstep & Hs').
    exists s'. split; [| exact Hs'].
    replace (S k) with (k + 1)%nat by lia.
    rewrite run_add, Hrun. simpl. now rewrite Hstep.
Qed.

(** At the last agent the boundary starts the next phase at the first
    agent, or moves to VOTING once SYNTHESIS ends with the rounds used
    up. *)
Lemma advance_last (p : DebatePhase) (r : Z) (s : DebateState.t) :
  on_turn agents R (length agents - 1) p r s ->
  exists s', advanceTurn agents s = Some s'
    /\ match p with
       | OPENING => on_turn agents R 0 REBUTTAL r s'
       | REBUTTAL => on_turn agents R 0 SYNTHESIS r s'
       | SYNTHESIS =>
           if r >=? R
           then phase s' = VOTING /\ currentTurnAgentId s' = None
                /\ currentRound s' = r
           else on_turn agents R 0 REBUTTAL (r + 1) s'
       | _ => True
       end.
Proof.
  intros (Hmode & Hstop & Hmax & Hphase & Hround & a & Hnth & Hturn).
  destruct (nth_error_split agents _ Hnth) as (front & tail & Hsplit & Hlen).
  assert (Htail : tail = []).
  { destruct tail; [reflexivity |].
    rewrite Hsplit, length_app in Hlen. simpl in Hlen. lia. }
  subst tail.
  assert (Hfresh : ~ In (Agent.id a) (roster_ids front)).
  { apply (not_in_front front []). now rewrite <- Hsplit. }
  assert (Hfirst : exists first, nth_error agents 0 = Some first
                                 /\ at_index agents 0 = Some first).
  { rewrite Hsplit. destruct front; simpl; eauto. }
  destruct Hfirst as (first & Hfirst & Hat).
  assert (Hboundary :
            (findIndex (id_is (currentTurnAgentId s)) agents + 1
             >=? length_Z agents) = true).
  { rewrite Hsplit, Hturn, findIndex_of_turn by assumption.
    rewrite length_Z_app. apply Z.geb_le.
    change (length_Z [a]) with 1. lia. }
  unfold advanceTurn.
  rewrite Hstop, Hboundary, Hphase, Hmode, Hround, Hmax.
  destruct p; cbn [DebatePhase_eqb]; rewrite ?Hat;
    try (destruct (r >=? R); cbn [DebatePhase_eqb]; rewrite ?Hat);
    (eexists; split; [reflexivity |]); try exact I;
    unfold on_turn; cbn; split_and; try assumption; try reflexivity;
    exists first; now split.
Qed.

(** One full pass over the roster. *)
Lemma full_pass (p : DebatePhase) (r : Z) (s : DebateState.t) :
  agents <> [] ->
  In p speaking ->
  on_turn agents R 0 p r s ->
  exists s', run agents (length agents) s = Some s'
    /\ match p with
       | OPENING => on_turn agents R 0 REBUTTAL r s'
       | REBUTTAL => on_turn agents R 0 SYNTHESIS r s'
       | SYNTHESIS =>
           if r >=? R
           then phase s' = VOTING /\ currentTurnAgentId s' = None
                /\ currentRound s' = r
           else on_turn agents R 0 REBUTTAL (r + 1) s'
       | _ => True
       end.
Proof.
  intros Hroster Hp Hs.
  assert (Hlen : (0 < length agents)%nat).
  { destruct agents; [contradiction | simpl; lia]. }
  destruct (walk_roster p r (length agents - 1) ltac:(lia) Hp s Hs)
    as (sk & Hrun & Hsk).
  destruct (advance_last p r sk Hsk) as (s' & Hstep & Hs').
  exists s'. split; [| exact Hs'].
  replace (length agents) with ((length agents - 1) + 1)%nat at 1 by lia.
  rewrite run_add, Hrun. simpl. now rewrite Hstep.
Qed.

(** From the start of REBUTTAL in round [r], the [m + 1] rounds up to
    [R = r + m] take two passes each and end in VOTING. *)
Lemma rounds_reach_voting (m : nat) :
  agents <> [] ->
  forall r s,
    R = r + Z.of_nat m ->
    on_turn agents R 0 REBUTTAL r s ->
    exists s', run agents (2 * length agents * S m) s = Some s'
      /\ phase s' = VOTING
      /\ currentTurnAgentId s' = None
      /\ currentRound s' = R.
Proof.
  intro Hroster.
  induction m as [| m IH]; intros r s HR Hs.
  - destruct (full_pass REBUTTAL r s Hroster) as (s1 & Hrun1 & Hs1);
      [simpl; tauto | exact Hs |].
    destruct (full_pass SYNTHESIS r s1 Hroster) as (s2 & Hrun2 & Hs2);
      [simpl; tauto | exact Hs1 |].
    destruct (Z.geb_spec r R) as [_ | Hlt]; [| simpl in HR; lia].
    destruct Hs2 as (Hphase & Hturn & Hround).
    exists s2.
    replace (2 * length agents * 1)%nat
      with (length agents + length agents)%nat by lia.
    rewrite run_add, Hrun1, Hrun2.
    split_and; try reflexivity; try assumption. simpl in HR. lia.
  - destruct (full_pass REBUTTAL r s Hroster) as (s1 & Hrun1 & Hs1);
      [simpl; tauto | exact Hs |].
    destruct (full_pass SYNTHESIS r s1 Hroster) as (s2 & Hrun2 & Hs2);
      [simpl; tauto | exact Hs1 |].
    destruct (Z.geb_spec r R) as [Hge | _]; [lia |].
    destruct (IH (r + 1) s2 ltac:(lia) Hs2) as (s' & Hrun & Hdone).
    exists s'. split; [| exact Hdone].
    replace (2 * length agents * S (S m))%nat
      with (length agents + (length agents + 2 * length agents * S m))%nat
      by lia.
    now rewrite run_add, Hrun1, run_add, Hrun2.
Qed.

End FixedRotation.

(** A fixed-mode debate opened by [handleStart] on a roster with distinct
    ids reaches VOTING after the OPENING pass and two passes per round, in
    round [maxRounds]. *)
Lemma fixed_debate_reaches_voting (uuid : string) (now : Z) (topic : string)
    (agents : list Agent.t) (R : Z) (ctx : string) (s0 : DebateState.t) :
  1 <= R ->
  NoDup (roster_ids agents) ->
  handleStart uuid now topic agents FIXED R ctx = Some s0 ->
  exists s', run agents (length agents * (2 * Z.to_nat R + 1)) s0 = Some s'
    /\ phase s' = VOTING
    /\ currentTurnAgentId s' = None
    /\ currentRound s' = R.
Proof.
  intros HR Hdistinct Hstart.
  assert (Hroster : agents <> []).
  { intros ->. discriminate Hstart. }
  assert (Hs0 : on_turn agents R 0 OPENING 1 s0).
  { unfold handleStart in Hstart.
    destruct agents as [| first others]; [contradiction |].
    simpl in Hstart. injection Hstart as <-.
    unfold on_turn. cbn. split_and; try reflexivity.
    exists first. now split. }
  destruct (full_pass agents R Hdistinct OPENING 1 s0 Hroster)
    as (s1 & Hrun1 & Hs1); [simpl; tauto | exact Hs0 |].
  destruct (Z.to_nat R) as [| m] eqn:Hrounds; [lia |].
  destruct (rounds_reach_voting agents R Hdistinct m Hroster 1 s1)
    as (s' & Hrun & Hdone); [lia | exact Hs1 |].
  exists s'. split; [| exact Hdone].
  replace (length agents * (2 * S m + 1))%nat
    with (length agents + 2 * length agents * S m)%nat by lia.
  now rewrite run_add, Hrun1.
Qed.

(** C1.  Fixed mode, the last agent of the roster has just completed its
    SYNTHESIS turn.  If [currentRound >= maxRounds] the rotation boundary
    moves to VOTING and clears the active turn.  Otherwise (no stop request
    pending, which is the subject of C2) it increments the round by exactly
    one, sets the phase back to REBUTTAL and gives the turn to the first
    agent of the list.  Consequently no run of the boundary starts more
    REBUTTAL/SYNTHESIS loops than there are rounds left; a debate that
    [handleStart] opened with [maxRounds = R >= 1] (the range of the
    configuration slider) starts at most [R] of them, however long the
    rotation runs, and on a roster with distinct ids it does arrive in
    VOTING, in round [R], after the OPENING pass and two passes per
    round. *)
Theorem fixed_mode_synthesis_boundary
    (front : list Agent.t) (a : Agent.t) (s : DebateState.t) :
  mode s = FIXED ->
  phase s = SYNTHESIS ->
  last_agent_turn front a s ->
  (maxRounds s <= currentRound s ->
   exists s', advanceTurn (front ++ [a]) s = Some s'
     /\ phase s' = VOTING
     /\ currentTurnAgentId s' = None)
  /\ (currentRound s < maxRounds s ->
      userRequestedStop s = false ->
      exists s' first, advanceTurn (front ++ [a]) s = Some s'
        /\ at_index (front ++ [a]) 0 = Some first
        /\ currentRound s' = currentRound s + 1
        /\ phase s' = REBUTTAL
        /\ currentTurnAgentId s' = Some (Agent.id first))
  /\ (forall n,
        loops_started s (rotation (front ++ [a]) n s)
        <= Z.max 0 (maxRounds s - currentRound s))
  /\ (forall uuid now topic agents R ctx s0,
        1 <= R ->
        handleStart uuid now topic agents FIXED R ctx = Some s0 ->
        (forall n, loops_started s0 (rotation agents n s0) <= R)
        /\ (NoDup (roster_ids agents) ->
            exists s',
              run agents (length agents * (2 * Z.to_nat R + 1)) s0 = Some s'
              /\ phase s' = VOTING
              /\ currentTurnAgentId s' = None
              /\ currentRound s' = R)).
Proof.
  intros Hmode Hphase [Hturn Hfresh].
  assert (Hboundary :
            (findIndex (id_is (currentTurnAgentId s)) (front ++ [a]) + 1
             >=? length_Z (front ++ [a])) = true).
  { rewrite Hturn, findIndex_of_turn by assumption.
    rewrite length_Z_app. apply Z.geb_le.
    change (length_Z [a]) with 1. lia. }
  split_and.
  - intro Hdone.
    unfold advanceTurn. rewrite Hboundary, Hphase, Hmode.
    apply Z.geb_le in Hdone. rewrite Hdone.
    destruct (userRequestedStop s); eexists; split_and; reflexivity.
  - intros Hmore Hstop.
    assert (Hfirst : exists first, at_index (front ++ [a]) 0 = Some first).
    { destruct front; simpl; eauto using at_index_head. }
    destruct Hfirst as [first Hfirst].
    unfold advanceTurn. rewrite Hstop, Hboundary, Hphase, Hmode.
    destruct (Z.geb_spec (currentRound s) (maxRounds s)) as [Hge | _];
      [lia |].
    cbn [DebatePhase_eqb]. rewrite Hfirst.
    eexists. exists first. split_and; reflexivity.
  - intro n.
    pose proof (rotation_loops_bounded (front ++ [a]) n s Hmode) as Hbound.
    unfold loops_left in Hbound. rewrite Hphase in Hbound. exact Hbound.
  - intros uuid now topic agents R ctx s0 HR Hstart. split.
    + intro n.
      destruct (handleStart_shape _ _ _ _ _ _ _ _ Hstart)
        as (Hm & Hmax & Hround & Hph & _).
      pose proof (rotation_loops_bounded agents n s0 Hm) as Hbound.
      unfold loops_left in Hbound.
      rewrite Hph, Hmax, Hround in Hbound. lia.
    + intro Hdistinct.
      exact (fixed_debate_reaches_voting uuid now topic agents R ctx s0
               HR Hdistinct Hstart).
Qed.

Lemma fixed_mode_synthesis_boundary_witness :
  (exists s', advanceTurn [alice; bob]
                (sample_state FIXED 2 2 SYNTHESIS (Some "b2") false) = Some s'
     /\ phase s' = VOTING
     /\ currentTurnAgentId s' = None)
  /\ (forall s0,
        handleStart "u" 0 "topic" [alice; bob] FIXED 2 EmptyString = Some s0 ->
        (forall n, loops_started s0 (rotation [alice; bob] n s0) <= 2)
        /\ exists s',
             run [alice; bob] 10 s0 = Some s'
             /\ phase s' = VOTING
             /\ currentTurnAgentId s' = None
             /\ currentRound s' = 2).
Proof.
  assert (Hlast : last_agent_turn [alice] bob
                    (sample_state FIXED 2 2 SYNTHESIS (Some "b2") false)).
  { split; [reflexivity |]. simpl. intros [H | []]. discriminate H. }
  destruct (fixed_mode_synthesis_boundary [alice] bob
              (sample_state FIXED 2 2 SYNTHESIS (Some "b2") false)
              eq_refl eq_refl Hlast) as (Hvote & _ & _ & Hstart).
  split.
  - apply Hvote. simpl. lia.
  - intros s0 H.
    destruct (Hstart "u" 0 "topic" [alice; bob] 2 EmptyString s0 ltac:(lia) H)
      as [Hbound Hreach].
    split; [exact Hbound |].
    apply Hreach. simpl.
    repeat constructor; simpl; intuition discriminate.
Defined.

(** ** Stop request *)

Lemma advanceTurn_stop (agents : list Agent.t) (s : DebateState.t) :
  userRequestedStop s = true ->
  advanceTurn agents s
  = Some (set_isThinking false
            (set_phase VOTING (set_currentTurnAgentId None s))).
Proof.
  intro Hstop. unfold advanceTurn. now rewrite Hstop.
Qed.

(** C2.  Whenever the stop-requested flag is set, the next run of the
    turn-rotation boundary yields phase VOTING and no active turn, whatever
    the roster, phase, round and current agent are.  The flag itself does
    not touch a turn in flight: [handleStop] writes the flag and one system
    message and nothing else, and a turn whose generation resolves while
    the flag is up still appends its message before the boundary sends the
    debate to VOTING. *)
Theorem stop_request_honoured_at_boundary
    (agents : list Agent.t) (s : DebateState.t) :
  userRequestedStop s = true ->
  (exists s', advanceTurn agents s = Some s'
     /\ phase s' = VOTING
     /\ currentTurnAgentId s' = None)
  /\ (forall state uuid now prev,
        let s' := handleStop state uuid now prev in
        userRequestedStop s' = true
        /\ phase s' = phase prev
        /\ currentTurnAgentId s' = currentTurnAgentId prev
        /\ currentRound s' = currentRound prev
        /\ isThinking s' = isThinking prev
        /\ thinkingAgentId s' = thinkingAgentId prev
        /\ pendingUserQuestion s' = pendingUserQuestion prev
        /\ exists m, transcript s' = (transcript prev ++ [m])%list
             /\ Message.agentId m = "system")
  /\ (forall w refs agent reply,
        find (id_is (currentTurnAgentId s)) agents = Some agent ->
        World.turnCall w = Resolved reply ->
        GenericResponse.toolCall reply = None ->
        exists s' m,
          startTurn w agents refs s
          = Some (Refs.mk false (Refs.pendingToolCallRef refs), s')
          /\ transcript s' = (transcript s ++ [m])%list
          /\ Message.agentId m = Agent.id agent
          /\ Message.content m
             = or_string (GenericResponse.text reply)
                         "I have no further comments."
          /\ phase s' = VOTING
          /\ currentTurnAgentId s' = None).
Proof.
  intro Hstop. split; [| split].
  - rewrite advanceTurn_stop by assumption. eexists. repeat split.
  - intros state uuid now prev. cbv zeta. repeat split.
    eexists. split; reflexivity.
  - intros w refs agent reply Hfind Hcall Htool.
    unfold startTurn. rewrite Hfind, Hcall. cbn [generateAgentTurn].
    rewrite Htool. cbn [GenericResponse.toolCall].
    rewrite advanceTurn_stop by exact Hstop.
    cbn [option_map]. do 2 eexists. split; [reflexivity |].
    repeat split.
Qed.

Lemma stop_request_honoured_at_boundary_witness :
  exists s', advanceTurn [alice; bob]
               (sample_state AUTO 2 1 OPENING (Some "a1") true) = Some s'
    /\ phase s' = VOTING
    /\ currentTurnAgentId s' = None.
Proof.
  apply (stop_request_honoured_at_boundary [alice; bob]
           (sample_state AUTO 2 1 OPENING (Some "a1") true)).
  reflexivity.
Defined.

(** ** Director override *)

(** C10.  Forcing a phase always leaves [userRequestedStop] false: the
    override returns a state (on a roster that is not empty, or when the
    phase forced is VOTING) whose flag is down whatever it was before, and
    it adds no message to the transcript.  A stop request that was pending
    is thereby lost: after forcing OPENING or REBUTTAL the next rotation
    boundary carries on with the debate instead of moving to VOTING. *)
Theorem force_phase_cancels_stop
    (agents : list Agent.t) (ph : DebatePhase) (prev : DebateState.t) :
  agents <> [] \/ ph = VOTING ->
  exists s', handleDirectorForcePhase agents ph prev = Some s'
    /\ userRequestedStop s' = false
    /\ phase s' = ph
    /\ isThinking s' = false
    /\ transcript s' = transcript prev
    /\ currentRound s' = currentRound prev
    /\ (ph = OPENING \/ ph = REBUTTAL ->
        exists s'', advanceTurn agents s' = Some s''
          /\ phase s'' <> VOTING).
Proof.
  intros Hok. unfold handleDirectorForcePhase.
  destruct (DebatePhase_eqb ph VOTING) eqn:Hvoting.
  - eexists. split; [reflexivity |]. repeat split.
    apply DebatePhase_eqb_eq in Hvoting. subst ph.
    intros [H | H]; discriminate H.
  - destruct Hok as [Hroster | ->]; [| discriminate Hvoting].
    destruct agents as [| a0 rest]; [contradiction |].
    rewrite at_index_head.
    eexists. split; [reflexivity |]. repeat split.
    intro Hph. unfold advanceTurn.
    cbn [userRequestedStop set_userRequestedStop set_isThinking
         set_currentTurnAgentId set_phase currentTurnAgentId phase mode
         currentRound maxRounds].
    unfold findIndex. cbn [findIndex_from].
    rewrite id_is_self.
    destruct (Z.geb_spec (0 + 1) (length_Z (a0 :: rest))) as [Hend | Hin].
    + destruct Hph as [-> | ->]; cbn [DebatePhase_eqb];
        rewrite at_index_head; eexists; split; try reflexivity;
        discriminate.
    + destruct (at_index_in_range (a0 :: rest) (0 + 1)) as [a1 Ha1];
        [lia |].
      destruct Hph as [-> | ->]; cbn [DebatePhase_eqb];
        rewrite Ha1; eexists; split; try reflexivity; discriminate.
Qed.

Lemma force_phase_cancels_stop_witness :
  exists s', handleDirectorForcePhase [alice; bob] REBUTTAL
               (sample_state FIXED 2 1 OPENING (Some "b2") true) = Some s'
    /\ userRequestedStop s' = false
    /\ phase s' = REBUTTAL
    /\ isThinking s' = false
    /\ transcript s' = []
    /\ currentRound s' = 1
    /\ (REBUTTAL = OPENING \/ REBUTTAL = REBUTTAL ->
        exists s'', advanceTurn [alice; bob] s' = Some s''
          /\ phase s'' <> VOTING).
Proof.
  apply (force_phase_cancels_stop [alice; bob] REBUTTAL
           (sample_state FIXED 2 1 OPENING (Some "b2") true)).
  left. discriminate.
Defined.

(** ** Fallacy attachment *)

Lemma set_transcript_same (s : DebateState.t) :
  set_transcript (transcript s) s = s.
Proof.
  now destruct s.
Qed.

Lemma map_unmatched (msgId : string) (f : Fallacy.t) (tr : list Message.t) :
  (forall m, In m tr -> Message.id m <> msgId) ->
  map (fun m => if String.eqb (Message.id m) msgId
                then with_fallacy m f else m) tr = tr.
Proof.
  induction tr as [| m tr IH]; intro Habsent; simpl; [reflexivity |].
  rewrite IH by (intros; apply Habsent; now right).
  destruct (String.eqb_spec (Message.id m) msgId) as [Heq | _];
    [| reflexivity].
  exfalso. apply (Habsent m); [now left | exact Heq].
Qed.

(** C8.  Attaching a fallacy to a message id that the transcript does not
    contain leaves the whole state, transcript included, as it was.  In
    general the update rewrites nothing outside the transcript, keeps its
    length and order, leaves every message with another id untouched, and
    on a message with the given id sets the [fallacy] field and no other
    field. *)
Theorem fallacy_attachment_frame
    (msgId : string) (f : Fallacy.t) (prev : DebateState.t) :
  ((forall m, In m (transcript prev) -> Message.id m <> msgId) ->
   updateMessageFallacy msgId f prev = prev)
  /\ set_transcript (transcript prev) (updateMessageFallacy msgId f prev)
     = prev
  /\ length (transcript (updateMessageFallacy msgId f prev))
     = length (transcript prev)
  /\ (forall i m,
        nth_error (transcript prev) i = Some m ->
        exists m',
          nth_error (transcript (updateMessageFallacy msgId f prev)) i
          = Some m'
          /\ (Message.id m <> msgId -> m' = m)
          /\ (Message.id m = msgId ->
              Message.fallacy m' = Some f
              /\ Message.id m' = Message.id m
              /\ Message.agentId m' = Message.agentId m
              /\ Message.content m' = Message.content m
              /\ Message.timestamp m' = Message.timestamp m
              /\ Message.type m' = Message.type m
              /\ Message.citations m' = Message.citations m
              /\ Message.phase m' = Message.phase m
              /\ Message.isGuest m' = Message.isGuest m
              /\ Message.guestRole m' = Message.guestRole m)).
Proof.
  unfold updateMessageFallacy. split; [| split; [| split]].
  - intro Habsent. rewrite map_unmatched by exact Habsent.
    apply set_transcript_same.
  - now destruct prev.
  - destruct prev. simpl. apply length_map.
  - intros i m Hnth.
    destruct prev as [tp md maxR round ph turn tr thinking who question
                        verdict usage stop prompt guest docs].
    cbn [transcript set_transcript] in *.
    rewrite nth_error_map, Hnth. cbn [option_map].
    eexists. split; [reflexivity |].
    destruct (String.eqb_spec (Message.id m) msgId) as [Heq | Hneq].
    + split; [intro Hne; contradiction |].
      intros _. repeat split.
    + split; [reflexivity | intro Heq; contradiction].
Qed.

Lemma fallacy_attachment_frame_witness :
  updateMessageFallacy "gone" (Fallacy.mk "Strawman" "Misstates." minor)
    (set_transcript [sample_message "m1" "x"; sample_message "m2" "y"]
       INITIAL_STATE)
  = set_transcript [sample_message "m1" "x"; sample_message "m2" "y"]
      INITIAL_STATE.
Proof.
  destruct (fallacy_attachment_frame "gone"
              (Fallacy.mk "Strawman" "Misstates." minor)
              (set_transcript
                 [sample_message "m1" "x"; sample_message "m2" "y"]
                 INITIAL_STATE)) as [Habsent _].
  apply Habsent.
  simpl. intros m [<- | [<- | []]]; discriminate.
Defined.

(** ** Retry policy of the generation client *)

Section Retry.

Context {R : Type}.
Variable cfg : LLMConfig.t.
Variable envApiKey : option string.
Variable calls : nat -> outcome R.
Hypothesis has_key : getClient cfg envApiKey = Resolved tt.



End Retry.




(** ** A failed agent turn *)

(** With nothing in flight and an agent of the roster on turn in one of
    the three speaking phases, the effect body starts that agent's turn. *)
Lemma runDebateStep_starts_turn (w : World.t) (agents : list Agent.t)
    (refs : Refs.t) (s : DebateState.t) (agent : Agent.t) :
  Refs.processingRef refs = false ->
  pendingUserQuestion s = None ->
  showConsultationPrompt s = false ->
  isThinking s = false ->
  In (phase s) [OPENING; REBUTTAL; SYNTHESIS] ->
  find (id_is (currentTurnAgentId s)) agents = Some agent ->
  Agent.id agent <> ORCHESTRATOR ->
  Agent.id agent <> EmptyString ->
  runDebateStep w agents refs s = startTurn w agents refs s.
Proof.
  intros Hidle Hquestion Hprompt Hthinking Hphase Hfind Horch Hid.
  unfold runDebateStep.
  rewrite Hidle, Hquestion, Hprompt, Hthinking, (find_turn _ _ _ Hfind).
  cbn [truthy turn_is negb andb orb].
  apply String.eqb_neq in Horch. apply String.eqb_neq in Hid.
  rewrite Horch, Hid. cbn [negb orb].
  destruct Hphase as [<- | [<- | [<- | []]]];
    destruct (is_some (Refs.pendingToolCallRef refs)); reflexivity.
Qed.



(** ** Voting pass *)

Lemma collectVotes_acc (agents : list Agent.t)
    (calls : nat -> outcome (parsed VoteJson.t)) (rest : list Agent.t) :
  forall i votes,
    collectVotes agents calls i rest votes
    = (votes ++ collectVotes agents calls i rest [])%list.
Proof.
  induction rest as [| agent rest IH]; intros i votes; simpl.
  - now rewrite app_nil_r.
  - destruct (castVote agent agents (calls i)) as [vote | _].
    + rewrite (IH (S i) (votes ++ [vote])%list), (IH (S i) [vote]).
      now rewrite <- app_assoc.
    + apply IH.
Qed.

Lemma collectVotes_app (agents : list Agent.t)
    (calls : nat -> outcome (parsed VoteJson.t)) (xs ys : list Agent.t) :
  forall i,
    collectVotes agents calls i (xs ++ ys) []
    = (collectVotes agents calls i xs []
         ++ collectVotes agents calls (i + length xs) ys [])%list.
Proof.
  induction xs as [| x xs IH]; intro i; simpl.
  - now rewrite Nat.add_0_r.
  - rewrite <- Nat.add_succ_comm.
    destruct (castVote x agents (calls i)) as [vote | _].
    + rewrite collectVotes_acc, IH.
      rewrite (collectVotes_acc agents calls xs (S i) [vote]).
      now rewrite app_assoc.
    + apply IH.
Qed.

Lemma collectVotes_length (agents : list Agent.t)
    (calls : nat -> outcome (parsed VoteJson.t)) (rest : list Agent.t) :
  forall i, (length (collectVotes agents calls i rest []) <= length rest)%nat.
Proof.
  induction rest as [| agent rest IH]; intro i; simpl; [lia |].
  destruct (castVote agent agents (calls i)) as [vote | _].
  - rewrite collectVotes_acc, length_app. simpl. specialize (IH (S i)). lia.
  - specialize (IH (S i)). lia.
Qed.

(** Every vote of the array was returned by [castVote] for the agent at
    some position of the loop. *)
Lemma collectVotes_sound (agents : list Agent.t)
    (calls : nat -> outcome (parsed VoteJson.t)) (rest : list Agent.t) :
  forall i v,
    In v (collectVotes agents calls i rest []) ->
    exists j agent,
      nth_error rest j = Some agent
      /\ castVote agent agents (calls (i + j)%nat) = Resolved v.
Proof.
  induction rest as [| agent rest IH]; intros i v Hin; simpl in Hin;
    [contradiction |].
  destruct (castVote agent agents (calls i)) as [vote | e] eqn:Hcast.
  - rewrite collectVotes_acc in Hin. simpl in Hin.
    destruct Hin as [<- | Hin].
    + exists O, agent. rewrite Nat.add_0_r. now split.
    + destruct (IH (S i) v Hin) as (j & agent' & Hnth & Hcast').
      exists (S j), agent'. rewrite <- Nat.add_succ_comm. now split.
  - destruct (IH (S i) v Hin) as (j & agent' & Hnth & Hcast').
    exists (S j), agent'. rewrite <- Nat.add_succ_comm. now split.
Qed.

Lemma or_field_cases (v : option string) (d : string) :
  or_field v d = d \/ (or_field v d <> EmptyString /\ v = Some (or_field v d)).
Proof.
  destruct v as [s |]; simpl; [| now left].
  unfold or_string.
  destruct (String.eqb_spec s EmptyString) as [-> | Hne]; [now left | right].
  now split.
Qed.

(** What a vote that [castVote] returns looks like. *)
Lemma castVote_resolved (agent : Agent.t) (roster : list Agent.t)
    (call : outcome (parsed VoteJson.t)) (v : Vote.t) :
  castVote agent roster call = Resolved v ->
  Vote.voterId v = Agent.id agent
  /\ exists response first,
       call = Resolved response
       /\ In first roster
       /\ Agent.id first <> Agent.id agent
       /\ (Vote.targetAgentId v = Agent.id first
           \/ (Vote.targetAgentId v <> EmptyString
               /\ exists json,
                    response = Json json
                    /\ VoteJson.targetAgentId json
                       = Some (Vote.targetAgentId v))).
Proof.
  unfold castVote.
  destruct call as [response | e]; [| discriminate].
  set (candidates := filter _ roster).
  destruct (at_index candidates 0) as [first |] eqn:Hfirst; [| discriminate].
  assert (Hcand : In first roster /\ Agent.id first <> Agent.id agent).
  { assert (Hin : In first candidates).
    { destruct candidates; [discriminate Hfirst |].
      injection Hfirst as ->. now left. }
    apply filter_In in Hin as [Hin Hne]. split; [exact Hin |].
    apply negb_true_iff, String.eqb_neq in Hne. exact Hne. }
  destruct Hcand as [Hin Hne].
  intro Hvote.
  destruct response as [| | json]; injection Hvote as <-; simpl;
    (split; [reflexivity |]); eexists; exists first;
    (split; [reflexivity |]); (split; [exact Hin |]);
    (split; [exact Hne |]); try (now left).
  destruct (or_field_cases (VoteJson.targetAgentId json) (Agent.id first))
    as [Hdefault | [Hgiven Hjson]]; [now left | right].
  split; [exact Hgiven |]. exists json. now split.
Qed.






Lemma nth_error_roster_ids (agents : list Agent.t) (j : nat)
    (agent : Agent.t) :
  nth_error agents j = Some agent ->
  nth_error (roster_ids agents) j = Some (Agent.id agent).
Proof.
  intro Hnth. unfold roster_ids. now rewrite nth_error_map, Hnth.
Qed.

(** C7.  If the vote call of the agent at some position of the roster is
    rejected, the collected votes are exactly those of the agents before it
    followed by those of the agents after it: the loop goes on, and the
    array is strictly shorter than the roster.  Every vote in it was
    returned for an agent at another position whose call resolved, under
    that agent's id; with distinct ids, none carries the failing agent's id.
    The verdict call receives that array: when it resolves (to anything but
    [null]) the final verdict holds exactly these votes and the phase is
    VERDICT. *)
Theorem failed_vote_is_omitted
    (front rest : list Agent.t) (a : Agent.t)
    (calls : nat -> outcome (parsed VoteJson.t)) (e : JsError.t) :
  calls (length front) = Rejected e ->
  collectVotes (front ++ a :: rest) calls 0 (front ++ a :: rest) []
  = (collectVotes (front ++ a :: rest) calls 0 front []
       ++ collectVotes (front ++ a :: rest) calls (S (length front)) rest [])%list
  /\ (length (collectVotes (front ++ a :: rest) calls 0
                (front ++ a :: rest) [])
      < length (front ++ a :: rest))%nat
  /\ (forall v,
        In v (collectVotes (front ++ a :: rest) calls 0
                (front ++ a :: rest) []) ->
        exists j agent response,
          j <> length front
          /\ nth_error (front ++ a :: rest) j = Some agent
          /\ calls j = Resolved response
          /\ Vote.voterId v = Agent.id agent)
  /\ (NoDup (roster_ids (front ++ a :: rest)) ->
      forall v,
        In v (collectVotes (front ++ a :: rest) calls 0
                (front ++ a :: rest) []) ->
        Vote.voterId v <> Agent.id a)
  /\ (forall w state response,
        World.voteCalls w = calls ->
        World.verdictCall w = Resolved response ->
        response <> JsonNull ->
        exists verdict,
          finalVerdict (votingPass w (front ++ a :: rest) state)
          = Some verdict
          /\ FinalVerdict.votes verdict
             = collectVotes (front ++ a :: rest) calls 0
                 (front ++ a :: rest) []
          /\ phase (votingPass w (front ++ a :: rest) state) = VERDICT).
Proof.
  intro Hfail.
  set (agents := (front ++ a :: rest)%list).
  assert (Hsplit :
            collectVotes agents calls 0 agents []
            = (collectVotes agents calls 0 front []
                 ++ collectVotes agents calls (S (length front)) rest [])%list).
  { unfold agents at 2. rewrite collectVotes_app. f_equal.
    simpl. rewrite Hfail. reflexivity. }
  assert (Hvoters :
            forall v, In v (collectVotes agents calls 0 agents []) ->
            exists j agent response,
              j <> length front
              /\ nth_error agents j = Some agent
              /\ calls j = Resolved response
              /\ Vote.voterId v = Agent.id agent).
  { intros v Hin.
    destruct (collectVotes_sound agents calls agents 0 v Hin)
      as (j & agent & Hnth & Hcast).
    simpl in Hcast.
    destruct (castVote_resolved agent agents _ v Hcast)
      as (Hvoter & response & _ & Hcall & _).
    exists j, agent, response. split_and; try assumption.
    intros ->. rewrite Hfail in Hcall. discriminate Hcall. }
  split_and.
  - exact Hsplit.
  - rewrite Hsplit, length_app.
    pose proof (collectVotes_length agents calls front 0).
    pose proof (collectVotes_length agents calls rest (S (length front))).
    assert (Hlen : length agents = (length front + S (length rest))%nat)
      by (unfold agents; rewrite length_app; reflexivity).
    lia.
  - exact Hvoters.
  - intros Hdistinct v Hin Hsame.
    destruct (Hvoters v Hin) as (j & agent & _ & Hj & Hnth & _ & Hvoter).
    apply Hj.
    apply (proj1 (NoDup_nth_error (roster_ids agents)) Hdistinct).
    + apply nth_error_Some.
      rewrite (nth_error_roster_ids agents j agent Hnth). discriminate.
    + rewrite (nth_error_roster_ids agents j agent Hnth).
      rewrite (nth_error_roster_ids agents (length front) a).
      * now rewrite <- Hvoter, Hsame.
      * unfold agents. rewrite nth_error_app2 by lia.
        now rewrite Nat.sub_diag.
  - intros w state response Hcalls Hverdict Hnull.
    unfold votingPass. rewrite Hcalls, Hverdict.
    assert (Hfirst : exists first, at_index agents 0 = Some first).
    { unfold agents. destruct front; simpl; eauto using at_index_head. }
    destruct Hfirst as [first Hfirst].
    unfold generateFinalVerdict. rewrite Hfirst.
    destruct response as [| | json]; [| contradiction |].
    + eexists. split_and; reflexivity.
    + destruct (VerdictJson.winnerId json) as [winner |];
        [destruct (String.eqb winner EmptyString) |];
        eexists; split_and; reflexivity.
Qed.

Lemma failed_vote_is_omitted_witness :
  map Vote.voterId
    (collectVotes [alice; bob; carol] second_fails 0
       [alice; bob; carol] [])
  = ["a1"; "c3"].
Proof.
  destruct (failed_vote_is_omitted [alice] [carol] bob second_fails
              rate_limited eq_refl) as (Hsplit & _).
  simpl app in Hsplit. rewrite Hsplit. reflexivity.
Defined.

(** ** The lone voter *)

(** C9.  If filtering the voter's own id out of the roster handed to
    [castVote] leaves no candidate, [castVote] rejects whatever the provider
    answered, and when the provider call itself resolved the rejection is
    the [TypeError] of reading [.id] of the undefined first candidate.
    Conversely a vote is returned only if the roster holds an agent with
    another id, and with such an agent every resolved call yields a vote. *)
Theorem castVote_needs_another_agent
    (agent : Agent.t) (otherAgents : list Agent.t) :
  (filter (fun a => negb (String.eqb (Agent.id a) (Agent.id agent)))
          otherAgents = [] ->
   forall call,
     (exists err, castVote agent otherAgents call = Rejected err)
     /\ (forall response,
           call = Resolved response ->
           castVote agent otherAgents call = Rejected TypeError_id))
  /\ (forall call v,
        castVote agent otherAgents call = Resolved v ->
        exists c, In c otherAgents /\ Agent.id c <> Agent.id agent)
  /\ (forall c response,
        In c otherAgents ->
        Agent.id c <> Agent.id agent ->
        exists v, castVote agent otherAgents (Resolved response)
                  = Resolved v).
Proof.
  split_and.
  - intros Halone call. unfold castVote. rewrite Halone.
    destruct call as [response | err]; simpl.
    + split; [eauto |]. intros response' _. reflexivity.
    + split; [eauto |]. intros response' Habs. discriminate Habs.
  - intros call v Hcast.
    destruct (castVote_resolved agent otherAgents call v Hcast)
      as (_ & _ & first & _ & Hin & Hne & _).
    now exists first.
  - intros c response Hin Hne. unfold castVote.
    set (candidates := filter _ otherAgents).
    assert (Hc : In c candidates).
    { apply filter_In. split; [exact Hin |].
      now apply negb_true_iff, String.eqb_neq. }
    destruct candidates as [| first more]; [contradiction |].
    rewrite at_index_head.
    destruct response; eexists; reflexivity.
Qed.

Lemma castVote_needs_another_agent_witness :
  castVote alice [alice] (Resolved Unparsable) = Rejected TypeError_id.
Proof.
  destruct (castVote_needs_another_agent alice [alice]) as (Halone & _).
  destruct (Halone eq_refl (Resolved Unparsable)) as [_ Htype].
  apply (Htype Unparsable). reflexivity.
Defined.

(** ** Orchestrator decision past round five *)

(** C4 (as amended).  Past round five, an orchestrator call that resolves
    but carries no usable decision (reply not parseable, fields missing or
    falsy; anything but a JSON [null]) produces a decision with
    [shouldConclude = true], and the step sends the debate to VOTING with
    the active turn cleared.  An orchestrator call that fails outright
    produces no decision at all: [orchestratorDecide] rejects, and the step
    takes its "Fallback continue" path, back to REBUTTAL at the first agent
    with the round unchanged. *)
Theorem orchestrator_fallback_past_round_five
    (w : World.t) (agents : list Agent.t) (s : DebateState.t) :
  5 < currentRound s ->
  (forall response,
     World.decisionCall w = Resolved response ->
     response <> JsonNull ->
     (exists d,
        orchestratorDecide (currentRound s) (World.decisionCall w)
        = Resolved d
        /\ OrchestratorDecision.shouldConclude d = true)
     /\ exists s',
          orchestratorTurn w agents s = Some s'
          /\ phase s' = VOTING
          /\ currentTurnAgentId s' = None)
  /\ (forall err,
        orchestratorDecide (currentRound s) (World.decisionCall w)
        = Rejected err ->
        orchestratorTurn w agents s
        = fallback_continue agents (set_isThinking true s)
        /\ forall first others,
             agents = first :: others ->
             exists s',
               orchestratorTurn w agents s = Some s'
               /\ phase s' = REBUTTAL
               /\ currentTurnAgentId s' = Some (Agent.id first)
               /\ currentRound s' = currentRound s)
  /\ (forall err,
        World.decisionCall w = Rejected err ->
        orchestratorDecide (currentRound s) (World.decisionCall w)
        = Rejected err).
Proof.
  intro Hlate.
  assert (Hgt : (currentRound s >? 5) = true) by (apply Z.gtb_lt; lia).
  split_and.
  - intros response Hcall Hnull.
    assert (Hdecide :
              exists d,
                orchestratorDecide (currentRound s) (World.decisionCall w)
                = Resolved d
                /\ OrchestratorDecision.shouldConclude d = true).
    { rewrite Hcall. unfold orchestratorDecide.
      destruct response as [| | json]; [| contradiction |];
        eexists; (split; [reflexivity |]); simpl; rewrite Hgt.
      - reflexivity.
      - now destruct (DecisionJson.shouldConclude json) as [[|] |]. }
    split; [exact Hdecide |].
    destruct Hdecide as (d & Hd & Hconclude).
    unfold orchestratorTurn. rewrite Hd, Hconclude.
    eexists. split_and; reflexivity.
  - intros err Hreject. unfold orchestratorTurn. rewrite Hreject.
    split; [reflexivity |].
    intros first others ->. unfold fallback_continue.
    rewrite at_index_head. eexists. split_and; reflexivity.
  - intros err Hcall. now rewrite Hcall.
Qed.

Lemma orchestrator_fallback_past_round_five_witness :
  exists s',
    orchestratorTurn
      (sample_world names_bob (Resolved (plain_reply EmptyString))
         (Resolved Unparsable))
      [alice; bob]
      (sample_state AUTO 2 6 SYNTHESIS (Some ORCHESTRATOR) false)
    = Some s'
    /\ phase s' = VOTING
    /\ currentTurnAgentId s' = None.
Proof.
  destruct (orchestrator_fallback_past_round_five
              (sample_world names_bob (Resolved (plain_reply EmptyString))
                 (Resolved Unparsable))
              [alice; bob]
              (sample_state AUTO 2 6 SYNTHESIS (Some ORCHESTRATOR) false))
    as (Hresolved & _).
  - simpl. lia.
  - apply (Hresolved Unparsable); [reflexivity | discriminate].
Defined.

(** C4, as the design document words it, fails: in round six a decision
    call that fails outright yields no decision, let alone one that
    concludes, and the debate goes on in REBUTTAL. *)
Lemma failed_orchestrator_call_continues :
  ~ (exists d,
       orchestratorDecide 6 (Rejected rate_limited) = Resolved d
       /\ OrchestratorDecision.shouldConclude d = true)
  /\ option_map (fun s' => (phase s', currentTurnAgentId s', currentRound s'))
       (orchestratorTurn
          (sample_world names_bob (Resolved (plain_reply EmptyString))
             (Rejected rate_limited))
          [alice; bob]
          (sample_state AUTO 2 6 SYNTHESIS (Some ORCHESTRATOR) false))
     = Some (REBUTTAL, Some "a1", 6).
Proof.
  split.
  - intros (d & Hd & _). discriminate Hd.
  - reflexivity.
Qed.

(** * Further properties of the engine *)

(** ** The rotation boundary, case by case *)

Lemma at_index_In {A : Type} (xs : list A) (i : Z) (x : A) :
  at_index xs i = Some x -> In x xs.
Proof.
  unfold at_index. destruct (i <? 0); [discriminate |].
  apply nth_error_In.
Qed.

(** Every state the boundary returns has one of three shapes: sent to
    VOTING, handed to the orchestrator, or given to a roster agent in a
    phase and round that follow from the old ones. *)
Lemma advanceTurn_cases (agents : list Agent.t) (s s' : DebateState.t) :
  advanceTurn agents s = Some s' ->
  (s' = set_isThinking false
          (set_phase VOTING (set_currentTurnAgentId None s))
   /\ (userRequestedStop s = true
       \/ phase s = VOTING
       \/ (phase s = SYNTHESIS /\ mode s = FIXED
           /\ maxRounds s <= currentRound s)))
  \/ (s' = set_isThinking false
             (set_phase (phase s)
                (set_currentTurnAgentId (Some ORCHESTRATOR) s))
      /\ userRequestedStop s = false
      /\ phase s = SYNTHESIS /\ mode s = AUTO)
  \/ (exists a p r,
        s' = set_thinkingAgentId None
               (set_isThinking false
                  (set_currentRound r
                     (set_phase p
                        (set_currentTurnAgentId (Some (Agent.id a)) s))))
        /\ In a agents
        /\ userRequestedStop s = false
        /\ p <> VOTING
        /\ ((p = phase s /\ r = currentRound s)
            \/ (phase s = OPENING /\ p = REBUTTAL /\ r = currentRound s)
            \/ (phase s = REBUTTAL /\ p = SYNTHESIS /\ r = currentRound s)
            \/ (phase s = SYNTHESIS /\ mode s = FIXED
                /\ currentRound s < maxRounds s
                /\ p = REBUTTAL /\ r = currentRound s + 1))).
Proof.
  unfold advanceTurn.
  destruct (userRequestedStop s) eqn:Hstop.
  { intros [= <-]. left. auto. }
  destruct (_ >=? length_Z agents);
    destruct (phase s) eqn:Hphase; cbn [DebatePhase_eqb];
    try (destruct (mode s) eqn:Hmode);
    try (destruct (Z.geb_spec (currentRound s) (maxRounds s)));
    cbn [DebatePhase_eqb];
    try (destruct (at_index agents _) as [a |] eqn:Hat);
    intro Hstep; try discriminate Hstep; injection Hstep as <-;
    try (left; split; [reflexivity | tauto]);
    try (right; left; split_and; (reflexivity || assumption));
    right; right; apply at_index_In in Hat;
    do 3 eexists; (split; [reflexivity |]);
    (split; [exact Hat |]); (split; [reflexivity |]);
    (split; [discriminate |]); tauto.
Qed.

(** X1.  The rotation boundary writes the turn, the phase, the round and
    the two thinking fields and nothing else; it always lowers
    [isThinking]; the round stays or grows by one, and it grows only on the
    fixed-mode loop back from SYNTHESIS to REBUTTAL with rounds left. *)
Theorem advanceTurn_frame (agents : list Agent.t) (s s' : DebateState.t) :
  advanceTurn agents s = Some s' ->
  topic s' = topic s
  /\ mode s' = mode s
  /\ maxRounds s' = maxRounds s
  /\ transcript s' = transcript s
  /\ pendingUserQuestion s' = pendingUserQuestion s
  /\ finalVerdict s' = finalVerdict s
  /\ tokenUsage s' = tokenUsage s
  /\ userRequestedStop s' = userRequestedStop s
  /\ showConsultationPrompt s' = showConsultationPrompt s
  /\ summonedGuest s' = summonedGuest s
  /\ contextDocuments s' = contextDocuments s
  /\ isThinking s' = false
  /\ currentRound s <= currentRound s' <= currentRound s + 1
  /\ (currentRound s' = currentRound s + 1 ->
      mode s = FIXED /\ phase s = SYNTHESIS /\ phase s' = REBUTTAL
      /\ currentRound s < maxRounds s).
Proof.
  intro Hstep.
  destruct (advanceTurn_cases agents s s' Hstep)
    as [[-> _] | [[-> _] | (a & p & r & -> & _ & _ & _ & Hcase)]];
    cbn; split_and; try reflexivity; try lia.
  all: destruct Hcase as [[-> ->] | [(_ & -> & ->) | [(_ & -> & ->) |
                          (Hph & Hmode & Hlt & -> & ->)]]];
    try lia; intros; try lia; auto.
Qed.

Lemma advanceTurn_frame_witness :
  exists s',
    advanceTurn [alice; bob]
      (sample_state FIXED 2 1 SYNTHESIS (Some "b2") false) = Some s'
    /\ currentRound s' = 2 /\ transcript s' = [] /\ isThinking s' = false.
Proof.
  eexists. split; [reflexivity |].
  destruct (advanceTurn_frame [alice; bob]
              (sample_state FIXED 2 1 SYNTHESIS (Some "b2") false) _
              eq_refl)
    as (_ & _ & _ & Htr & _ & _ & _ & _ & _ & _ & _ & Hidle & _).
  split; [reflexivity |]. split; [exact Htr | exact Hidle].
Defined.

(** X2.  The boundary clears the active turn exactly when it leaves the
    debate in VOTING: a returned state has no active turn if and only if
    its phase is VOTING, and the orchestrator sentinel is only ever set in
    auto-pilot mode at the end of SYNTHESIS, with the phase left as it
    is. *)
Theorem advanceTurn_clears_turn_iff_voting
    (agents : list Agent.t) (s s' : DebateState.t) :
  advanceTurn agents s = Some s' ->
  (currentTurnAgentId s' = None <-> phase s' = VOTING)
  /\ (currentTurnAgentId s' = Some ORCHESTRATOR ->
      (exists a, In a agents /\ Agent.id a = ORCHESTRATOR)
      \/ (mode s = AUTO /\ phase s = SYNTHESIS /\ phase s' = SYNTHESIS
          /\ currentRound s' = currentRound s)).
Proof.
  intro Hstep.
  destruct (advanceTurn_cases agents s s' Hstep)
    as [[-> _] | [(-> & _ & Hph & Hmode)
                 | (a & p & r & -> & Hin & _ & Hp & _)]]; cbn.
  - split; [tauto | discriminate].
  - rewrite Hph. split; [split; discriminate |]. intros _. right. tauto.
  - split.
    + split; [discriminate | intro H; contradiction].
    + intros [= Hid]. left. now exists a.
Qed.

Lemma advanceTurn_clears_turn_iff_voting_witness :
  exists s',
    advanceTurn [alice; bob]
      (sample_state AUTO 2 1 SYNTHESIS (Some "b2") false) = Some s'
    /\ (currentTurnAgentId s' = None <-> phase s' = VOTING).
Proof.
  eexists. split; [reflexivity |].
  apply (advanceTurn_clears_turn_iff_voting [alice; bob]
           (sample_state AUTO 2 1 SYNTHESIS (Some "b2") false)).
  reflexivity.
Defined.

(** X3.  In auto-pilot mode the boundary never decides anything itself:
    without a stop request it never changes the round and never enters
    VOTING; when the last agent of the roster completes SYNTHESIS it hands
    the turn to the orchestrator, phase and round as they were, and the
    next run of the loop is the orchestrator step. *)
Theorem auto_mode_defers_to_orchestrator
    (agents : list Agent.t) (s : DebateState.t) :
  mode s = AUTO ->
  userRequestedStop s = false ->
  (forall s', advanceTurn agents s = Some s' ->
     currentRound s' = currentRound s
     /\ (phase s' = VOTING -> phase s = VOTING))
  /\ (forall front a,
        agents = (front ++ [a])%list ->
        last_agent_turn front a s ->
        phase s = SYNTHESIS ->
        exists s',
          advanceTurn agents s = Some s'
          /\ currentTurnAgentId s' = Some ORCHESTRATOR
          /\ phase s' = SYNTHESIS
          /\ currentRound s' = currentRound s
          /\ isThinking s' = false
          /\ forall w refs,
               Refs.processingRef refs = false ->
               pendingUserQuestion s = None ->
               showConsultationPrompt s = false ->
               runDebateStep w agents refs s'
               = option_map
                   (pair (Refs.mk false (Refs.pendingToolCallRef refs)))
                   (orchestratorTurn w agents s')).
Proof.
  intros Hmode Hstop. split.
  - intros s' Hstep.
    destruct (advanceTurn_cases agents s s' Hstep)
      as [[-> Hwhy] | [(-> & _) | (a & p & r & -> & _ & _ & Hp & Hcase)]];
      cbn.
    + split; [reflexivity |]. intros _.
      destruct Hwhy as [H | [H | (_ & H & _)]]; try congruence.
    + split; [reflexivity | tauto].
    + destruct Hcase as [[-> ->] | [(_ & -> & ->) | [(_ & -> & ->) |
                          (_ & Hfixed & _)]]];
        try congruence; (split; [reflexivity |]); intro H;
        try discriminate H; exact H.
  - intros front a -> [Hturn Hfresh] Hphase.
    assert (Hboundary :
              (findIndex (id_is (currentTurnAgentId s)) (front ++ [a]) + 1
               >=? length_Z (front ++ [a])) = true).
    { rewrite Hturn, findIndex_of_turn by assumption.
      rewrite length_Z_app. apply Z.geb_le.
      change (length_Z [a]) with 1. lia. }
    unfold advanceTurn. rewrite Hstop, Hboundary, Hphase, Hmode.
    eexists. split; [reflexivity |]. cbn. split_and; try reflexivity.
    intros w refs Hidle Hquestion Hprompt.
    unfold runDebateStep.
    cbn [pendingUserQuestion showConsultationPrompt phase isThinking
         currentTurnAgentId set_isThinking set_phase
         set_currentTurnAgentId].
    rewrite Hidle, Hquestion, Hprompt. reflexivity.
Qed.

Lemma auto_mode_defers_to_orchestrator_witness :
  exists s',
    advanceTurn [alice; bob]
      (sample_state AUTO 2 1 SYNTHESIS (Some "b2") false) = Some s'
    /\ currentTurnAgentId s' = Some ORCHESTRATOR
    /\ phase s' = SYNTHESIS
    /\ currentRound s' = 1.
Proof.
  destruct (auto_mode_defers_to_orchestrator [alice; bob]
              (sample_state AUTO 2 1 SYNTHESIS (Some "b2") false)
              eq_refl eq_refl) as [_ Hlast].
  destruct (Hlast [alice] bob eq_refl) as (s' & Hstep & Hturn & Hph & Hr & _).
  - split; [reflexivity |]. simpl. intros [H | []]. discriminate H.
  - reflexivity.
  - exists s'. now split_and.
Defined.

(** One boundary run outside the speaking cycle keeps phase, round and
    transcript, and the stop flag stays lowered. *)
Lemma advanceTurn_keeps_idle_phase
    (agents : list Agent.t) (s s' : DebateState.t) :
  In (phase s) [SETUP; VERDICT; USER_INPUT] ->
  userRequestedStop s = false ->
  advanceTurn agents s = Some s' ->
  phase s' = phase s
  /\ currentRound s' = currentRound s
  /\ transcript s' = transcript s
  /\ userRequestedStop s' = false.
Proof.
  intros Hphase Hstop Hstep.
  destruct (advanceTurn_cases agents s s' Hstep)
    as [[-> Hwhy] | [(-> & _ & Hph & _)
                    | (a & p & r & -> & _ & _ & _ & Hcase)]]; cbn.
  - exfalso. destruct Hwhy as [H | [H | (H & _)]];
      try congruence; rewrite H in Hphase; simpl in Hphase;
      intuition discriminate.
  - now split_and.
  - destruct Hcase as [[-> ->] | [(H & _) | [(H & _) | (H & _)]]];
      try (now split_and);
      exfalso; rewrite H in Hphase; simpl in Hphase;
      intuition discriminate.
Qed.

(** X4.  The phases outside the speaking cycle (SETUP, VERDICT,
    USER_INPUT) are never left by the rotation: without a stop request, any
    number of boundary runs keeps the phase and the round. *)
Theorem rotation_keeps_idle_phase
    (agents : list Agent.t) (n : nat) (s s' : DebateState.t) :
  In (phase s) [SETUP; VERDICT; USER_INPUT] ->
  userRequestedStop s = false ->
  run agents n s = Some s' ->
  phase s' = phase s
  /\ currentRound s' = currentRound s
  /\ transcript s' = transcript s.
Proof.
  revert s. induction n as [| n IH]; intros s Hphase Hstop Hrun;
    simpl in Hrun.
  - injection Hrun as <-. now split_and.
  - destruct (advanceTurn agents s) as [s1 |] eqn:Hstep; [| discriminate].
    destruct (advanceTurn_keeps_idle_phase agents s s1 Hphase Hstop Hstep)
      as (Hph & Hr & Htr & Hstop1).
    destruct (IH s1) as (Hph' & Hr' & Htr'); try assumption.
    + now rewrite Hph.
    + split_and; congruence.
Qed.

Lemma rotation_keeps_idle_phase_witness :
  exists s',
    run [alice; bob] 5
      (sample_state FIXED 2 1 USER_INPUT (Some "a1") false) = Some s'
    /\ phase s' = USER_INPUT /\ currentRound s' = 1 /\ transcript s' = [].
Proof.
  destruct (run [alice; bob] 5
              (sample_state FIXED 2 1 USER_INPUT (Some "a1") false))
    as [s' |] eqn:Hrun.
  - exists s'. split; [reflexivity |].
    apply (rotation_keeps_idle_phase [alice; bob] 5
             (sample_state FIXED 2 1 USER_INPUT (Some "a1") false) s');
      [simpl; tauto | reflexivity | exact Hrun].
  - vm_compute in Hrun. discriminate Hrun.
Defined.

Lemma findIndex_from_absent {A : Type} (p : A -> bool) (xs : list A) :
  (forall x, In x xs -> p x = false) ->
  forall i, findIndex_from p xs i = -1.
Proof.
  induction xs as [| x xs IH]; intros Habsent i; simpl; [reflexivity |].
  rewrite (Habsent x (or_introl eq_refl)).
  apply IH. intros y Hy. apply Habsent. now right.
Qed.

Lemma findIndex_from_range {A : Type} (p : A -> bool) (xs : list A) :
  forall i,
    findIndex_from p xs i = -1
    \/ i <= findIndex_from p xs i < i + length_Z xs.
Proof.
  induction xs as [| x xs IH]; intro i; simpl; [now left |].
  unfold length_Z. simpl length.
  destruct (p x).
  - right. lia.
  - destruct (IH (i + 1)) as [H | H]; [now left | right].
    unfold length_Z in H. lia.
Qed.

(** X5.  If the current turn does not belong to a roster agent (no active
    turn, the orchestrator sentinel, a stale id), the boundary, and with it
    the director's skip-turn, gives the turn to the first agent of the
    roster and leaves phase and round alone. *)
Theorem skip_turn_without_agent_restarts_at_first
    (first : Agent.t) (others : list Agent.t) (s : DebateState.t) :
  match currentTurnAgentId s with
  | Some t => ~ In t (roster_ids (first :: others))
  | None => True
  end ->
  userRequestedStop s = false ->
  phase s <> VOTING ->
  exists s',
    handleDirectorSkipTurn (first :: others) s = Some s'
    /\ currentTurnAgentId s' = Some (Agent.id first)
    /\ phase s' = phase s
    /\ currentRound s' = currentRound s
    /\ transcript s' = transcript s.
Proof.
  intros Hturn Hstop Hphase.
  assert (Habsent : forall a, In a (first :: others) ->
                      id_is (currentTurnAgentId s) a = false).
  { intros a Hin. unfold id_is.
    destruct (currentTurnAgentId s) as [t |]; [| reflexivity].
    apply String.eqb_neq. intros Heq. apply Hturn.
    rewrite <- Heq. unfold roster_ids. now apply in_map. }
  unfold handleDirectorSkipTurn, advanceTurn, findIndex.
  rewrite Hstop, (findIndex_from_absent _ _ Habsent).
  destruct (Z.geb_spec (-1 + 1) (length_Z (first :: others))) as [Hend | _].
  { unfold length_Z in Hend. simpl length in Hend. lia. }
  destruct (DebatePhase_eqb (phase s) VOTING) eqn:Hvoting.
  { apply DebatePhase_eqb_eq in Hvoting. contradiction. }
  change (-1 + 1) with 0. rewrite at_index_head.
  eexists. split_and; reflexivity.
Qed.

Lemma skip_turn_without_agent_restarts_at_first_witness :
  exists s',
    handleDirectorSkipTurn [alice; bob]
      (sample_state AUTO 2 3 SYNTHESIS (Some ORCHESTRATOR) false) = Some s'
    /\ currentTurnAgentId s' = Some "a1"
    /\ phase s' = SYNTHESIS
    /\ currentRound s' = 3
    /\ transcript s' = [].
Proof.
  apply (skip_turn_without_agent_restarts_at_first alice [bob]
           (sample_state AUTO 2 3 SYNTHESIS (Some ORCHESTRATOR) false)).
  - simpl. intros [H | [H | []]]; discriminate H.
  - reflexivity.
  - discriminate.
Defined.

(** X6.  On a roster that is not empty the rotation boundary never throws,
    whatever the state.  On an empty roster it throws exactly when it would
    have to name a next agent: no stop pending, the phase not VOTING, and
    not the end of SYNTHESIS in auto-pilot mode or with the rounds used
    up. *)
Theorem advanceTurn_throws_only_on_empty_roster
    (agents : list Agent.t) (s : DebateState.t) :
  (agents <> [] -> exists s', advanceTurn agents s = Some s')
  /\ (advanceTurn [] s = None <->
      userRequestedStop s = false
      /\ phase s <> VOTING
      /\ ~ (phase s = SYNTHESIS
            /\ (mode s = AUTO \/ maxRounds s <= currentRound s))).
Proof.
  split.
  - intro Hroster.
    destruct agents as [| first others]; [contradiction |].
    unfold advanceTurn, findIndex.
    destruct (userRequestedStop s); [eauto |].
    set (idx := findIndex_from _ _ 0).
    assert (Hnext : forall i, 0 <= i < length_Z (first :: others) ->
                      exists a, at_index (first :: others) i = Some a)
      by apply at_index_in_range.
    destruct (Z.geb_spec (idx + 1) (length_Z (first :: others)))
      as [Hend | Hin].
    + destruct (phase s); cbn [DebatePhase_eqb]; rewrite ?at_index_head;
        eauto.
      destruct (mode s); [| eauto].
      destruct (currentRound s >=? maxRounds s); cbn [DebatePhase_eqb];
        rewrite ?at_index_head; eauto.
    + destruct (Hnext (idx + 1)) as [a Ha].
      { destruct (findIndex_from_range
                    (id_is (currentTurnAgentId s)) (first :: others) 0)
          as [H | H]; fold idx in H; lia. }
      destruct (DebatePhase_eqb (phase s) VOTING); rewrite ?Ha; eauto.
  - unfold advanceTurn, findIndex. cbn [findIndex_from].
    change (-1 + 1 >=? length_Z (@nil Agent.t)) with true. cbn iota.
    destruct (userRequestedStop s).
    { split; [discriminate | intros [H _]; discriminate H]. }
    destruct (phase s); cbn [DebatePhase_eqb at_index Z.ltb Z.compare
                               nth_error Z.to_nat];
      try (split; [intros _; split_and; try reflexivity; try discriminate;
                   intros [H _]; discriminate H
                  | reflexivity]).
    + destruct (mode s).
      * destruct (Z.geb_spec (currentRound s) (maxRounds s)) as [Hge | Hlt];
          cbn [DebatePhase_eqb].
        -- split; [discriminate |]. intros (_ & _ & H). exfalso. apply H.
           split; [reflexivity | now right].
        -- split; [| reflexivity]. intros _. split_and; try reflexivity;
             try discriminate.
           intros [_ [H | H]]; [discriminate H | lia].
      * split; [discriminate |]. intros (_ & _ & H). exfalso. apply H.
        split; [reflexivity | now left].
    + split; [discriminate |]. intros (_ & H & _). now contradiction H.
Qed.

Lemma advanceTurn_throws_only_on_empty_roster_witness :
  exists s',
    advanceTurn [alice]
      (sample_state FIXED 2 1 REBUTTAL (Some "zz") false) = Some s'.
Proof.
  apply (advanceTurn_throws_only_on_empty_roster [alice]
           (sample_state FIXED 2 1 REBUTTAL (Some "zz") false)).
  discriminate.
Defined.

(** ** Human answers and the consultation prompt *)

Lemma last_phase_of_appended (tr : list Message.t) (m : Message.t)
    (p : DebatePhase) :
  Message.phase m = Some p ->
  last_phase_or_opening (tr ++ [m]) = p.
Proof.
  intro Hphase. unfold last_phase_or_opening.
  replace (length_Z (tr ++ [m]) - 1) with (length_Z tr)
    by (rewrite length_Z_app; change (length_Z [m]) with 1; lia).
  now rewrite at_index_middle, Hphase.
Qed.

Lemma at_index_last_appended {A : Type} (xs : list A) (x : A) :
  at_index (xs ++ [x]) (length_Z (xs ++ [x]) - 1) = Some x.
Proof.
  replace (length_Z (xs ++ [x]) - 1) with (length_Z xs)
    by (rewrite length_Z_app; change (length_Z [x]) with 1; lia).
  apply at_index_middle.
Qed.

(** X7.  Answering a question that a debating agent asked does not bring
    the debate back to the phase it was in: the answer is appended (as a
    USER_INPUT message) before the phase is read off the last message, so
    the phase stays USER_INPUT, with [isThinking] raised and the question
    cleared.  The tool resumption that follows appends the agent's reply
    and rotates, still in USER_INPUT. *)
Theorem agent_question_answer_stays_in_user_input
    (agents : list Agent.t) (state : DebateState.t) (uuid : string)
    (now : Z) (answer who : string) (prev : DebateState.t) :
  truthy (pendingUserQuestion state) = true ->
  thinkingAgentId state = Some who ->
  who <> EmptyString ->
  who <> CHAIRPERSON ->
  exists s',
    handleUserAnswer agents state uuid now answer prev = Some s'
    /\ phase s' = USER_INPUT
    /\ isThinking s' = true
    /\ pendingUserQuestion s' = None
    /\ currentTurnAgentId s' = currentTurnAgentId prev
    /\ currentRound s' = currentRound prev
    /\ (exists m, transcript s' = (transcript prev ++ [m])%list
                  /\ Message.agentId m = "user"
                  /\ Message.content m = answer
                  /\ Message.phase m = Some USER_INPUT)
    /\ (forall w refs agent tc reply,
          Refs.processingRef refs = false ->
          Refs.pendingToolCallRef refs = Some tc ->
          showConsultationPrompt prev = false ->
          userRequestedStop prev = false ->
          find (id_is (currentTurnAgentId prev)) agents = Some agent ->
          Agent.id agent <> ORCHESTRATOR ->
          Agent.id agent <> EmptyString ->
          World.toolReplyCall w = Resolved reply ->
          exists s'',
            runDebateStep w agents refs s' = Some (Refs.mk false None, s'')
            /\ phase s'' = USER_INPUT
            /\ currentRound s'' = currentRound prev
            /\ length (transcript s'') = (length (transcript prev) + 2)%nat).
Proof.
  intros Hquestion Hwho Hnonempty Hagent.
  unfold handleUserAnswer. rewrite Hquestion, Hwho.
  cbn [truthy turn_is negb orb].
  apply String.eqb_neq in Hnonempty. apply String.eqb_neq in Hagent.
  rewrite Hnonempty, Hagent. cbn [negb].
  eexists. split; [reflexivity |].
  cbn [phase isThinking pendingUserQuestion currentTurnAgentId currentRound
       transcript set_isThinking set_phase set_pendingUserQuestion
       addMessage set_transcript].
  split_and; try reflexivity.
  - now apply last_phase_of_appended.
  - eexists. split_and; reflexivity.
  - intros w refs agent tc reply Hidle Hpending Hprompt Hstop Hfind Horch
           Hid Hreply.
    rewrite (last_phase_of_appended _ _ USER_INPUT) by reflexivity.
    unfold runDebateStep.
    cbn [phase isThinking pendingUserQuestion currentTurnAgentId
         showConsultationPrompt finalVerdict set_isThinking set_phase
         set_pendingUserQuestion addMessage set_transcript].
    rewrite Hidle, Hpending, Hprompt, (find_turn _ _ _ Hfind).
    cbn [truthy turn_is DebatePhase_eqb negb andb orb is_some].
    apply String.eqb_neq in Horch. apply String.eqb_neq in Hid.
    rewrite Horch, Hid. cbn [negb orb andb].
    unfold resumeFromTool.
    cbn [currentTurnAgentId transcript set_isThinking set_phase
         set_pendingUserQuestion addMessage set_transcript].
    rewrite Hfind, at_index_last_appended, Hreply.
    cbn [generateToolResponse].
    set (st := addMessage _ _ _ _ _ _ _ _ _ _ _).
    assert (Hfind' : find (id_is (currentTurnAgentId st)) agents
                     = Some agent) by exact Hfind.
    destruct (advanceTurn_defined agents st agent Hfind')
      as (s'' & Hstep & Htranscript & _).
    rewrite Hstep. exists s''. split; [reflexivity |].
    destruct (advanceTurn_keeps_idle_phase agents st s'')
      as (Hph & Hround & _).
    + simpl. tauto.
    + exact Hstop.
    + exact Hstep.
    + split_and.
      * exact Hph.
      * exact Hround.
      * rewrite Htranscript. unfold st, addMessage.
        cbn [transcript set_transcript set_isThinking set_phase
             set_pendingUserQuestion].
        rewrite !length_app. cbn [length]. lia.
Qed.

Lemma agent_question_answer_stays_in_user_input_witness :
  exists s',
    handleUserAnswer [alice; bob]
      (set_thinkingAgentId (Some "a1")
         (set_pendingUserQuestion (Some "Which option?")
            (sample_state FIXED 2 1 USER_INPUT (Some "a1") false)))
      "u7" 5 "The second." 
      (set_thinkingAgentId (Some "a1")
         (set_pendingUserQuestion (Some "Which option?")
            (sample_state FIXED 2 1 USER_INPUT (Some "a1") false)))
    = Some s'
    /\ phase s' = USER_INPUT
    /\ isThinking s' = true
    /\ pendingUserQuestion s' = None.
Proof.
  destruct (agent_question_answer_stays_in_user_input [alice; bob]
              (set_thinkingAgentId (Some "a1")
                 (set_pendingUserQuestion (Some "Which option?")
                    (sample_state FIXED 2 1 USER_INPUT (Some "a1") false)))
              "u7" 5 "The second." "a1"
              (set_thinkingAgentId (Some "a1")
                 (set_pendingUserQuestion (Some "Which option?")
                    (sample_state FIXED 2 1 USER_INPUT (Some "a1") false))))
    as (s' & Hanswer & Hphase & Hthinking & Hquestion & _);
    try reflexivity; try discriminate.
  exists s'. now split_and.
Defined.

(** X8.  Accepting the consultation and then answering ends where
    declining ends: REBUTTAL, first agent, round plus one, nothing in
    flight and the prompt closed; the only traces of the detour are the
    answer in the transcript, the cleared question and the chairperson as
    [thinkingAgentId].  Without a pending question (or without a thinking
    agent) an answer changes nothing. *)
Theorem consultation_answer_matches_decline
    (first : Agent.t) (others : list Agent.t) (uuid : string) (now : Z)
    (answer : string) (prev : DebateState.t) :
  (exists accepted answered declined,
     handleConsultationChoice (first :: others) true prev = Some accepted
     /\ handleUserAnswer (first :: others) accepted uuid now answer accepted
        = Some answered
     /\ handleConsultationChoice (first :: others) false prev
        = Some declined
     /\ phase answered = REBUTTAL /\ phase declined = REBUTTAL
     /\ currentTurnAgentId answered = Some (Agent.id first)
     /\ currentTurnAgentId declined = Some (Agent.id first)
     /\ currentRound answered = currentRound prev + 1
     /\ currentRound declined = currentRound prev + 1
     /\ isThinking answered = false /\ isThinking declined = false
     /\ showConsultationPrompt answered = false
     /\ showConsultationPrompt declined = false
     /\ pendingUserQuestion answered = None
     /\ thinkingAgentId answered = Some CHAIRPERSON
     /\ transcript declined = transcript prev
     /\ exists m, transcript answered = (transcript prev ++ [m])%list
                  /\ Message.agentId m = "user"
                  /\ Message.content m = answer)
  /\ (forall agents state,
        truthy (pendingUserQuestion state) = false
        \/ truthy (thinkingAgentId state) = false ->
        handleUserAnswer agents state uuid now answer prev = Some prev).
Proof.
  split.
  - do 3 eexists.
    unfold handleConsultationChoice, handleUserAnswer.
    cbn [negb]. rewrite at_index_head.
    split; [reflexivity |].
    cbn [pendingUserQuestion thinkingAgentId set_thinkingAgentId
         set_pendingUserQuestion set_showConsultationPrompt truthy
         turn_is].
    change (truthy (Some floor_is_yours)) with true.
    change (String.eqb CHAIRPERSON EmptyString) with false.
    rewrite String.eqb_refl. cbn [negb orb].
    split; [reflexivity |]. split; [reflexivity |].
    cbn. split_and; try reflexivity.
    eexists. split_and; reflexivity.
  - intros agents state [H | H]; unfold handleUserAnswer; rewrite H;
      cbn [negb orb]; [reflexivity |].
    now rewrite orb_true_r.
Qed.

Lemma consultation_answer_matches_decline_witness :
  handleUserAnswer [alice; bob] INITIAL_STATE "u1" 7 "Too late."
    (sample_state AUTO 2 2 REBUTTAL (Some "a1") false)
  = Some (sample_state AUTO 2 2 REBUTTAL (Some "a1") false).
Proof.
  destruct (consultation_answer_matches_decline alice [bob] "u1" 7
              "Too late." (sample_state AUTO 2 2 REBUTTAL (Some "a1") false))
    as [_ Hnoop].
  apply Hnoop. left. reflexivity.
Defined.

(** ** The orchestrator step *)

(** X9.  When the orchestrator's decision summons a guest (and neither
    concludes nor meets a stop request), the step appends exactly two
    messages, the chairperson's announcement and the guest's single turn
    (flagged as guest, under the guest's role, with the filler text if the
    guest's generation failed), then starts the next round: REBUTTAL, first
    agent, round plus one, no guest left summoned.  A consultation asked
    for in the same decision is not raised. *)
Theorem summoned_guest_speaks_once
    (w : World.t) (first : Agent.t) (others : list Agent.t)
    (s : DebateState.t) (json : DecisionJson.t) (guest : GuestSpec.t) :
  World.decisionCall w = Resolved (Json json) ->
  DecisionJson.summonGuest json = Some guest ->
  DecisionJson.shouldConclude json <> Some true ->
  currentRound s <= 5 ->
  userRequestedStop s = false ->
  exists s' announced spoken,
    orchestratorTurn w (first :: others) s = Some s'
    /\ transcript s' = (transcript s ++ [announced; spoken])%list
    /\ Message.agentId announced = CHAIRPERSON
    /\ Message.isGuest announced = Some false
    /\ Message.agentId spoken = GuestSpec.name guest
    /\ Message.isGuest spoken = Some true
    /\ Message.guestRole spoken = Some (GuestSpec.role guest)
    /\ Message.content spoken
       = GenericResponse.text
           (generateAgentTurn (guest_agent guest) (World.turnCall w))
    /\ phase s' = REBUTTAL
    /\ currentTurnAgentId s' = Some (Agent.id first)
    /\ currentRound s' = currentRound s + 1
    /\ summonedGuest s' = None
    /\ isThinking s' = false
    /\ showConsultationPrompt s' = showConsultationPrompt s.
Proof.
  intros Hcall Hguest Hgo Hearly Hstop.
  assert (Hconclude :
            or_bool (DecisionJson.shouldConclude json) (currentRound s >? 5)
            = false).
  { destruct (DecisionJson.shouldConclude json) as [[|] |];
      try congruence; simpl; rewrite Z.gtb_ltb; apply Z.ltb_ge; lia. }
  unfold orchestratorTurn, orchestratorDecide. rewrite Hcall.
  cbn [OrchestratorDecision.shouldConclude
       OrchestratorDecision.summonGuest].
  rewrite Hconclude, Hstop, Hguest. cbn [orb].
  unfold next_round. rewrite at_index_head.
  do 3 eexists. split; [reflexivity |].
  cbn [transcript set_isThinking set_currentRound set_phase
       set_currentTurnAgentId set_summonedGuest addMessage set_transcript
       phase currentTurnAgentId currentRound summonedGuest isThinking
       showConsultationPrompt].
  split; [rewrite <- app_assoc; reflexivity |].
  split_and; reflexivity.
Qed.

Lemma summoned_guest_speaks_once_witness :
  exists s',
    orchestratorTurn
      (sample_world names_bob (Rejected rate_limited)
         (Resolved (Json (DecisionJson.mk (Some false) (Some "Go on.")
                            (Some true) (Some sample_guest)))))
      [alice; bob]
      (sample_state AUTO 2 1 SYNTHESIS (Some ORCHESTRATOR) false)
    = Some s'
    /\ map Message.content (transcript s')
       = ["(Summoning Expert) I am calling upon Dr. Ito, a Epidemiologist, to clarify this point because: Nobody has cited data.";
          "Error generating response."]
    /\ currentRound s' = 2
    /\ showConsultationPrompt s' = false.
Proof.
  destruct (summoned_guest_speaks_once
              (sample_world names_bob (Rejected rate_limited)
                 (Resolved (Json (DecisionJson.mk (Some false)
                                    (Some "Go on.") (Some true)
                                    (Some sample_guest)))))
              alice [bob]
              (sample_state AUTO 2 1 SYNTHESIS (Some ORCHESTRATOR) false)
              _ sample_guest eq_refl eq_refl)
    as (s' & announced & spoken & Hstep & Htr & _ & _ & _ & _ & _ & _ & _
        & _ & Hround & _ & _ & Hprompt);
    try discriminate; try reflexivity.
  exists s'. split; [exact Hstep |].
  split; [| split; [exact Hround | exact Hprompt]].
  vm_compute in Hstep. injection Hstep as <-. reflexivity.
Defined.

(** X10.  When the decision asks for a consultation (no guest, no
    conclusion, no stop request), the step appends the chairperson's
    guidance, raises the consultation prompt and changes neither turn,
    phase nor round; while the prompt is up no run of the loop does
    anything, and declining starts the next round at the first agent. *)
Theorem consultation_prompt_pauses_the_loop
    (w : World.t) (first : Agent.t) (others : list Agent.t)
    (s : DebateState.t) (json : DecisionJson.t) :
  World.decisionCall w = Resolved (Json json) ->
  DecisionJson.summonGuest json = None ->
  DecisionJson.shouldConsultUser json = Some true ->
  DecisionJson.shouldConclude json <> Some true ->
  currentRound s <= 5 ->
  userRequestedStop s = false ->
  exists s' guidance,
    orchestratorTurn w (first :: others) s = Some s'
    /\ transcript s' = (transcript s ++ [guidance])%list
    /\ Message.agentId guidance = CHAIRPERSON
    /\ Message.content guidance
       = or_field (DecisionJson.guidance json) "Continue the debate."
    /\ showConsultationPrompt s' = true
    /\ isThinking s' = false
    /\ currentTurnAgentId s' = currentTurnAgentId s
    /\ phase s' = phase s
    /\ currentRound s' = currentRound s
    /\ (forall w' agents refs,
          pendingUserQuestion s = None ->
          runDebateStep w' agents refs s' = Some (refs, s'))
    /\ exists declined,
         handleConsultationChoice (first :: others) false s' = Some declined
         /\ phase declined = REBUTTAL
         /\ currentTurnAgentId declined = Some (Agent.id first)
         /\ currentRound declined = currentRound s + 1
         /\ showConsultationPrompt declined = false.
Proof.
  intros Hcall Hguest Hconsult Hgo Hearly Hstop.
  assert (Hconclude :
            or_bool (DecisionJson.shouldConclude json) (currentRound s >? 5)
            = false).
  { destruct (DecisionJson.shouldConclude json) as [[|] |];
      try congruence; simpl; rewrite Z.gtb_ltb; apply Z.ltb_ge; lia. }
  unfold orchestratorTurn, orchestratorDecide. rewrite Hcall.
  cbn [OrchestratorDecision.shouldConclude OrchestratorDecision.summonGuest
       OrchestratorDecision.shouldConsultUser
       OrchestratorDecision.guidance].
  rewrite Hconclude, Hstop, Hguest, Hconsult. cbn [orb or_bool].
  do 2 eexists. split; [reflexivity |].
  cbn [transcript set_isThinking set_showConsultationPrompt addMessage
       set_transcript phase currentTurnAgentId currentRound isThinking
       showConsultationPrompt Message.agentId Message.content].
  split_and; try reflexivity.
  - intros w' agents refs Hquestion. unfold runDebateStep.
    cbn [pendingUserQuestion showConsultationPrompt set_isThinking
         set_showConsultationPrompt addMessage set_transcript].
    rewrite Hquestion. cbn [truthy].
    destruct (Refs.processingRef refs); reflexivity.
  - unfold handleConsultationChoice. cbn [negb].
    rewrite at_index_head. eexists. split_and; reflexivity.
Qed.

Lemma consultation_prompt_pauses_the_loop_witness :
  exists s',
    orchestratorTurn
      (sample_world names_bob (Resolved (plain_reply "x"))
         (Resolved (Json (DecisionJson.mk None None (Some true) None))))
      [alice; bob]
      (sample_state AUTO 2 2 SYNTHESIS (Some ORCHESTRATOR) false)
    = Some s'
    /\ showConsultationPrompt s' = true
    /\ currentRound s' = 2
    /\ map Message.content (transcript s') = ["Continue the debate."].
Proof.
  destruct (consultation_prompt_pauses_the_loop
              (sample_world names_bob (Resolved (plain_reply "x"))
                 (Resolved (Json (DecisionJson.mk None None (Some true)
                                    None))))
              alice [bob]
              (sample_state AUTO 2 2 SYNTHESIS (Some ORCHESTRATOR) false)
              _ eq_refl eq_refl eq_refl)
    as (s' & guidance & Hstep & Htr & _ & Hcontent & Hprompt & _ & _ & _
        & Hround & _);
    try discriminate; try reflexivity.
  exists s'. split_and; try assumption.
  rewrite Htr. simpl. now rewrite Hcontent.
Defined.

(** ** Invariants of the orchestration loop *)

Ltac solve_added :=
  first
    [ exists []; split; [now rewrite app_nil_r | simpl; lia]
    | eexists; split; [reflexivity | simpl; lia]
    | eexists; split; [rewrite <- app_assoc; reflexivity | simpl; lia] ].

Ltac solve_keeps :=
  unfold step_keeps;
  cbn [topic mode maxRounds userRequestedStop contextDocuments currentRound
       transcript set_isThinking set_phase set_currentTurnAgentId
       set_currentRound set_thinkingAgentId set_pendingUserQuestion
       set_finalVerdict set_showConsultationPrompt set_summonedGuest
       set_transcript addMessage];
  split_and; try reflexivity; try lia; solve_added.

Lemma step_keeps_refl (s : DebateState.t) : step_keeps s s.
Proof.
  solve_keeps.
Qed.

(** A boundary run after the step's own writes keeps what they kept. *)
Lemma step_keeps_advance (agents : list Agent.t) (s st s' : DebateState.t) :
  step_keeps s st ->
  currentRound st = currentRound s ->
  advanceTurn agents st = Some s' ->
  step_keeps s s'.
Proof.
  intros (Ht & Hm & Hmax & Hstop & Hdocs & _ & added & Htr & Hlen) Hround
         Hstep.
  assert (Hsame : topic s' = topic st /\ mode s' = mode st
                  /\ maxRounds s' = maxRounds st
                  /\ userRequestedStop s' = userRequestedStop st
                  /\ contextDocuments s' = contextDocuments st
                  /\ transcript s' = transcript st
                  /\ currentRound st <= currentRound s'
                     <= currentRound st + 1).
  { destruct (advanceTurn_cases agents st s' Hstep)
      as [[-> _] | [[-> _] | (a & p & r & -> & _ & _ & _ & Hcase)]];
      cbn; split_and; try reflexivity; try lia;
      destruct Hcase as [[_ ->] | [(_ & _ & ->) | [(_ & _ & ->) |
                          (_ & _ & _ & _ & ->)]]]; lia. }
  destruct Hsame as (Ht' & Hm' & Hmax' & Hstop' & Hdocs' & Htr' & Hr').
  unfold step_keeps. split_and; try congruence; try lia.
  exists added. split; [congruence | exact Hlen].
Qed.

Lemma votingPass_keeps (w : World.t) (agents : list Agent.t)
    (s : DebateState.t) :
  step_keeps s (votingPass w agents s).
Proof.
  unfold votingPass.
  destruct (generateFinalVerdict _ _ _); solve_keeps.
Qed.

Lemma orchestratorTurn_keeps (w : World.t) (agents : list Agent.t)
    (s s' : DebateState.t) :
  orchestratorTurn w agents s = Some s' -> step_keeps s s'.
Proof.
  unfold orchestratorTurn, fallback_continue, next_round.
  destruct (orchestratorDecide _ _) as [decision | e].
  - destruct (_ || _).
    + intros [= <-]. solve_keeps.
    + destruct (OrchestratorDecision.summonGuest decision) as [guest |].
      * destruct (at_index agents 0); [| discriminate].
        intros [= <-]. solve_keeps.
      * destruct (OrchestratorDecision.shouldConsultUser decision).
        -- intros [= <-]. solve_keeps.
        -- destruct (at_index agents 0); [| discriminate].
           intros [= <-]. solve_keeps.
  - destruct (at_index agents 0); [| discriminate].
    intros [= <-]. solve_keeps.
Qed.

Lemma startTurn_keeps (w : World.t) (agents : list Agent.t) (refs refs' : Refs.t)
    (s s' : DebateState.t) :
  startTurn w agents refs s = Some (refs', s') -> step_keeps s s'.
Proof.
  unfold startTurn.
  destruct (find _ agents) as [agent |]; [| intros [= _ <-]; solve_keeps].
  destruct (GenericResponse.toolCall _) as [toolCall |].
  - destruct (String.eqb (ToolCall.name toolCall) "askUser").
    { intros [= _ <-]. solve_keeps. }
    destruct (String.eqb (ToolCall.name toolCall) "search_web");
      [| intros [= _ <-]; solve_keeps].
    destruct (generateToolResponse _) as [toolResult | e];
      (destruct (advanceTurn agents _) as [s1 |] eqn:Hstep;
       [| discriminate]);
      intros [= _ <-];
      (eapply step_keeps_advance; [| | exact Hstep]);
      [solve_keeps | reflexivity | solve_keeps | reflexivity].
  - destruct (advanceTurn agents _) as [s1 |] eqn:Hstep; [| discriminate].
    intros [= _ <-].
    eapply step_keeps_advance; [| | exact Hstep];
      [solve_keeps | reflexivity].
Qed.

Lemma resumeFromTool_keeps (w : World.t) (agents : list Agent.t)
    (refs refs' : Refs.t) (s s' : DebateState.t) :
  resumeFromTool w agents refs s = Some (refs', s') -> step_keeps s s'.
Proof.
  unfold resumeFromTool.
  destruct (find _ agents) as [agent |];
    [| intros [= _ <-]; apply step_keeps_refl].
  destruct (at_index (transcript s) _) as [lastMsg |];
    [| intros [= _ <-]; apply step_keeps_refl].
  destruct (generateToolResponse _) as [result | e];
    [| intros [= _ <-]; apply step_keeps_refl].
  destruct (advanceTurn agents _) as [s1 |] eqn:Hstep; [| discriminate].
  intros [= _ <-].
  eapply step_keeps_advance; [| | exact Hstep];
    [solve_keeps | reflexivity].
Qed.

(** X11.  One run of the orchestration loop never rewrites or removes a
    message and appends at most two; it never lowers the round and raises
    it by at most one; it leaves the topic, the mode, the round limit, the
    stop flag and the context documents as they are. *)
Theorem runDebateStep_keeps
    (w : World.t) (agents : list Agent.t) (refs refs' : Refs.t)
    (s s' : DebateState.t) :
  runDebateStep w agents refs s = Some (refs', s') ->
  step_keeps s s'.
Proof.
  unfold runDebateStep.
  repeat match goal with
         | |- context [if ?b then _ else _] =>
             destruct b;
             try (intros [= _ <-]; apply step_keeps_refl)
         end.
  - intros [= _ <-]. apply votingPass_keeps.
  - destruct (orchestratorTurn w agents s) as [s1 |] eqn:Hturn;
      [| discriminate].
    intros [= _ <-]. now apply (orchestratorTurn_keeps w agents).
  - apply resumeFromTool_keeps.
  - apply startTurn_keeps.
Qed.

Lemma runDebateStep_keeps_witness :
  exists refs' s',
    runDebateStep
      (sample_world names_bob (Resolved (plain_reply "I open."))
         (Resolved Unparsable))
      [alice; bob] (Refs.mk false None)
      (sample_state FIXED 2 1 OPENING (Some "a1") false)
    = Some (refs', s')
    /\ step_keeps (sample_state FIXED 2 1 OPENING (Some "a1") false) s'.
Proof.
  destruct (runDebateStep
              (sample_world names_bob (Resolved (plain_reply "I open."))
                 (Resolved Unparsable))
              [alice; bob] (Refs.mk false None)
              (sample_state FIXED 2 1 OPENING (Some "a1") false))
    as [[refs' s'] |] eqn:Hrun.
  - exists refs', s'. split; [reflexivity |].
    exact (runDebateStep_keeps _ _ _ _ _ _ Hrun).
  - vm_compute in Hrun. discriminate Hrun.
Defined.

(** ** Where the loop stops acting *)

(** X12.  After the voting pass the loop never acts again, whether the
    verdict call succeeded or not.  If it resolved, the debate is in
    VERDICT with the verdict stored and nothing in flight; if it was
    rejected, the state keeps its phase, has no verdict and stays with
    [isThinking] raised.  In both cases (the active turn being cleared, as
    on every way into VOTING) every later run of the loop returns the state
    unchanged. *)
Theorem voting_pass_is_final
    (w : World.t) (agents : list Agent.t) (s : DebateState.t) :
  currentTurnAgentId s = None ->
  (forall w' agents' refs,
     runDebateStep w' agents' refs (votingPass w agents s)
     = Some (refs, votingPass w agents s))
  /\ match generateFinalVerdict
             (collectVotes agents (World.voteCalls w) 0 agents [])
             agents (World.verdictCall w) with
     | Resolved verdict =>
         phase (votingPass w agents s) = VERDICT
         /\ finalVerdict (votingPass w agents s) = Some verdict
         /\ isThinking (votingPass w agents s) = false
     | Rejected _ =>
         phase (votingPass w agents s) = phase s
         /\ finalVerdict (votingPass w agents s) = finalVerdict s
         /\ isThinking (votingPass w agents s) = true
     end.
Proof.
  intro Hturn. unfold votingPass.
  destruct (generateFinalVerdict _ agents (World.verdictCall w))
    as [verdict | e].
  - split; [| now split_and].
    intros w' agents' refs. unfold runDebateStep.
    cbn [pendingUserQuestion showConsultationPrompt phase isThinking
         finalVerdict currentTurnAgentId set_finalVerdict set_isThinking
         set_phase].
    rewrite Hturn. cbn [DebatePhase_eqb andb turn_is truthy negb orb].
    destruct (Refs.processingRef refs); [reflexivity |].
    destruct (truthy (pendingUserQuestion s)); [reflexivity |].
    destruct (showConsultationPrompt s); reflexivity.
  - split; [| now split_and].
    intros w' agents' refs. unfold runDebateStep.
    cbn [pendingUserQuestion showConsultationPrompt phase isThinking
         finalVerdict currentTurnAgentId set_isThinking].
    rewrite Hturn. cbn [turn_is truthy negb orb andb].
    rewrite andb_false_r.
    destruct (Refs.processingRef refs); [reflexivity |].
    destruct (truthy (pendingUserQuestion s)); [reflexivity |].
    destruct (showConsultationPrompt s); reflexivity.
Qed.

Lemma voting_pass_is_final_witness :
  runDebateStep
    (sample_world second_fails (Resolved (plain_reply "again"))
       (Resolved Unparsable))
    [alice; bob] (Refs.mk false None)
    (votingPass
       (sample_world names_bob (Resolved (plain_reply "x"))
          (Resolved Unparsable))
       [alice; bob] (sample_state FIXED 2 2 VOTING None false))
  = Some (Refs.mk false None,
          votingPass
            (sample_world names_bob (Resolved (plain_reply "x"))
               (Resolved Unparsable))
            [alice; bob] (sample_state FIXED 2 2 VOTING None false)).
Proof.
  apply (voting_pass_is_final
           (sample_world names_bob (Resolved (plain_reply "x"))
              (Resolved Unparsable))
           [alice; bob] (sample_state FIXED 2 2 VOTING None false)).
  reflexivity.
Defined.

Lemma generateAgentTurn_tool (agent : Agent.t) (reply : GenericResponse.t)
    (tc : ToolCall.t) :
  GenericResponse.toolCall reply = Some tc ->
  generateAgentTurn agent (Resolved reply) = reply.
Proof.
  intro Htool. unfold generateAgentTurn. now rewrite Htool.
Qed.

(** X13.  A turn whose reply calls a tool that is neither [askUser] nor
    [search_web] is never completed: the step adds no message, does not
    rotate and leaves [isThinking] raised, and (no tool call being
    pending) every later run of the loop returns the state unchanged. *)
Theorem unknown_tool_call_stalls_the_debate
    (w : World.t) (agents : list Agent.t) (refs : Refs.t)
    (s : DebateState.t) (agent : Agent.t) (reply : GenericResponse.t)
    (tc : ToolCall.t) :
  Refs.pendingToolCallRef refs = None ->
  find (id_is (currentTurnAgentId s)) agents = Some agent ->
  Agent.id agent <> ORCHESTRATOR ->
  World.turnCall w = Resolved reply ->
  GenericResponse.toolCall reply = Some tc ->
  ToolCall.name tc <> "askUser" ->
  ToolCall.name tc <> "search_web" ->
  exists s',
    startTurn w agents refs s = Some (Refs.mk false None, s')
    /\ isThinking s' = true
    /\ transcript s' = transcript s
    /\ currentTurnAgentId s' = currentTurnAgentId s
    /\ phase s' = phase s
    /\ forall w' agents',
         runDebateStep w' agents' (Refs.mk false None) s'
         = Some (Refs.mk false None, s').
Proof.
  intros Hpending Hfind Horch Hcall Htool Hask Hsearch.
  unfold startTurn. rewrite Hfind, Hcall, Hpending.
  rewrite (generateAgentTurn_tool agent reply tc Htool), Htool.
  apply String.eqb_neq in Hask. apply String.eqb_neq in Hsearch.
  rewrite Hask, Hsearch.
  eexists. split; [reflexivity |].
  cbn [isThinking transcript currentTurnAgentId phase set_thinkingAgentId
       set_isThinking].
  split_and; try reflexivity.
  intros w' agents'. unfold runDebateStep.
  cbn [Refs.processingRef Refs.pendingToolCallRef pendingUserQuestion
       showConsultationPrompt phase isThinking finalVerdict
       currentTurnAgentId set_thinkingAgentId set_isThinking is_some].
  rewrite (find_turn _ _ _ Hfind). cbn [turn_is].
  apply String.eqb_neq in Horch. rewrite Horch.
  cbn [negb andb]. rewrite andb_false_r.
  destruct (truthy (pendingUserQuestion s)); [reflexivity |].
  destruct (showConsultationPrompt s); [reflexivity |].
  destruct (_ || _); reflexivity.
Qed.

Lemma unknown_tool_call_stalls_the_debate_witness :
  exists s',
    startTurn
      (sample_world names_bob (Resolved (calls_tool "lookup"))
         (Resolved Unparsable))
      [alice; bob] (Refs.mk false None)
      (sample_state FIXED 2 1 OPENING (Some "a1") false)
    = Some (Refs.mk false None, s')
    /\ isThinking s' = true
    /\ transcript s' = [].
Proof.
  destruct (unknown_tool_call_stalls_the_debate
              (sample_world names_bob (Resolved (calls_tool "lookup"))
                 (Resolved Unparsable))
              [alice; bob] (Refs.mk false None)
              (sample_state FIXED 2 1 OPENING (Some "a1") false)
              alice (calls_tool "lookup") (sample_call "lookup")
              eq_refl eq_refl)
    as (s' & Hstep & Hthinking & Htr & _);
    try discriminate; try reflexivity.
  exists s'. now split_and.
Defined.

(** X14.  A turn whose reply calls [askUser] with a question suspends the
    debate: the step records the tool call, moves to USER_INPUT with the
    question pending and nothing in flight, and adds no message and does
    not rotate; until the question is answered every run of the loop
    returns the state unchanged. *)
Theorem ask_user_suspends_the_debate
    (w : World.t) (agents : list Agent.t) (refs : Refs.t)
    (s : DebateState.t) (agent : Agent.t) (reply : GenericResponse.t)
    (tc : ToolCall.t) (question : string) :
  find (id_is (currentTurnAgentId s)) agents = Some agent ->
  World.turnCall w = Resolved reply ->
  GenericResponse.toolCall reply = Some tc ->
  ToolCall.name tc = "askUser" ->
  ToolCall.question tc = Some question ->
  question <> EmptyString ->
  exists s',
    startTurn w agents refs s
    = Some (Refs.mk false (Some (ToolCall.id tc, ToolCall.name tc)), s')
    /\ phase s' = USER_INPUT
    /\ pendingUserQuestion s' = Some question
    /\ isThinking s' = false
    /\ thinkingAgentId s' = currentTurnAgentId s
    /\ currentTurnAgentId s' = currentTurnAgentId s
    /\ currentRound s' = currentRound s
    /\ transcript s' = transcript s
    /\ forall w' agents' refs',
         runDebateStep w' agents' refs' s' = Some (refs', s').
Proof.
  intros Hfind Hcall Htool Hname Hquestion Hnonempty.
  unfold startTurn. rewrite Hfind, Hcall.
  rewrite (generateAgentTurn_tool agent reply tc Htool), Htool. rewrite Hname, Hquestion.
  cbn [String.eqb Ascii.eqb Bool.eqb andb].
  eexists. split; [reflexivity |].
  cbn [phase pendingUserQuestion isThinking thinkingAgentId
       currentTurnAgentId currentRound transcript set_pendingUserQuestion
       set_phase set_isThinking set_thinkingAgentId].
  split_and; try reflexivity.
  intros w' agents' refs'. unfold runDebateStep.
  cbn [pendingUserQuestion set_pendingUserQuestion truthy].
  apply String.eqb_neq in Hnonempty. rewrite Hnonempty. cbn [negb].
  destruct (Refs.processingRef refs'); reflexivity.
Qed.

Lemma ask_user_suspends_the_debate_witness :
  exists s',
    startTurn
      (sample_world names_bob (Resolved (calls_tool "askUser"))
         (Resolved Unparsable))
      [alice; bob] (Refs.mk false None)
      (sample_state FIXED 2 1 OPENING (Some "a1") false)
    = Some (Refs.mk false (Some ("call-1", "askUser")), s')
    /\ phase s' = USER_INPUT
    /\ pendingUserQuestion s' = Some "What matters most to you?".
Proof.
  destruct (ask_user_suspends_the_debate
              (sample_world names_bob (Resolved (calls_tool "askUser"))
                 (Resolved Unparsable))
              [alice; bob] (Refs.mk false None)
              (sample_state FIXED 2 1 OPENING (Some "a1") false)
              alice (calls_tool "askUser") (sample_call "askUser")
              "What matters most to you?"
              eq_refl eq_refl eq_refl eq_refl eq_refl)
    as (s' & Hstep & Hphase & Hquestion & _); [discriminate |].
  exists s'. now split_and.
Defined.

(** X15.  A turn whose reply calls [search_web] is completed within the
    same step.  If the resumed generation resolves, its text (or
    ["Acknowledged."] when empty) is appended as the agent's message; if it
    is rejected, nothing is appended.  Either way the rotation boundary
    runs, nothing is left in flight, and the tool call stays recorded in
    the pending-call cell. *)
Theorem web_search_turn_completes_in_one_step
    (w : World.t) (agents : list Agent.t) (refs : Refs.t)
    (s : DebateState.t) (agent : Agent.t) (reply : GenericResponse.t)
    (tc : ToolCall.t) :
  find (id_is (currentTurnAgentId s)) agents = Some agent ->
  World.turnCall w = Resolved reply ->
  GenericResponse.toolCall reply = Some tc ->
  ToolCall.name tc = "search_web" ->
  exists s',
    startTurn w agents refs s
    = Some (Refs.mk false (Some (ToolCall.id tc, ToolCall.name tc)), s')
    /\ isThinking s' = false
    /\ match World.toolReplyCall w with
       | Resolved resumed =>
           transcript s'
           = (transcript s
                ++ [turn_message
                      (or_string (World.uuidv4 w 0) (World.uuidv4 w 1))
                      (World.now w 0) (Agent.id agent)
                      (or_string (GenericResponse.text resumed)
                                 "Acknowledged.")
                      (GenericResponse.citations resumed) (phase s)])%list
       | Rejected _ => transcript s' = transcript s
       end
    /\ exists st,
         advanceTurn agents st = Some s'
         /\ currentTurnAgentId st = currentTurnAgentId s
         /\ phase st = phase s
         /\ currentRound st = currentRound s.
Proof.
  intros Hfind Hcall Htool Hname.
  unfold startTurn. rewrite Hfind, Hcall.
  rewrite (generateAgentTurn_tool agent reply tc Htool), Htool. rewrite Hname.
  cbn [String.eqb Ascii.eqb Bool.eqb andb].
  destruct (World.toolReplyCall w) as [resumed | e];
    cbn [generateToolResponse GenericResponse.text
         GenericResponse.citations];
    match goal with
    | |- context [advanceTurn agents ?x] => set (st := x)
    end;
    (assert (Hfind' : find (id_is (currentTurnAgentId st)) agents
                      = Some agent) by exact Hfind);
    destruct (advanceTurn_defined agents st agent Hfind')
      as (s' & Hstep & Htranscript & Hidle);
    rewrite Hstep; exists s';
    (split; [reflexivity |]); (split; [exact Hidle |]);
    (split; [rewrite Htranscript; reflexivity |]);
    exists st; split_and; (exact Hstep || reflexivity).
Qed.

Lemma web_search_turn_completes_in_one_step_witness :
  exists s',
    startTurn
      (sample_world names_bob (Resolved (calls_tool "search_web"))
         (Resolved Unparsable))
      [alice; bob] (Refs.mk false None)
      (sample_state FIXED 2 1 OPENING (Some "a1") false)
    = Some (Refs.mk false (Some ("call-1", "search_web")), s')
    /\ isThinking s' = false
    /\ map Message.content (transcript s') = ["Acknowledged."].
Proof.
  destruct (web_search_turn_completes_in_one_step
              (sample_world names_bob (Resolved (calls_tool "search_web"))
                 (Resolved Unparsable))
              [alice; bob] (Refs.mk false None)
              (sample_state FIXED 2 1 OPENING (Some "a1") false)
              alice (calls_tool "search_web") (sample_call "search_web")
              eq_refl eq_refl eq_refl eq_refl)
    as (s' & Hstep & Hidle & Htr & _).
  exists s'. split_and; try assumption.
  simpl in Htr. now rewrite Htr.
Defined.

(** ** Fallacy analysis *)

Lemma or_field_nonempty (v : option string) (d : string) :
  d <> EmptyString -> or_field v d <> EmptyString.
Proof.
  intro Hd. destruct v as [s |]; simpl; [| exact Hd].
  unfold or_string.
  destruct (String.eqb_spec s EmptyString); assumption.
Qed.



Lemma attach_other_commutes (msgId otherId : string) (f g : Fallacy.t)
    (tr : list Message.t) :
  otherId <> msgId ->
  map (fun m => if String.eqb (Message.id m) msgId
                then with_fallacy m f else m)
    (map (fun m => if String.eqb (Message.id m) otherId
                   then with_fallacy m g else m) tr)
  = map (fun m => if String.eqb (Message.id m) otherId
                  then with_fallacy m g else m)
      (map (fun m => if String.eqb (Message.id m) msgId
                     then with_fallacy m f else m) tr).
Proof.
  intro Hother. rewrite !map_map. apply map_ext. intro m.
  destruct (String.eqb_spec (Message.id m) otherId) as [Ho | Ho];
    destruct (String.eqb_spec (Message.id m) msgId) as [Hm | Hm];
    cbn [with_fallacy Message.id];
    try (exfalso; congruence);
    rewrite ?(proj2 (String.eqb_eq _ _) Ho),
            ?(proj2 (String.eqb_eq _ _) Hm),
            ?(proj2 (String.eqb_neq _ _) Ho),
            ?(proj2 (String.eqb_neq _ _) Hm); reflexivity.
Qed.

Lemma attach_same_overwrites (msgId : string) (f g : Fallacy.t)
    (tr : list Message.t) :
  map (fun m => if String.eqb (Message.id m) msgId
                then with_fallacy m f else m)
    (map (fun m => if String.eqb (Message.id m) msgId
                   then with_fallacy m g else m) tr)
  = map (fun m => if String.eqb (Message.id m) msgId
                  then with_fallacy m f else m) tr.
Proof.
  rewrite map_map. apply map_ext. intro m.
  destruct (String.eqb_spec (Message.id m) msgId) as [Hm | Hm].
  - cbn [with_fallacy Message.id].
    now rewrite (proj2 (String.eqb_eq _ _) Hm).
  - now rewrite (proj2 (String.eqb_neq _ _) Hm).
Qed.

(** X17.  The order in which a detached fallacy analysis lands does not
    matter.  Attaching a fallacy commutes with the rotation boundary, with
    appending a message under another id, and with attaching a fallacy to
    another id; attaching twice to the same id keeps the later finding. *)
Theorem fallacy_attachment_commutes
    (msgId : string) (f : Fallacy.t) (s : DebateState.t) :
  (forall agents,
     advanceTurn agents (updateMessageFallacy msgId f s)
     = option_map (updateMessageFallacy msgId f) (advanceTurn agents s))
  /\ (forall state uuid now agentId content citations phase isGuest
             guestRole existingId,
        match existingId with
        | Some i => or_string i uuid
        | None => uuid
        end <> msgId ->
        updateMessageFallacy msgId f
          (addMessage state uuid now agentId content citations phase
             isGuest guestRole existingId s)
        = addMessage state uuid now agentId content citations phase
            isGuest guestRole existingId (updateMessageFallacy msgId f s))
  /\ (forall otherId g,
        otherId <> msgId ->
        updateMessageFallacy msgId f (updateMessageFallacy otherId g s)
        = updateMessageFallacy otherId g (updateMessageFallacy msgId f s))
  /\ (forall g,
        updateMessageFallacy msgId f (updateMessageFallacy msgId g s)
        = updateMessageFallacy msgId f s).
Proof.
  destruct s as [tp md maxR round ph turn tr thinking who question verdict
                   usage stop prompt guest docs].
  split_and.
  - intro agents. unfold advanceTurn, updateMessageFallacy.
    cbn [userRequestedStop currentTurnAgentId phase mode currentRound
         maxRounds transcript set_transcript].
    destruct stop; [reflexivity |].
    destruct (_ >=? length_Z agents); destruct ph; cbn [DebatePhase_eqb];
      try destruct md; try destruct (round >=? maxR);
      cbn [DebatePhase_eqb];
      try destruct (at_index agents _); reflexivity.
  - intros state uuid now agentId content citations phase isGuest
           guestRole existingId Hother.
    unfold updateMessageFallacy, addMessage.
    cbn [transcript set_transcript]. rewrite map_app. cbn [map Message.id].
    apply String.eqb_neq in Hother. now rewrite Hother.
  - intros otherId g Hother. unfold updateMessageFallacy.
    cbn [transcript set_transcript].
    now rewrite attach_other_commutes.
  - intro g. unfold updateMessageFallacy.
    cbn [transcript set_transcript].
    now rewrite attach_same_overwrites.
Qed.

Lemma fallacy_attachment_commutes_witness :
  updateMessageFallacy "m1" (Fallacy.mk "Strawman" "Misstates." minor)
    (addMessage INITIAL_STATE "m2" 9 "b2" "I disagree." None None false
       None None
       (set_transcript [sample_message "m1" "x"] INITIAL_STATE))
  = addMessage INITIAL_STATE "m2" 9 "b2" "I disagree." None None false
      None None
      (updateMessageFallacy "m1" (Fallacy.mk "Strawman" "Misstates." minor)
         (set_transcript [sample_message "m1" "x"] INITIAL_STATE)).
Proof.
  destruct (fallacy_attachment_commutes "m1"
              (Fallacy.mk "Strawman" "Misstates." minor)
              (set_transcript [sample_message "m1" "x"] INITIAL_STATE))
    as (_ & Happend & _).
  apply Happend. discriminate.
Defined.

(** ** Credentials, votes and the verdict *)

(** X18.  Missing credentials are never retried and never waited on.
    Without a Google key the retry helper rejects before its first call,
    for any number of retries; without an OpenRouter key the secondary call
    rejects without a fetch.  An agent turn made with the key of its
    provider missing therefore costs no wait and yields the filler text. *)
Theorem missing_credentials_fail_at_once
    (cfg : LLMConfig.t) (envApiKey : option string) :
  (truthy (LLMConfig.apiKey cfg) = false ->
   truthy envApiKey = false ->
   forall (calls : nat -> outcome GenericResponse.t) attempt retries backoff,
     generateContentWithRetry cfg envApiKey calls attempt retries backoff
     = ([], Rejected (Error "Google API Key not found")))
  /\ (truthy (LLMConfig.openRouterApiKey cfg) = false ->
      forall reply,
        callOpenRouter cfg reply
        = Rejected (Error "OpenRouter API Key not found"))
  /\ (forall forceOpenRouter reply calls agent,
        match LLMConfig.provider cfg, forceOpenRouter with
        | GOOGLE, false =>
            truthy (LLMConfig.apiKey cfg) = false
            /\ truthy envApiKey = false
        | _, _ => truthy (LLMConfig.openRouterApiKey cfg) = false
        end ->
        fst (generateGeneric cfg envApiKey forceOpenRouter reply calls) = []
        /\ generateAgentTurn agent
             (snd (generateGeneric cfg envApiKey forceOpenRouter reply
                     calls))
           = GenericResponse.mk "Error generating response." None None 0).
Proof.
  assert (Hgoogle :
            truthy (LLMConfig.apiKey cfg) = false ->
            truthy envApiKey = false ->
            forall (calls : nat -> outcome GenericResponse.t) attempt
                   retries backoff,
              generateContentWithRetry cfg envApiKey calls attempt retries
                backoff
              = ([], Rejected (Error "Google API Key not found"))).
  { intros Hkey Henv calls attempt retries backoff.
    destruct retries; simpl; unfold getClient; now rewrite Hkey, Henv. }
  assert (Hopen :
            truthy (LLMConfig.openRouterApiKey cfg) = false ->
            forall reply,
              callOpenRouter cfg reply
              = Rejected (Error "OpenRouter API Key not found")).
  { intros Hkey reply. unfold callOpenRouter. now rewrite Hkey. }
  split_and; [exact Hgoogle | exact Hopen |].
  intros forceOpenRouter reply calls agent Hmissing.
  unfold generateGeneric.
  destruct (LLMConfig.provider cfg), forceOpenRouter;
    try (rewrite (Hopen Hmissing); split; reflexivity).
  destruct Hmissing as [Hkey Henv].
  rewrite (Hgoogle Hkey Henv). split; reflexivity.
Qed.

Lemma missing_credentials_fail_at_once_witness :
  generateContentWithRetry
    (LLMConfig.mk GOOGLE None None None "gemini-3-flash-preview") None
    (fun _ => Resolved (plain_reply "never asked")) 0 3 2000
  = ([], Rejected (Error "Google API Key not found")).
Proof.
  destruct (missing_credentials_fail_at_once
              (LLMConfig.mk GOOGLE None None None "gemini-3-flash-preview")
              None) as [Hgoogle _].
  apply Hgoogle; reflexivity.
Defined.

(** X19.  A vote that [castVote] returns never has score zero and never an
    empty reason: a missing or zero score is recorded as 5, any other score
    as given, and a missing or empty reason is replaced by a stock
    phrase. *)
Theorem castVote_never_records_zero_score
    (agent : Agent.t) (otherAgents : list Agent.t)
    (call : outcome (parsed VoteJson.t)) (v : Vote.t) :
  castVote agent otherAgents call = Resolved v ->
  ~ (Vote.score v == 0)%Q
  /\ Vote.reason v <> EmptyString
  /\ (forall json q,
        call = Resolved (Json json) ->
        VoteJson.score json = Some q ->
        Vote.score v = if Qeq_bool q 0 then 5%Q else q)
  /\ (forall json,
        call = Resolved (Json json) ->
        VoteJson.score json = None ->
        Vote.score v = 5%Q).
Proof.
  unfold castVote.
  destruct call as [response | e]; [| discriminate].
  destruct (at_index _ 0) as [first |]; [| discriminate].
  destruct response as [| | json]; intros [= <-];
    cbn [Vote.score Vote.reason]; split_and;
    try (intro H; discriminate H);
    try (intros ? ? H; discriminate H);
    try (intros ? H; discriminate H).
  - destruct (VoteJson.score json) as [q |]; [| intro H; discriminate H].
    destruct (Qeq_bool q 0) eqn:Hzero; [intro H; discriminate H |].
    now apply Qeq_bool_neq.
  - apply or_field_nonempty. discriminate.
  - intros json' q [= <-] Hscore. now rewrite Hscore.
  - intros json' [= <-] Hscore. now rewrite Hscore.
Qed.

Lemma castVote_never_records_zero_score_witness :
  exists v,
    castVote alice [alice; bob]
      (Resolved (Json (VoteJson.mk (Some "b2") (Some 0%Q) None)))
    = Resolved v
    /\ Vote.score v = 5%Q
    /\ Vote.reason v <> EmptyString.
Proof.
  eexists. split; [reflexivity |].
  destruct (castVote_never_records_zero_score alice [alice; bob]
              (Resolved (Json (VoteJson.mk (Some "b2") (Some 0%Q) None)))
              _ eq_refl) as (_ & Hreason & Hscore & _).
  split; [| exact Hreason].
  apply (Hscore (VoteJson.mk (Some "b2") (Some 0%Q) None) 0%Q);
    reflexivity.
Defined.

(** X20.  On a roster that is not empty, a verdict call that resolves to
    anything but [null] always yields a verdict: it carries the votes
    exactly as collected and a non-empty summary; a reply that does not
    parse gives the safe default (first agent as winner, "Debate
    concluded.", no takeaways); a reply that names a winner is taken at its
    word, whether or not the roster knows that id.  A rejected call and a
    [null] reply reject. *)
Theorem final_verdict_safe_default
    (votes : list Vote.t) (first : Agent.t) (others : list Agent.t) :
  (forall response,
     response <> JsonNull ->
     exists verdict,
       generateFinalVerdict votes (first :: others) (Resolved response)
       = Resolved verdict
       /\ FinalVerdict.votes verdict = votes
       /\ FinalVerdict.summary verdict <> EmptyString
       /\ (response = Unparsable ->
           verdict = FinalVerdict.mk (Agent.id first) "Debate concluded."
                       [] votes)
       /\ (forall json winner,
             response = Json json ->
             VerdictJson.winnerId json = Some winner ->
             winner <> EmptyString ->
             FinalVerdict.winnerId verdict = winner)
       /\ (forall json,
             response = Json json ->
             truthy (VerdictJson.winnerId json) = false ->
             FinalVerdict.winnerId verdict = Agent.id first))
  /\ (forall e,
        generateFinalVerdict votes (first :: others) (Rejected e)
        = Rejected e)
  /\ generateFinalVerdict votes (first :: others) (Resolved JsonNull)
     = Rejected TypeError_null.
Proof.
  split_and; try reflexivity.
  intros response Hnull. unfold generateFinalVerdict.
  rewrite at_index_head.
  destruct response as [| | json]; [| contradiction |].
  - eexists. split; [reflexivity |]. cbn.
    split_and; try reflexivity; discriminate.
  - destruct (VerdictJson.winnerId json) as [winner |] eqn:Hwinner;
      [destruct (String.eqb_spec winner EmptyString) as [-> | Hne] |];
      (eexists; split; [reflexivity |]);
      cbn [FinalVerdict.votes FinalVerdict.summary FinalVerdict.winnerId];
      split_and; try reflexivity; try discriminate;
      try (apply or_field_nonempty; discriminate);
      try (intros json' winner' [= <-]; rewrite Hwinner;
           intros [= <-] Habs; congruence);
      try (intros json' [= <-]; rewrite Hwinner; cbn [truthy];
           apply String.eqb_neq in Hne; rewrite Hne; discriminate);
      try (intros json' winner' [= <-]; rewrite Hwinner; discriminate).
Qed.

Lemma final_verdict_safe_default_witness :
  exists verdict,
    generateFinalVerdict [] [alice; bob]
      (Resolved (Json (VerdictJson.mk (Some "Carol") None None)))
    = Resolved verdict
    /\ FinalVerdict.winnerId verdict = "Carol".
Proof.
  destruct (final_verdict_safe_default [] alice [bob]) as [Hresolved _].
  destruct (Hresolved (Json (VerdictJson.mk (Some "Carol") None None)))
    as (verdict & Hverdict & _ & _ & _ & Hwinner & _); [discriminate |].
  exists verdict. split; [exact Hverdict |].
  apply (Hwinner (VerdictJson.mk (Some "Carol") None None) "Carol");
    [reflexivity | reflexivity | discriminate].
Defined.

(** ** Follow-up questions *)

(** X21.  A follow-up question never re-enters the phase cycle.  Without a
    verdict it changes nothing.  With one, it appends the question and,
    only if the call resolves, the chairperson's answer (never empty: an
    empty reply becomes "I cannot answer that."); turn, phase, round and
    verdict stay as they are, and [isThinking] ends lowered even when the
    call fails. *)
Theorem follow_up_never_moves_the_debate
    (state : DebateState.t) (uuid : nat -> string) (now : nat -> Z)
    (question : string) (call : outcome GenericResponse.t)
    (prev : DebateState.t) :
  (finalVerdict state = None ->
   handleFollowUp state uuid now question call prev = prev)
  /\ (finalVerdict state <> None ->
      phase (handleFollowUp state uuid now question call prev) = phase prev
      /\ currentRound (handleFollowUp state uuid now question call prev)
         = currentRound prev
      /\ currentTurnAgentId
           (handleFollowUp state uuid now question call prev)
         = currentTurnAgentId prev
      /\ finalVerdict (handleFollowUp state uuid now question call prev)
         = finalVerdict prev
      /\ isThinking (handleFollowUp state uuid now question call prev)
         = false
      /\ exists asked,
           Message.agentId asked = "user"
           /\ Message.content asked = question
           /\ match call with
              | Resolved reply =>
                  exists answered,
                    transcript
                      (handleFollowUp state uuid now question call prev)
                    = (transcript prev ++ [asked; answered])%list
                    /\ Message.agentId answered = CHAIRPERSON
                    /\ Message.content answered
                       = or_string (GenericResponse.text reply)
                                   "I cannot answer that."
                    /\ Message.content answered <> EmptyString
              | Rejected _ =>
                  transcript
                    (handleFollowUp state uuid now question call prev)
                  = (transcript prev ++ [asked])%list
              end).
Proof.
  unfold handleFollowUp. split.
  - intros ->. reflexivity.
  - destruct (finalVerdict state) as [verdict |]; [| contradiction].
    intros _. destruct call as [reply | e];
      cbn [generateFollowUp phase currentRound currentTurnAgentId
           finalVerdict isThinking transcript set_isThinking addMessage
           set_transcript];
      split_and; try reflexivity;
      exists (turn_message (uuid 0%nat) (now 0%nat) "user" question None
                (phase state));
      (split; [reflexivity |]); (split; [reflexivity |]).
    + exists (turn_message (uuid 1%nat) (now 1%nat) CHAIRPERSON
                (or_string (GenericResponse.text reply)
                           "I cannot answer that.")
                None (phase state)).
      split; [rewrite <- app_assoc; reflexivity |].
      cbn [Message.agentId Message.content turn_message].
      split_and; try reflexivity.
      unfold or_string.
      destruct (String.eqb_spec (GenericResponse.text reply) EmptyString);
        [discriminate | assumption].
    + reflexivity.
Qed.

Lemma follow_up_never_moves_the_debate_witness :
  handleFollowUp INITIAL_STATE (fun _ => "u") (fun _ => 3) "And then?"
    (Resolved (plain_reply "It depends."))
    (sample_state FIXED 2 2 VERDICT None false)
  = sample_state FIXED 2 2 VERDICT None false.
Proof.
  destruct (follow_up_never_moves_the_debate INITIAL_STATE (fun _ => "u")
              (fun _ => 3) "And then?" (Resolved (plain_reply "It depends."))
              (sample_state FIXED 2 2 VERDICT None false)) as [Hnone _].
  apply Hnone. reflexivity.
Defined.

(** ** Choosing the roster *)

Lemma find_app_none {A : Type} (p : A -> bool) (xs ys : list A) :
  find p xs = None -> find p (xs ++ ys) = find p ys.
Proof.
  induction xs as [| x xs IH]; simpl; [reflexivity |].
  destruct (p x); [discriminate | exact IH].
Qed.

Lemma filter_other_ids (agent : Agent.t) (agents : list Agent.t) :
  ~ In (Agent.id agent) (roster_ids agents) ->
  filter (fun a => negb (String.eqb (Agent.id a) (Agent.id agent))) agents
  = agents.
Proof.
  induction agents as [| a agents IH]; intro Hfresh; simpl; [reflexivity |].
  destruct (String.eqb_spec (Agent.id a) (Agent.id agent)) as [Heq | _].
  - exfalso. apply Hfresh. simpl. now left.
  - simpl. rewrite IH; [reflexivity |].
    intro Hin. apply Hfresh. simpl. now right.
Qed.

Lemma find_by_id_none (agent : Agent.t) (agents : list Agent.t) :
  find (fun a => String.eqb (Agent.id a) (Agent.id agent)) agents = None
  <-> ~ In (Agent.id agent) (roster_ids agents).
Proof.
  induction agents as [| a agents IH]; simpl; [tauto |].
  destruct (String.eqb_spec (Agent.id a) (Agent.id agent)) as [Heq | Hne].
  - split; [discriminate | intro H; exfalso; apply H; now left].
  - rewrite IH. split.
    + intros Hfresh [H | H]; [contradiction | now apply Hfresh].
    + intros Hfresh H. apply Hfresh. now right.
Qed.

Lemma roster_ids_filter (p : Agent.t -> bool) (agents : list Agent.t) :
  NoDup (roster_ids agents) -> NoDup (roster_ids (filter p agents)).
Proof.
  induction agents as [| a agents IH]; simpl; intro Hdistinct;
    [constructor |].
  apply NoDup_cons_iff in Hdistinct as [Hfresh Hrest].
  destruct (p a); simpl; [| now apply IH].
  constructor; [| now apply IH].
  intro Hin. apply Hfresh. unfold roster_ids in *.
  apply in_map_iff in Hin as (b & Hid & Hb).
  apply filter_In in Hb as [Hb _].
  rewrite <- Hid. now apply in_map.
Qed.

Lemma toggleAgent_member (selectedAgents : list Agent.t) (agent : Agent.t) :
  In (Agent.id agent) (roster_ids selectedAgents) ->
  toggleAgent selectedAgents agent
  = filter (fun a => negb (String.eqb (Agent.id a) (Agent.id agent)))
           selectedAgents.
Proof.
  intro Hin. unfold toggleAgent.
  destruct (find _ selectedAgents) eqn:Hfind; [reflexivity |].
  apply find_by_id_none in Hfind. contradiction.
Qed.

Lemma toggleAgent_fresh (selectedAgents : list Agent.t) (agent : Agent.t) :
  ~ In (Agent.id agent) (roster_ids selectedAgents) ->
  toggleAgent selectedAgents agent
  = if (length selectedAgents <? 5)%nat
    then (selectedAgents ++ [agent])%list
    else selectedAgents.
Proof.
  intro Hfresh. unfold toggleAgent.
  now rewrite (proj2 (find_by_id_none agent selectedAgents) Hfresh).
Qed.

(** X22.  Toggling agents in the setup view keeps the selection well
    formed: ids stay distinct and the selection never grows beyond five.
    Toggling an agent that is selected removes every agent with its id;
    toggling one that is not selected, with room left, appends it, and
    toggling it again restores the selection exactly; at five agents a
    new one is ignored. *)
Theorem toggleAgent_keeps_selection_well_formed
    (selectedAgents : list Agent.t) (agent : Agent.t) :
  (NoDup (roster_ids selectedAgents) ->
   NoDup (roster_ids (toggleAgent selectedAgents agent)))
  /\ ((length selectedAgents <= 5)%nat ->
      (length (toggleAgent selectedAgents agent) <= 5)%nat)
  /\ (In (Agent.id agent) (roster_ids selectedAgents) ->
      ~ In (Agent.id agent)
           (roster_ids (toggleAgent selectedAgents agent)))
  /\ (~ In (Agent.id agent) (roster_ids selectedAgents) ->
      (length selectedAgents < 5)%nat ->
      toggleAgent selectedAgents agent = (selectedAgents ++ [agent])%list
      /\ toggleAgent (toggleAgent selectedAgents agent) agent
         = selectedAgents)
  /\ (~ In (Agent.id agent) (roster_ids selectedAgents) ->
      (5 <= length selectedAgents)%nat ->
      toggleAgent selectedAgents agent = selectedAgents).
Proof.
  assert (Hroom : ~ In (Agent.id agent) (roster_ids selectedAgents) ->
                  (length selectedAgents < 5)%nat ->
                  toggleAgent selectedAgents agent
                  = (selectedAgents ++ [agent])%list).
  { intros Hfresh Hlt. rewrite toggleAgent_fresh by assumption.
    apply Nat.ltb_lt in Hlt. now rewrite Hlt. }
  assert (Hfull : ~ In (Agent.id agent) (roster_ids selectedAgents) ->
                  (5 <= length selectedAgents)%nat ->
                  toggleAgent selectedAgents agent = selectedAgents).
  { intros Hfresh Hge. rewrite toggleAgent_fresh by assumption.
    apply Nat.ltb_ge in Hge. now rewrite Hge. }
  split_and.
  - intro Hdistinct.
    destruct (in_dec string_dec (Agent.id agent)
                     (roster_ids selectedAgents)) as [Hin | Hfresh].
    + rewrite toggleAgent_member by assumption.
      now apply roster_ids_filter.
    + destruct (Nat.lt_ge_cases (length selectedAgents) 5) as [Hlt | Hge].
      * rewrite Hroom by assumption.
        unfold roster_ids. rewrite map_app. simpl.
        apply NoDup_app; [exact Hdistinct | repeat constructor; tauto |].
        intros x Hx [<- | []]. contradiction.
      * now rewrite Hfull.
  - intro Hlen.
    destruct (in_dec string_dec (Agent.id agent)
                     (roster_ids selectedAgents)) as [Hin | Hfresh].
    + rewrite toggleAgent_member by assumption.
      pose proof (filter_length_le
                    (fun a => negb (String.eqb (Agent.id a) (Agent.id agent)))
                    selectedAgents).
      lia.
    + destruct (Nat.lt_ge_cases (length selectedAgents) 5) as [Hlt | Hge].
      * rewrite Hroom by assumption. rewrite length_app. simpl. lia.
      * now rewrite Hfull.
  - intros Hin. rewrite toggleAgent_member by assumption.
    intro Hstill. unfold roster_ids in Hstill.
    apply in_map_iff in Hstill as (b & Hid & Hb).
    apply filter_In in Hb as [_ Hb].
    apply negb_true_iff, String.eqb_neq in Hb. contradiction.
  - intros Hfresh Hlt. split; [now apply Hroom |].
    rewrite Hroom by assumption.
    rewrite toggleAgent_member.
    + rewrite filter_app, filter_other_ids by assumption.
      simpl. rewrite String.eqb_refl. simpl. apply app_nil_r.
    + unfold roster_ids. rewrite map_app. apply in_or_app. right.
      simpl. now left.
  - exact Hfull.
Qed.

Lemma toggleAgent_keeps_selection_well_formed_witness :
  toggleAgent (toggleAgent [alice; bob] carol) carol = [alice; bob].
Proof.
  destruct (toggleAgent_keeps_selection_well_formed [alice; bob] carol)
    as (_ & _ & _ & Hround & _).
  apply Hround.
  - simpl. intros [H | [H | []]]; discriminate H.
  - simpl. lia.
Defined.

(** ** Prompt history *)

(** X23.  The history put into an agent's prompt is always the tail of the
    transcript, in order, and holds the whole transcript up to fifteen
    messages and exactly the last fifteen beyond. *)
Theorem recentTranscript_is_last_fifteen (transcript : list Message.t) :
  (exists older,
     transcript = (older ++ recentTranscript transcript)%list
     /\ length older = (length transcript - 15)%nat)
  /\ length (recentTranscript transcript)
     = Nat.min 15 (length transcript)
  /\ ((length transcript <= 15)%nat ->
      recentTranscript transcript = transcript)
  /\ (forall m, In m (recentTranscript transcript) -> In m transcript).
Proof.
  unfold recentTranscript, slice_last.
  destruct (Nat.ltb_spec 15 (length transcript)) as [Hlong | Hshort].
  - split_and.
    + exists (firstn (length transcript - 15) transcript).
      split; [now rewrite firstn_skipn |].
      rewrite length_firstn. lia.
    + rewrite length_skipn. lia.
    + intro Hle. lia.
    + intros m Hin.
      rewrite <- (firstn_skipn (length transcript - 15) transcript).
      apply in_or_app. now right.
  - split_and.
    + exists []. split; [reflexivity | simpl; lia].
    + lia.
    + reflexivity.
    + tauto.
Qed.

Lemma recentTranscript_is_last_fifteen_witness :
  recentTranscript [sample_message "m1" "x"; sample_message "m2" "y"]
  = [sample_message "m1" "x"; sample_message "m2" "y"].
Proof.
  destruct (recentTranscript_is_last_fifteen
              [sample_message "m1" "x"; sample_message "m2" "y"])
    as (_ & _ & Hshort & _).
  apply Hshort. simpl. lia.
Defined.

(** ** The orchestrator's other two outcomes *)

(** X24.  A decision that concludes, or any decision met by a pending stop
    request, sends the debate to VOTING whatever else it asks for: the step
    appends one system message announcing the conclusion, clears the turn,
    summons no guest and raises no prompt, on any roster; the next run of
    the loop is the voting pass. *)
Theorem conclusion_overrides_guest_and_consultation
    (w : World.t) (agents : list Agent.t) (s : DebateState.t)
    (decision : OrchestratorDecision.t) :
  orchestratorDecide (currentRound s) (World.decisionCall w)
  = Resolved decision ->
  OrchestratorDecision.shouldConclude decision = true
  \/ userRequestedStop s = true ->
  exists s' notice,
    orchestratorTurn w agents s = Some s'
    /\ transcript s' = (transcript s ++ [notice])%list
    /\ Message.agentId notice = "system"
    /\ Message.content notice
       = "Chairperson Concluding: "
           ++ OrchestratorDecision.guidance decision
    /\ phase s' = VOTING
    /\ currentTurnAgentId s' = None
    /\ isThinking s' = false
    /\ currentRound s' = currentRound s
    /\ summonedGuest s' = summonedGuest s
    /\ showConsultationPrompt s' = showConsultationPrompt s
    /\ forall w' refs,
         Refs.processingRef refs = false ->
         pendingUserQuestion s = None ->
         showConsultationPrompt s = false ->
         finalVerdict s = None ->
         runDebateStep w' agents refs s'
         = Some (Refs.mk false (Refs.pendingToolCallRef refs),
                 votingPass w' agents s').
Proof.
  intros Hdecide Hwhy.
  assert (Hgo : OrchestratorDecision.shouldConclude decision
                || userRequestedStop s = true).
  { destruct Hwhy as [-> | ->]; [reflexivity | apply orb_true_r]. }
  unfold orchestratorTurn. rewrite Hdecide, Hgo.
  do 2 eexists. split; [reflexivity |].
  cbn [transcript phase currentTurnAgentId isThinking currentRound
       summonedGuest showConsultationPrompt set_isThinking set_phase
       set_currentTurnAgentId addMessage set_transcript Message.agentId
       Message.content].
  split_and; try reflexivity.
  intros w' refs Hidle Hquestion Hprompt Hverdict.
  unfold runDebateStep.
  cbn [pendingUserQuestion showConsultationPrompt phase isThinking
       finalVerdict set_isThinking set_phase set_currentTurnAgentId
       addMessage set_transcript].
  now rewrite Hidle, Hquestion, Hprompt, Hverdict.
Qed.

Lemma conclusion_overrides_guest_and_consultation_witness :
  exists s',
    orchestratorTurn
      (sample_world names_bob (Resolved (plain_reply "x"))
         (Resolved (Json (DecisionJson.mk (Some false) (Some "Go on.")
                            (Some true) (Some sample_guest)))))
      [alice; bob]
      (sample_state AUTO 2 2 SYNTHESIS (Some ORCHESTRATOR) true)
    = Some s'
    /\ phase s' = VOTING
    /\ summonedGuest s' = None
    /\ map Message.content (transcript s')
       = ["Chairperson Concluding: Go on."].
Proof.
  destruct (conclusion_overrides_guest_and_consultation
              (sample_world names_bob (Resolved (plain_reply "x"))
                 (Resolved (Json (DecisionJson.mk (Some false)
                                    (Some "Go on.") (Some true)
                                    (Some sample_guest)))))
              [alice; bob]
              (sample_state AUTO 2 2 SYNTHESIS (Some ORCHESTRATOR) true)
              _ eq_refl)
    as (s' & notice & Hstep & Htr & _ & Hcontent & Hphase & _ & _ & _
        & Hguest & _).
  - right. reflexivity.
  - exists s'. split_and; try assumption.
    rewrite Htr. simpl. now rewrite Hcontent.
Defined.

(** X25.  A decision that neither concludes, summons nor consults (and no
    stop pending) starts the next round: the step appends the guidance as
    one chairperson message (["Continue the debate."] when the reply gave
    none) and returns REBUTTAL at the first agent with the round plus one;
    the next run of the loop starts that agent's turn. *)
Theorem plain_guidance_starts_next_round
    (w : World.t) (first : Agent.t) (others : list Agent.t)
    (s : DebateState.t) (decision : OrchestratorDecision.t) :
  orchestratorDecide (currentRound s) (World.decisionCall w)
  = Resolved decision ->
  OrchestratorDecision.shouldConclude decision = false ->
  userRequestedStop s = false ->
  OrchestratorDecision.summonGuest decision = None ->
  OrchestratorDecision.shouldConsultUser decision = false ->
  exists s' guidance,
    orchestratorTurn w (first :: others) s = Some s'
    /\ transcript s' = (transcript s ++ [guidance])%list
    /\ Message.agentId guidance = CHAIRPERSON
    /\ Message.content guidance = OrchestratorDecision.guidance decision
    /\ Message.content guidance <> EmptyString
    /\ phase s' = REBUTTAL
    /\ currentTurnAgentId s' = Some (Agent.id first)
    /\ currentRound s' = currentRound s + 1
    /\ isThinking s' = false
    /\ forall w' refs,
         Refs.processingRef refs = false ->
         pendingUserQuestion s = None ->
         showConsultationPrompt s = false ->
         Agent.id first <> ORCHESTRATOR ->
         Agent.id first <> EmptyString ->
         runDebateStep w' (first :: others) refs s'
         = startTurn w' (first :: others) refs s'.
Proof.
  intros Hdecide Hgo Hstop Hguest Hconsult.
  assert (Hguidance : OrchestratorDecision.guidance decision <> EmptyString).
  { unfold orchestratorDecide in Hdecide.
    destruct (World.decisionCall w) as [[| | json] | e];
      try discriminate Hdecide; injection Hdecide as <-;
      cbn [OrchestratorDecision.guidance];
      first [apply or_field_nonempty; discriminate | discriminate]. }
  unfold orchestratorTurn, next_round.
  rewrite Hdecide, Hgo, Hstop, Hguest, Hconsult, at_index_head.
  cbn [orb].
  do 2 eexists. split; [reflexivity |].
  cbn [transcript phase currentTurnAgentId isThinking currentRound
       set_isThinking set_currentRound set_phase set_currentTurnAgentId
       addMessage set_transcript Message.agentId Message.content].
  split_and; try reflexivity; try assumption.
  intros w' refs Hidle Hquestion Hprompt Horch Hid.
  apply runDebateStep_starts_turn with (agent := first);
    try assumption; try reflexivity.
  - simpl. tauto.
  - cbn [currentTurnAgentId set_isThinking set_currentRound set_phase
         set_currentTurnAgentId find id_is].
    now rewrite String.eqb_refl.
Qed.

Lemma plain_guidance_starts_next_round_witness :
  exists s',
    orchestratorTurn
      (sample_world names_bob (Resolved (plain_reply "x"))
         (Resolved Unparsable))
      [alice; bob]
      (sample_state AUTO 2 2 SYNTHESIS (Some ORCHESTRATOR) false)
    = Some s'
    /\ currentRound s' = 3
    /\ phase s' = REBUTTAL
    /\ map Message.content (transcript s') = ["Continue the debate."].
Proof.
  destruct (plain_guidance_starts_next_round
              (sample_world names_bob (Resolved (plain_reply "x"))
                 (Resolved Unparsable))
              alice [bob]
              (sample_state AUTO 2 2 SYNTHESIS (Some ORCHESTRATOR) false)
              _ eq_refl eq_refl eq_refl eq_refl eq_refl)
    as (s' & guidance & Hstep & Htr & _ & Hcontent & _ & Hphase & _
        & Hround & _).
  exists s'. split_and; try assumption.
  rewrite Htr. simpl. now rewrite Hcontent.
Defined.

(** ** From the start button to the first turn *)

(** X26.  [handleStart] refuses an empty roster and otherwise opens the
    debate in OPENING, round one, at the first agent, with an empty
    transcript, no verdict and no stop pending, under the topic, mode and
    round limit given.  The first run of the loop then starts the first
    agent's turn; if its generation resolves with plain text, that text
    (or ["I have no further comments."] when empty) is the first message
    and, on a roster of two or more, the turn passes to the second
    agent. *)
Theorem start_opens_with_the_first_agent
    (uuid : string) (now : Z) (topic : string) (m : DebateMode) (R : Z)
    (ctx : string) :
  handleStart uuid now topic [] m R ctx = None
  /\ forall first others,
       exists s0,
         handleStart uuid now topic (first :: others) m R ctx = Some s0
         /\ phase s0 = OPENING
         /\ currentRound s0 = 1
         /\ currentTurnAgentId s0 = Some (Agent.id first)
         /\ transcript s0 = []
         /\ finalVerdict s0 = None
         /\ userRequestedStop s0 = false
         /\ DebateState.topic s0 = topic
         /\ mode s0 = m
         /\ maxRounds s0 = R
         /\ (length (contextDocuments s0) <= 1)%nat
         /\ forall w reply second rest,
              others = second :: rest ->
              Agent.id first <> ORCHESTRATOR ->
              Agent.id first <> EmptyString ->
              World.turnCall w = Resolved reply ->
              GenericResponse.toolCall reply = None ->
              exists s1 opening,
                runDebateStep w (first :: others) (Refs.mk false None) s0
                = Some (Refs.mk false None, s1)
                /\ transcript s1 = [opening]
                /\ Message.agentId opening = Agent.id first
                /\ Message.content opening
                   = or_string (GenericResponse.text reply)
                               "I have no further comments."
                /\ Message.phase opening = Some OPENING
                /\ currentTurnAgentId s1 = Some (Agent.id second)
                /\ phase s1 = OPENING
                /\ currentRound s1 = 1.
Proof.
  split; [reflexivity |].
  intros first others. unfold handleStart. rewrite at_index_head.
  eexists. split; [reflexivity |].
  cbn [phase currentRound currentTurnAgentId transcript finalVerdict
       userRequestedStop DebateState.topic mode maxRounds contextDocuments
       INITIAL_STATE].
  split_and; try reflexivity.
  - destruct (blank ctx); simpl; lia.
  - intros w reply second rest -> Horch Hid Hcall Htool.
    match goal with
    | |- context [runDebateStep _ _ _ ?x] => set (s0 := x)
    end.
    assert (Hfind : find (id_is (currentTurnAgentId s0))
                      (first :: second :: rest) = Some first).
    { cbn [s0 currentTurnAgentId find id_is].
      now rewrite String.eqb_refl. }
    rewrite (runDebateStep_starts_turn w (first :: second :: rest)
               (Refs.mk false None) s0 first);
      try assumption; try reflexivity; [| simpl; tauto].
    unfold startTurn. rewrite Hfind, Hcall.
    cbn [generateAgentTurn]. rewrite Htool.
    cbn [GenericResponse.toolCall GenericResponse.text
         GenericResponse.citations Refs.pendingToolCallRef].
    rewrite (advanceTurn_next [] rest first second); try reflexivity.
    + cbn [option_map]. do 2 eexists. split; [reflexivity |].
      cbn. split_and; reflexivity.
    + simpl. tauto.
    + discriminate.
Qed.

Lemma start_opens_with_the_first_agent_witness :
  exists s0 s1,
    handleStart "u" 0 "Should tests be formal?" [alice; bob] FIXED 2
      EmptyString = Some s0
    /\ runDebateStep
         (sample_world names_bob (Resolved (plain_reply "Yes, always."))
            (Resolved Unparsable))
         [alice; bob] (Refs.mk false None) s0
       = Some (Refs.mk false None, s1)
    /\ map Message.content (transcript s1) = ["Yes, always."]
    /\ currentTurnAgentId s1 = Some "b2".
Proof.
  destruct (start_opens_with_the_first_agent "u" 0
              "Should tests be formal?" FIXED 2 EmptyString)
    as [_ Hstart].
  destruct (Hstart alice [bob])
    as (s0 & Hs0 & _ & _ & _ & _ & _ & _ & _ & _ & _ & _ & Hfirst).
  destruct (Hfirst
              (sample_world names_bob (Resolved (plain_reply "Yes, always."))
                 (Resolved Unparsable))
              (plain_reply "Yes, always.") bob [])
    as (s1 & opening & Hstep & Htr & _ & Hcontent & _ & Hturn & _);
    try reflexivity; try discriminate.
  exists s0, s1. split_and; try assumption.
  rewrite Htr. simpl. now rewrite Hcontent.
Defined.
